(** * comoda-backfill: a shallow embedding of the per-source backfill pipeline

    The development follows the Python sources under [src/ingestion]:
    - [backfill_coinapi.py]     daily OHLCV bars ([daterange], [_symbol_id],
                                [fetch_day], [upsert_and_export], [run]),
    - [backfill_cryptopanic.py] news events ([_parse_date],
                                [_sentiment_from_item], [fetch_posts], [run]),
    - [backfill_lunarcrush.py]  social sentiment ([fetch_daily], [run]),
    - [utils/schemas.py]        the canonical record types.

    Conventions of the embedding.
    - A value decoded from a response body is a [json] term; Python's dynamic
      operations on it ([.get], [or], [+], [float], iteration) are written out
      with the exception they raise on the wrong kind of value.
    - A Python [float] is modelled by an exact rational ([Q]); rounding and
      overflow of floating point arithmetic are outside the model.  The
      conversion of an [int] to a [float] is in it: an [int] no double holds
      raises [OverflowError], as [float()] and mixed arithmetic do.
    - A string stands for a Python [str] on ASCII text; [upper], [strip] and
      [split] are the [str] methods there.
    - A statement sent to the database is refused when the database refuses
      it or when its values are not bound: the INSERT statements of the
      adapters name their values [%(name)s], which [sqlalchemy.text] does
      not bind.
    - A [date] is its proleptic Gregorian ordinal, bounded as Python's
      [datetime.date] is; adding a day past [date.max] raises [OverflowError].
    - Effects (HTTP exchange, clock, logger, export files, durable tables) are
      threaded through an explicit [world]; an exception leaves the world as
      it was when the exception was raised. *)

From Stdlib Require Import ZArith QArith Lia Lqa Ascii String.
From stdpp Require Import base option list gmap strings.
From Equations Require Import Equations.

Local Set Warnings "-register-all".
Local Open Scope string_scope.
Local Open Scope list_scope.
Local Open Scope Z_scope.

(* ===================================================================== *)
(** * Python values and exceptions                                         *)
(* ===================================================================== *)

Module Py.

(** The exceptions the modelled code can meet.  All of them derive from
    Python's [Exception], so an [except Exception] clause catches each. *)
Inductive exn : Type :=
| AttributeError
| TypeError
| ValueError
| KeyError
| IndexError
| OverflowError
| ZeroDivisionError
| JSONDecodeError
| TransportError (reason : string)
| OSError (path : string)
| DBAPIError.

Inductive result (A : Type) : Type :=
| Ok (a : A)
| Raise (e : exn).
Arguments Ok {A} a.
Arguments Raise {A} e.

Definition rbind {A B} (r : result A) (k : A → result B) : result B :=
  match r with
  | Ok a => k a
  | Raise e => Raise e
  end.

(** What [json.loads] produces. *)
Inductive json : Type :=
| JNull
| JBool (b : bool)
| JInt (z : Z)
| JFloat (q : Q)
| JStr (s : string)
| JArr (items : list json)
| JObj (fields : list (string * json)).

(** [bool(v)] *)
Definition truthy (v : json) : bool :=
  match v with
  | JNull => false
  | JBool b => b
  | JInt z => negb (z =? 0)%Z
  | JFloat q => negb (Qeq_bool q 0)
  | JStr s => negb (String.eqb s "")
  | JArr l => match l with [] => false | _ => true end
  | JObj kv => match kv with [] => false | _ => true end
  end.

(** [a or b] *)
Definition py_or (a b : json) : json := if truthy a then a else b.

Fixpoint assoc (k : string) (kv : list (string * json)) : option json :=
  match kv with
  | [] => None
  | (k', v) :: rest => if String.eqb k k' then Some v else assoc k rest
  end.

(** [d.get(k, default)]; only a dict has the method. *)
Definition get (d : json) (k : string) (default : json) : result json :=
  match d with
  | JObj kv => Ok (match assoc k kv with Some v => v | None => default end)
  | _ => Raise AttributeError
  end.

(** Numbers: [bool] is a subclass of [int], so [isinstance(v, (int, float))]
    holds exactly when [as_num v] is defined. *)
Inductive num : Type :=
| NInt (z : Z)
| NFloat (q : Q).

Definition as_num (v : json) : option num :=
  match v with
  | JBool b => Some (NInt (Z.b2z b))
  | JInt z => Some (NInt z)
  | JFloat q => Some (NFloat q)
  | _ => None
  end.

Definition num_Q (n : num) : Q :=
  match n with
  | NInt z => inject_Z z
  | NFloat q => q
  end.

(** The first integer that does not convert to a [float].  The conversion
    rounds to the nearest double, ties to even; the largest double is
    2^1024 - 2^971, and from 2^1024 - 2^970 on an integer rounds to 2^1024,
    which no double holds. *)
Definition float_limit : Z := 2 ^ 1024 - 2 ^ 970.

Arguments float_limit : simpl never.

Definition fits_float (n : num) : bool :=
  match n with
  | NInt z => (Z.abs z <? float_limit)%Z
  | NFloat _ => true
  end.

(** [float(n)] of a number, also where Python converts an [int] operand
    to meet a [float] one: an [int] out of the range of a double raises
    [OverflowError]. *)
Definition float_of_num (n : num) : result Q :=
  if fits_float n then Ok (num_Q n) else Raise OverflowError.

(** [a + b] *)
Definition add (a b : json) : result json :=
  match as_num a, as_num b with
  | Some (NInt x), Some (NInt y) => Ok (JInt (x + y))
  | Some x, Some y =>
      rbind (float_of_num x) (λ p,
      rbind (float_of_num y) (λ q, Ok (JFloat (p + q))))
  | _, _ =>
      match a, b with
      | JStr s, JStr t => Ok (JStr (s +:+ t))
      | JArr l, JArr m => Ok (JArr (l ++ m)%list)
      | _, _ => Raise TypeError
      end
  end.

(** [a - b] *)
Definition sub (a b : json) : result json :=
  match as_num a, as_num b with
  | Some (NInt x), Some (NInt y) => Ok (JInt (x - y))
  | Some x, Some y =>
      rbind (float_of_num x) (λ p,
      rbind (float_of_num y) (λ q, Ok (JFloat (p - q))))
  | _, _ => Raise TypeError
  end.

(** [v > n] for an [int] literal [n] *)
Definition gt_int (v : json) (n : Z) : result bool :=
  match as_num v with
  | Some x => Ok (negb (Qle_bool (num_Q x) (inject_Z n)))
  | None => Raise TypeError
  end.

(** [a / b], true division: the result is a float.  The quotient of two
    [int]s is rounded once, and raises [OverflowError] when it is out of
    the range of a double; with a [float] operand the [int] operand is
    converted first. *)
Definition truediv (a b : json) : result Q :=
  match as_num a, as_num b with
  | Some (NInt x), Some (NInt y) =>
      if (y =? 0)%Z then Raise ZeroDivisionError
      else if (Z.abs x <? float_limit * Z.abs y)%Z
           then Ok (inject_Z x / inject_Z y)%Q
           else Raise OverflowError
  | Some x, Some y =>
      rbind (float_of_num x) (λ p,
      rbind (float_of_num y) (λ q,
      if Qeq_bool q 0 then Raise ZeroDivisionError else Ok (p / q)%Q))
  | _, _ => Raise TypeError
  end.

(** [for it in v]: the items a [for] loop sees. *)
Definition iter (v : json) : result (list json) :=
  match v with
  | JArr l => Ok l
  | JObj kv => Ok (map (λ p, JStr (fst p)) kv)
  | JStr s => Ok (map (λ c, JStr (String c EmptyString)) (String.list_ascii_of_string s))
  | _ => Raise TypeError
  end.

(** [v[0]] *)
Definition index0 (v : json) : result json :=
  match v with
  | JArr (x :: _) => Ok x
  | JArr [] => Raise IndexError
  | JStr (String c _) => Ok (JStr (String c EmptyString))
  | JStr EmptyString => Raise IndexError
  | JObj _ => Raise KeyError
  | _ => Raise TypeError
  end.

(** [s[:n]] *)
Fixpoint take_str (n : nat) (s : string) : string :=
  match n, s with
  | S n', String c s' => String c (take_str n' s')
  | _, _ => EmptyString
  end.

Arguments take_str : simpl never.

(** [s.replace(old, new)] for a one-character [old] *)
Fixpoint replace_char (old : ascii) (new : string) (s : string) : string :=
  match s with
  | EmptyString => EmptyString
  | String c s' =>
      if Ascii.eqb c old then new +:+ replace_char old new s'
      else String c (replace_char old new s')
  end.

(** [s.upper()] on ASCII text, where it changes the letters a to z and
    nothing else.  The strings of this model stand for Python's [str] on
    ASCII text only (see [ascii_only]): a statement that uses a property of
    [upper] carries that premise, and elsewhere [upper s] is only the name
    of what [s.upper()] returns. *)
Definition upper_ascii (c : ascii) : ascii :=
  let n := nat_of_ascii c in
  if ((97 <=? n)%nat && (n <=? 122)%nat)%bool then ascii_of_nat (n - 32) else c.

Fixpoint upper (s : string) : string :=
  match s with
  | EmptyString => EmptyString
  | String c s' => String (upper_ascii c) (upper s')
  end.

(** Calendar dates by proleptic Gregorian ordinal ([date.toordinal()]):
    [date.min] is day 1 and [date.max], 9999-12-31, is day 3652059. *)
Definition date : Type := Z.
Definition date_min : date := 1.
Definition date_max : date := 3652059.

Definition valid_date (d : date) : Prop := date_min ≤ d ≤ date_max.

(** [d + timedelta(days=1)] *)
Definition add_day (d : date) : result date :=
  if (d <? date_max)%Z then Ok (d + 1) else Raise OverflowError.

Record datetime : Type := { dt_date : date; dt_micros : Z }.

(** The library functions the sources call and whose text is not part of the
    repository: formatting and parsing of dates and of floats. *)
Class Runtime : Type := {
  (** [d.strftime("%Y-%m-%d")] *)
  strftime_ymd : date → string;
  (** [datetime.strptime(s, "%Y-%m-%d").date()] *)
  strptime_ymd : string → result date;
  (** [datetime.fromisoformat(s)] *)
  fromisoformat : string → result datetime;
  (** [datetime.utcfromtimestamp(t)] for a number [t] *)
  utcfromtimestamp : Q → result datetime;
  (** [float(s)] and [int(s)] for a [str] *)
  float_of_str : string → result Q;
  int_of_str : string → result Z;
  (** the empty string is not an ISO date *)
  fromisoformat_empty : fromisoformat "" = Raise ValueError
}.

(** [float(v)] *)
Definition float `{Runtime} (v : json) : result Q :=
  match v with
  | JStr s => float_of_str s
  | _ => match as_num v with
         | Some n => float_of_num n
         | None => Raise TypeError
         end
  end.

(** [int(v)]: a float is truncated towards zero *)
Definition int `{Runtime} (v : json) : result Z :=
  match v with
  | JBool b => Ok (Z.b2z b)
  | JInt z => Ok z
  | JFloat q => Ok (Z.quot (Qnum q) (Z.pos (Qden q)))
  | JStr s => int_of_str s
  | _ => Raise TypeError
  end.

(** [c.isspace()] for an ASCII character: tab to carriage return, the
    four separators 0x1c to 0x1f, and the space. *)
Definition is_space (c : ascii) : bool :=
  let n := nat_of_ascii c in
  ((9 <=? n)%nat && (n <=? 13)%nat) || ((28 <=? n)%nat && (n <=? 32)%nat).

(** [s.lstrip()], [s.rstrip()] and [s.strip()] on ASCII text *)
Fixpoint lstrip (s : string) : string :=
  match s with
  | EmptyString => EmptyString
  | String c s' => if is_space c then lstrip s' else s
  end.

Fixpoint rstrip (s : string) : string :=
  match s with
  | EmptyString => EmptyString
  | String c s' =>
      match rstrip s' with
      | EmptyString => if is_space c then EmptyString else String c EmptyString
      | r => String c r
      end
  end.

Definition strip (s : string) : string := rstrip (lstrip s).

(** [s.split(sep)] for a one-character [sep]: never the empty list *)
Fixpoint split (sep : ascii) (s : string) : list string :=
  match s with
  | EmptyString => [EmptyString]
  | String c s' =>
      if Ascii.eqb c sep then EmptyString :: split sep s'
      else match split sep s' with
           | h :: t => String c h :: t
           | [] => [String c EmptyString]
           end
  end.

(** Text every character of which is ASCII: on such text a Python [str]
    and the bytes of this model are the same sequence. *)
Fixpoint ascii_only (s : string) : bool :=
  match s with
  | EmptyString => true
  | String c s' => (nat_of_ascii c <? 128)%nat && ascii_only s'
  end.

End Py.

Import Py.

(** [[t.strip().upper() for t in tokens.split(",") if t.strip()]]: the token
    list of the [run] command of the price, news and social-sentiment
    adapters (backfill_coinapi.py line 114, backfill_cryptopanic.py line 99,
    backfill_lunarcrush.py line 76). *)
Definition token_list_of (tokens : string) : list string :=
  map (λ t, upper (strip t))
    (List.filter (λ t, negb (String.eqb (strip t) "")) (split "," tokens)).

(* ===================================================================== *)
(** * Canonical record types ([utils/schemas.py])                          *)
(* ===================================================================== *)

(** Python does not enforce the annotations of a dataclass: a field
    annotated [str] holds whatever object the adapter passes.  The text
    fields the news adapter fills straight from the response are therefore
    [json] values; the fields an adapter converts with [float(...)] or fills
    with one of its own strings have the annotated type. *)

Module HistoricalMarketData.
Record BFHistoricalMarketData : Type := {
  token_symbol : string;
  date : Py.date;
  open_price : Q;
  high_price : Q;
  low_price : Q;
  close_price : Q;
  volume : Q;
  timestamp_fetched : datetime;
  source_api : string;
  backfill_run_id : string
}.
End HistoricalMarketData.

Module MarketNewsEvents.
Record BFMarketNewsEvents : Type := {
  token_symbol : string;
  date : Py.date;
  title : json;
  description : json;
  source : json;
  sentiment_score : Q;
  url : json;
  timestamp_fetched : datetime;
  backfill_run_id : string
}.
End MarketNewsEvents.

Module MarketSentiment.
Record BFMarketSentiment : Type := {
  token_symbol : string;
  date : Py.date;
  sentiment_score : Q;
  positive_mentions : Z;
  negative_mentions : Z;
  neutral_mentions : Z;
  source_api : string;
  timestamp_fetched : datetime;
  backfill_run_id : string
}.
End MarketSentiment.

Export HistoricalMarketData (BFHistoricalMarketData).
Export MarketNewsEvents (BFMarketNewsEvents).
Export MarketSentiment (BFMarketSentiment).

(** A row of a [pandas.DataFrame] built from [r.__dict__] of the records of
    one family, and the column assignment [df["backfill_run_id"] = run_id]. *)
Inductive row : Type :=
| PriceRow (r : BFHistoricalMarketData)
| NewsRow (r : BFMarketNewsEvents)
| SentimentRow (r : BFMarketSentiment).

Definition row_run_id (r : row) : string :=
  match r with
  | PriceRow x => HistoricalMarketData.backfill_run_id x
  | NewsRow x => MarketNewsEvents.backfill_run_id x
  | SentimentRow x => MarketSentiment.backfill_run_id x
  end.

Definition set_run_id (run_id : string) (r : row) : row :=
  match r with
  | PriceRow x =>
      PriceRow
        {| HistoricalMarketData.token_symbol := HistoricalMarketData.token_symbol x;
           HistoricalMarketData.date := HistoricalMarketData.date x;
           HistoricalMarketData.open_price := HistoricalMarketData.open_price x;
           HistoricalMarketData.high_price := HistoricalMarketData.high_price x;
           HistoricalMarketData.low_price := HistoricalMarketData.low_price x;
           HistoricalMarketData.close_price := HistoricalMarketData.close_price x;
           HistoricalMarketData.volume := HistoricalMarketData.volume x;
           HistoricalMarketData.timestamp_fetched := HistoricalMarketData.timestamp_fetched x;
           HistoricalMarketData.source_api := HistoricalMarketData.source_api x;
           HistoricalMarketData.backfill_run_id := run_id |}
  | NewsRow x =>
      NewsRow
        {| MarketNewsEvents.token_symbol := MarketNewsEvents.token_symbol x;
           MarketNewsEvents.date := MarketNewsEvents.date x;
           MarketNewsEvents.title := MarketNewsEvents.title x;
           MarketNewsEvents.description := MarketNewsEvents.description x;
           MarketNewsEvents.source := MarketNewsEvents.source x;
           MarketNewsEvents.sentiment_score := MarketNewsEvents.sentiment_score x;
           MarketNewsEvents.url := MarketNewsEvents.url x;
           MarketNewsEvents.timestamp_fetched := MarketNewsEvents.timestamp_fetched x;
           MarketNewsEvents.backfill_run_id := run_id |}
  | SentimentRow x =>
      SentimentRow
        {| MarketSentiment.token_symbol := MarketSentiment.token_symbol x;
           MarketSentiment.date := MarketSentiment.date x;
           MarketSentiment.sentiment_score := MarketSentiment.sentiment_score x;
           MarketSentiment.positive_mentions := MarketSentiment.positive_mentions x;
           MarketSentiment.negative_mentions := MarketSentiment.negative_mentions x;
           MarketSentiment.neutral_mentions := MarketSentiment.neutral_mentions x;
           MarketSentiment.source_api := MarketSentiment.source_api x;
           MarketSentiment.timestamp_fetched := MarketSentiment.timestamp_fetched x;
           MarketSentiment.backfill_run_id := run_id |}
  end.

(* ===================================================================== *)
(** * The world an adapter runs in                                         *)
(* ===================================================================== *)

Record request : Type := {
  req_url : string;
  req_headers : list (string * string);
  req_params : option (list (string * string))
}.

(** An HTTP response: [r.status_code], [r.text] and what [r.json()] gives
    (a decoded value, or the exception a malformed body raises). *)
Record response : Type := {
  status_code : Z;
  text : string;
  json_body : result json
}.

(** What one [await client.get(...)] meets: a response, or a transport
    error (connection reset, DNS failure, timeout). *)
Inductive outcome : Type :=
| Respond (r : response)
| Fail (e : exn).

Inductive logval : Type :=
| LStr (s : string)
| LInt (z : Z)
| LDate (d : Py.date)
| LNat (n : nat)
| LExn (e : exn).

Inductive event : Type :=
| EvCall (callee : string) (args : list logval)
| EvGet (req : request)
| EvSleep (seconds : Q)
| EvLogError (fields : list (string * logval))
| EvLogInfo (fields : list (string * logval))
| EvMkdir (path : string)
| EvWriteCsv (path : string) (rows : list row)
| EvWriteParquet (path : string) (rows : list row)
| EvBegin
| EvInsert (table : string) (r : row)
| EvCommit
| EvRollback.

(** How the database answers the next transaction of statements it can
    read: it goes through, the connection cannot be opened, the [k]-th
    statement (from 0) is refused, or the commit is refused. *)
Inductive db_plan : Type :=
| DbUp
| DbFailBegin
| DbFailExecute (k : nat)
| DbFailCommit.

Record world : Type := {
  (** the answers the provider will give, in order; once they are used up
      a request gets no answer and the 30 second timeout fires *)
  w_http : list outcome;
  (** the wall clock: the [n]-th reading of [datetime.utcnow()] *)
  w_clock : nat → datetime;
  w_ticks : nat;
  (** whether the file system accepts a write to a path *)
  w_fs_ok : string → bool;
  w_db : db_plan;
  (** export files by path, durable tables by name *)
  w_files : gmap string (list row);
  w_tables : gmap string (list row);
  (** everything observable the run did, oldest first *)
  w_trace : list event
}.

(** Computations: a state and exception monad over the world. *)
Definition M (A : Type) : Type := world → result A * world.

Definition ret {A} (a : A) : M A := λ w, (Ok a, w).
Definition raise {A} (e : exn) : M A := λ w, (Raise e, w).
Definition bind {A B} (m : M A) (k : A → M B) : M B :=
  λ w, match m w with
       | (Ok a, w') => k a w'
       | (Raise e, w') => (Raise e, w')
       end.
Definition lift {A} (r : result A) : M A := λ w, (r, w).

(** [try: body  except Exception as e: handler(e)] *)
Definition try_except {A} (body : M A) (handler : exn → M A) : M A :=
  λ w, match body w with
       | (Ok a, w') => (Ok a, w')
       | (Raise e, w') => handler e w'
       end.

Declare Scope eff_scope.
Delimit Scope eff_scope with eff.
Bind Scope eff_scope with M.
Notation "x <- m ;; k" := (bind m (λ x, k))
  (at level 100, m at next level, right associativity) : eff_scope.
Notation "m ;;; k" := (bind m (λ _, k))
  (at level 100, right associativity) : eff_scope.
Local Open Scope eff_scope.

Definition with_trace (w : world) (tr : list event) : world :=
  {| w_http := w_http w; w_clock := w_clock w; w_ticks := w_ticks w;
     w_fs_ok := w_fs_ok w; w_db := w_db w; w_files := w_files w;
     w_tables := w_tables w; w_trace := tr |}.

Definition with_http (w : world) (answers : list outcome) : world :=
  {| w_http := answers; w_clock := w_clock w; w_ticks := w_ticks w;
     w_fs_ok := w_fs_ok w; w_db := w_db w; w_files := w_files w;
     w_tables := w_tables w; w_trace := w_trace w |}.

Definition with_ticks (w : world) (n : nat) : world :=
  {| w_http := w_http w; w_clock := w_clock w; w_ticks := n;
     w_fs_ok := w_fs_ok w; w_db := w_db w; w_files := w_files w;
     w_tables := w_tables w; w_trace := w_trace w |}.

Definition with_files (w : world) (files : gmap string (list row)) : world :=
  {| w_http := w_http w; w_clock := w_clock w; w_ticks := w_ticks w;
     w_fs_ok := w_fs_ok w; w_db := w_db w; w_files := files;
     w_tables := w_tables w; w_trace := w_trace w |}.

Definition with_tables (w : world) (tables : gmap string (list row)) : world :=
  {| w_http := w_http w; w_clock := w_clock w; w_ticks := w_ticks w;
     w_fs_ok := w_fs_ok w; w_db := w_db w; w_files := w_files w;
     w_tables := tables; w_trace := w_trace w |}.

Definition emit (e : event) : M unit :=
  λ w, (Ok tt, with_trace w (w_trace w ++ [e])).

(** [datetime.utcnow()] *)
Definition utcnow : M datetime :=
  λ w, (Ok (w_clock w (w_ticks w)), with_ticks w (S (w_ticks w))).

(** [await client.get(url, headers=..., params=..., timeout=30)] *)
Definition client_get (req : request) : M response :=
  λ w,
    let w1 := with_trace w (w_trace w ++ [EvGet req]) in
    match w_http w with
    | [] => (Raise (TransportError "ReadTimeout"), w1)
    | Respond r :: rest => (Ok r, with_http w1 rest)
    | Fail e :: rest => (Raise e, with_http w1 rest)
    end.

(** [await asyncio.sleep(s)] *)
Definition sleep (s : Q) : M unit := emit (EvSleep s).

Definition logger_error (fields : list (string * logval)) : M unit :=
  emit (EvLogError fields).
Definition logger_info (fields : list (string * logval)) : M unit :=
  emit (EvLogInfo fields).

(** ** The export directory and the durable store *)

(** [exports_dir.mkdir(parents=True, exist_ok=True)]: the call is
    recorded.  A directory that cannot be made is, in this model, a file
    system that refuses the writes into it: the failure shows at the first
    write, with the same kind of exception. *)
Definition mkdir (path : string) : M unit := emit (EvMkdir path).

Definition write_file (ev : event) (path : string) (df : list row) : M unit :=
  λ w,
    if w_fs_ok w path then
      (Ok tt, with_trace (with_files w (<[path := df]> (w_files w))) (w_trace w ++ [ev]))
    else (Raise (OSError path), w).

(** [df.to_csv(path, index=False)] and [df.to_parquet(path, index=False)] *)
Definition to_csv (df : list row) (path : string) : M unit :=
  write_file (EvWriteCsv path df) path df.
Definition to_parquet (df : list row) (path : string) : M unit :=
  write_file (EvWriteParquet path df) path df.

Definition refuses (plan : db_plan) (k : nat) : bool :=
  match plan with
  | DbFailExecute j => Nat.eqb j k
  | _ => false
  end.

(** How a statement names its values.  [sqlalchemy.text] makes a bind
    parameter of a name written [:name].  A name written [%(name)s], the
    form of the DB-API, is no bind parameter of [text]: the statement
    reaches the server with the placeholders in it, and PostgreSQL refuses
    it as a syntax error. *)
Inductive placeholder : Type :=
| ColonName
| PercentName.

Definition bound_by_text (p : placeholder) : bool :=
  match p with
  | ColonName => true
  | PercentName => false
  end.

(** The INSERT statements of the three adapters write every value as
    [%(name)s] (backfill_coinapi.py lines 91 to 95, backfill_cryptopanic.py
    lines 125 to 129, backfill_lunarcrush.py lines 98 to 102). *)
Definition insert_values : placeholder := PercentName.

(** [for _, row in df.iterrows(): conn.execute(text("INSERT INTO table ..."),
    row.to_dict())] inside an open transaction: the rows staged so far.  A
    statement is refused when the database refuses it, or when its values
    are not bound. *)
Fixpoint execute_rows (plan : db_plan) (table : string) (k : nat)
    (df : list row) (staged : list row) : M (list row) :=
  match df with
  | [] => ret staged
  | r :: rest =>
      emit (EvInsert table r) ;;;
      if refuses plan k || negb (bound_by_text insert_values)
      then raise DBAPIError
      else execute_rows plan table (S k) rest (staged ++ [r])
  end.

Definition commit (table : string) (staged : list row) : M unit :=
  λ w,
    (Ok tt,
     with_trace
       (with_tables w (<[table := default [] (w_tables w !! table) ++ staged]> (w_tables w)))
       (w_trace w ++ [EvCommit])).

(** [with engine.begin() as conn: ...]: the block commits when it ends
    normally and rolls back when an exception leaves it. *)
Definition insert_transaction (table : string) (df : list row) : M unit :=
  λ w,
    match w_db w with
    | DbFailBegin => (Raise DBAPIError, w)
    | plan =>
        try_except
          (emit EvBegin ;;;
           staged <- execute_rows plan table 0 df [] ;;
           match plan with
           | DbFailCommit => raise DBAPIError
           | _ => commit table staged
           end)
          (λ e, emit EvRollback ;;; raise e) w
    end.

(** [a or b] where evaluating [b] may raise: [b] is evaluated only when [a]
    is falsy. *)
Definition or_else (a : json) (b : result json) : result json :=
  if truthy a then Ok a else b.

(** Keeps the equation of a case analysis for the recursion that follows. *)
Definition inspect {A} (a : A) : {b : A | a = b} := exist _ a eq_refl.

(** A generator seen from its consumer: the values it yields, and the
    exception, if any, that ends it in place of [StopIteration]. *)
Record generated (X : Type) : Type := {
  yields : list X;
  stop : option exn
}.
Arguments yields {X} _.
Arguments stop {X} _.

(** [for x in xs: acc = body(x, acc)] over a list *)
Fixpoint for_each {X A} (xs : list X) (body : X → A → M A) (acc : A) : M A :=
  match xs with
  | [] => ret acc
  | x :: rest => acc' <- body x acc ;; for_each rest body acc'
  end.

(** The same loop over a generator: the generator is resumed after each
    body, so its exception comes after the body of the last value. *)
Definition for_gen {X A} (g : generated X) (body : X → A → M A) (acc : A) : M A :=
  acc' <- for_each (yields g) body acc ;;
  match stop g with
  | None => ret acc'
  | Some e => raise e
  end.

(** ** Frame rules

    A relation between the world before and the world after, that holds
    across one step and composes, holds across a whole computation. *)
Section Frame.
Variable R : world → world → Prop.
Hypothesis R_refl : ∀ w, R w w.
Hypothesis R_trans : ∀ w1 w2 w3, R w1 w2 → R w2 w3 → R w1 w3.

Definition respects {A} (m : M A) : Prop := ∀ w, R w (snd (m w)).

Lemma respects_ret {A} (a : A) : respects (ret a).
Proof. intros w. apply R_refl. Qed.

Lemma respects_raise {A} (e : exn) : respects (@raise A e).
Proof. intros w. apply R_refl. Qed.

Lemma respects_lift {A} (r : result A) : respects (lift r).
Proof. intros w. apply R_refl. Qed.

Lemma respects_bind {A B} (m : M A) (k : A → M B) :
  respects m → (∀ a, respects (k a)) → respects (bind m k).
Proof.
  intros Hm Hk w. unfold bind. specialize (Hm w).
  destruct (m w) as [[a|e] w1]; simpl in *; [|done].
  eapply R_trans; [exact Hm | apply Hk].
Qed.

Lemma respects_try_except {A} (body : M A) (handler : exn → M A) :
  respects body → (∀ e, respects (handler e)) → respects (try_except body handler).
Proof.
  intros Hb Hh w. unfold try_except. specialize (Hb w).
  destruct (body w) as [[a|e] w1]; simpl in *; [done|].
  eapply R_trans; [exact Hb | apply Hh].
Qed.

Lemma respects_for_each {X A} (xs : list X) (body : X → A → M A) acc :
  (∀ x a, respects (body x a)) → respects (for_each xs body acc).
Proof.
  intros Hb. revert acc.
  induction xs as [|x xs IH]; intros acc; simpl; [apply respects_ret|].
  apply respects_bind; [apply Hb | intros a; apply IH].
Qed.

Lemma respects_for_gen {X A} (g : generated X) (body : X → A → M A) acc :
  (∀ x a, respects (body x a)) → respects (for_gen g body acc).
Proof.
  intros Hb. unfold for_gen. apply respects_bind; [by apply respects_for_each|].
  intros a. destruct (stop g); [apply respects_raise | apply respects_ret].
Qed.

End Frame.

(** Walks through a computation with the frame rules; [leaf] closes the
    steps that are not built from [bind], [try_except] and the loops. *)
Ltac frame_with refl trans leaf :=
  repeat first
    [ leaf
    | apply (respects_lift _ refl)
    | apply (respects_ret _ refl)
    | apply (respects_raise _ refl)
    | apply (respects_for_each _ refl trans); intros ? ?
    | apply (respects_for_gen _ refl trans); intros ? ?
    | apply (respects_try_except _ trans); [|intros ?]
    | apply (respects_bind _ trans); [|intros ?]
    | match goal with
      | |- respects _ (match ?v with _ => _ end) => destruct v
      | |- respects _ (if ?b then _ else _) => destruct b
      end ].

(* ===================================================================== *)
(** * [ingestion/backfill_coinapi.py]                                      *)
(* ===================================================================== *)

Module Coinapi.

(** [daterange(start, end)] from the current value of [cur] on. *)
Equations? daterange_from (cur end_ : Py.date) : generated Py.date
  by wf (Z.to_nat (end_ + 1 - cur)) lt :=
daterange_from cur end_ with Z_le_dec cur end_ := {
  | right _ := {| yields := []; stop := None |}
  | left _ with inspect (add_day cur) := {
      | exist _ (Ok next) _ :=
          let g := daterange_from next end_ in
          {| yields := cur :: yields g; stop := stop g |}
      | exist _ (Raise e) _ := {| yields := [cur]; stop := Some e |} } }.
Proof.
  unfold add_day in *. destruct (cur <? date_max)%Z; [|discriminate].
  match goal with H : Ok _ = Ok _ |- _ => injection H as <- end. lia.
Qed.

Definition daterange (start end_ : Py.date) : generated Py.date :=
  daterange_from start end_.

Definition _symbol_id (symbol quote exchange : string) : string :=
  exchange +:+ "_SPOT_" +:+ upper symbol +:+ "_" +:+ upper quote.

Section Adapter.
Context `{Runtime}.

Definition request_of (api_key symbol : string) (day next_day : Py.date) : request :=
  {| req_url := "https://rest.coinapi.io/v1/ohlcv/"
                +:+ _symbol_id symbol "USD" "BITSTAMP" +:+ "/history";
     req_headers := [("X-CoinAPI-Key", api_key)];
     req_params := Some [("period_id", "1DAY");
                         ("time_start", strftime_ymd day +:+ "T00:00:00");
                         ("time_end", strftime_ymd next_day +:+ "T00:00:00");
                         ("limit", "1")] |}.

(** [float(row.get(key, 0.0))] *)
Definition float_field (row : json) (key : string) : result Q :=
  rbind (get row key (JFloat 0)) float.

Definition fetch_day (api_key symbol : string) (day : Py.date)
    : M (list BFHistoricalMarketData) :=
  next_day <- lift (add_day day) ;;
  let req := request_of api_key symbol day next_day in
  try_except
    (r <- client_get req ;;
     r <- (if (status_code r =? 429)%Z
           then sleep 1 ;;; client_get req
           else ret r) ;;
     if negb (status_code r =? 200)%Z then
       logger_error [("event", LStr "coinapi_http_error"); ("symbol", LStr symbol);
                     ("day", LDate day); ("status", LInt (status_code r));
                     ("body", LStr (take_str 200 (text r)))] ;;;
       ret []
     else
       data <- lift (json_body r) ;;
       if negb (truthy data) then ret []
       else
         row <- lift (index0 data) ;;
         open_price <- lift (float_field row "price_open") ;;
         high_price <- lift (float_field row "price_high") ;;
         low_price <- lift (float_field row "price_low") ;;
         close_price <- lift (float_field row "price_close") ;;
         volume <- lift (float_field row "volume_traded") ;;
         now <- utcnow ;;
         ret [ {| HistoricalMarketData.token_symbol := symbol;
                  HistoricalMarketData.date := day;
                  HistoricalMarketData.open_price := open_price;
                  HistoricalMarketData.high_price := high_price;
                  HistoricalMarketData.low_price := low_price;
                  HistoricalMarketData.close_price := close_price;
                  HistoricalMarketData.volume := volume;
                  HistoricalMarketData.timestamp_fetched := now;
                  HistoricalMarketData.source_api := "coinapi";
                  HistoricalMarketData.backfill_run_id := "" |} ])
    (λ e,
       logger_error [("event", LStr "coinapi_exception"); ("symbol", LStr symbol);
                     ("day", LDate day); ("error", LExn e)] ;;;
       ret []).

Definition csv_path (exports_dir run_id : string) : string :=
  exports_dir +:+ "/coinapi_ohlcv_" +:+ run_id +:+ ".csv".
Definition parquet_path (exports_dir run_id : string) : string :=
  exports_dir +:+ "/coinapi_ohlcv_" +:+ run_id +:+ ".parquet".

Definition upsert_and_export (rows : list BFHistoricalMarketData)
    (run_id exports_dir : string) : M unit :=
  match rows with
  | [] => ret tt
  | _ =>
      let df := map PriceRow rows in
      let df := map (set_run_id run_id) df in
      mkdir exports_dir ;;;
      to_csv df (csv_path exports_dir run_id) ;;;
      to_parquet df (parquet_path exports_dir run_id) ;;;
      insert_transaction "bf_historical_market_data" df
  end.

(** The coordinator's call of the adapter for one work item:
    [await fetch_day(client, key, sym, d)].  The call itself is recorded in
    the trace, so that the work items a run visits can be read off it. *)
Definition await_fetch_day (api_key sym : string) (d : Py.date)
    : M (list BFHistoricalMarketData) :=
  emit (EvCall "fetch_day" [LStr sym; LDate d]) ;;;
  fetch_day api_key sym d.

(** [main_async] of [run], once the options are parsed. *)
Definition collect (api_key : string) (token_list : list string)
    (start_d end_d : Py.date) : M (list BFHistoricalMarketData) :=
  for_each token_list
    (λ sym all_rows,
       for_gen (daterange start_d end_d)
         (λ d all_rows,
            rows <- await_fetch_day api_key sym d ;;
            ret (match rows with [] => all_rows | _ => all_rows ++ rows end))
         all_rows)
    [].

Definition main_async (api_key : string) (token_list : list string)
    (start_d end_d : Py.date) (run_id exports_dir : string) : M unit :=
  all_rows <- collect api_key token_list start_d end_d ;;
  upsert_and_export all_rows run_id exports_dir ;;;
  logger_info [("event", LStr "coinapi_backfill_complete");
               ("count", LNat (length all_rows)); ("run_id", LStr run_id)].

End Adapter.
End Coinapi.

(* ===================================================================== *)
(** * [ingestion/backfill_cryptopanic.py]                                  *)
(* ===================================================================== *)

Module Cryptopanic.

Definition API_BASE : string := "https://cryptopanic.com/api/v1".

(** What the body of a [while] loop tells the loop to do next. *)
Inductive flow (A : Type) : Type :=
| Break (a : A)
| Continue (a : A).
Arguments Break {A} a.
Arguments Continue {A} a.

Section Adapter.
Context `{Runtime}.

(** [str.replace] exists on a [str] only. *)
Definition _parse_date (dt_str : json) : M Py.date :=
  try_except
    (match dt_str with
     | JStr s =>
         dt <- lift (fromisoformat (replace_char "Z" "+00:00" s)) ;;
         ret (dt_date dt)
     | _ => raise AttributeError
     end)
    (λ _, now <- utcnow ;; ret (dt_date now)).

(** Lines 36 to 40: the sentiment of the votes. *)
Definition sentiment_from_votes (item : json) : result Q :=
  rbind (get item "votes" JNull) (λ v,
  let votes := py_or v (JObj []) in
  rbind (get votes "bullish" JNull) (λ b,
  rbind (get votes "liked" JNull) (λ l,
  rbind (add (py_or b (JInt 0)) (py_or l (JInt 0))) (λ bullish,
  rbind (get votes "bearish" JNull) (λ b',
  rbind (get votes "disliked" JNull) (λ d,
  rbind (add (py_or b' (JInt 0)) (py_or d (JInt 0))) (λ bearish,
  rbind (add bullish bearish) (λ total,
  rbind (gt_int total 0) (λ positive,
  if positive : bool
  then rbind (sub bullish bearish) (λ diff, truediv diff total)
  else Ok 0%Q))))))))).

(** Lines 30 to 35: [float(score)] of a number raises for an [int] out of
    the range of a double only; [except Exception: pass] then lets the
    function go on to the votes, as it does for a [panic_score] that is no
    number. *)
Definition _sentiment_from_item (item : json) : result Q :=
  rbind (get item "panic_score" JNull) (λ score,
  match as_num score with
  | Some n =>
      match float_of_num n with
      | Ok q => Ok q
      | Raise _ => sentiment_from_votes item
      end
  | None => sentiment_from_votes item
  end).

(** Lines 64 to 82: the canonical record of one item of a page. *)
Definition news_event (token : string) (it : json) : M BFMarketNewsEvents :=
  published <- lift (get it "published_at" JNull) ;;
  stamp <- lift (or_else published
                   (rbind (get it "created_at" JNull) (λ c, Ok (py_or c (JStr ""))))) ;;
  dt <- _parse_date stamp ;;
  t <- lift (get it "title" JNull) ;;
  let title := py_or t (JStr "") in
  d <- lift (get it "description" JNull) ;;
  desc <- lift (or_else d
                  (rbind (get it "body" JNull) (λ b, Ok (py_or b (JStr ""))))) ;;
  s <- lift (get it "source" JNull) ;;
  st <- lift (get (py_or s (JObj [])) "title" JNull) ;;
  let source := py_or st (JStr "cryptopanic") in
  u <- lift (get it "url" JNull) ;;
  url_item <- lift (or_else u
                      (rbind (get it "source" JNull) (λ s',
                       rbind (get (py_or s' (JObj [])) "url" JNull) (λ su,
                       Ok (py_or su (JStr "")))))) ;;
  sent <- lift (_sentiment_from_item it) ;;
  now <- utcnow ;;
  ret {| MarketNewsEvents.token_symbol := upper token;
         MarketNewsEvents.date := dt;
         MarketNewsEvents.title := title;
         MarketNewsEvents.description := desc;
         MarketNewsEvents.source := source;
         MarketNewsEvents.sentiment_score := sent;
         MarketNewsEvents.url := url_item;
         MarketNewsEvents.timestamp_fetched := now;
         MarketNewsEvents.backfill_run_id := "" |}.

Definition posts_url : string := API_BASE +:+ "/posts/".

Definition posts_params (token auth_token : string) : list (string * string) :=
  [("auth_token", auth_token); ("currencies", upper token);
   ("filter", "rising|hot|important|bullish|bearish"); ("kind", "news|media");
   ("public", "true"); ("with_content", "true"); ("size", "50")].

(** One turn of [while next_url:] (lines 58 to 83), entered with a truthy
    [next_url].  [client.get] takes a [str] for its URL. *)
Definition page (token auth_token : string) (next_url : json)
    (items : list BFMarketNewsEvents)
    : M (flow (list BFMarketNewsEvents) * json) :=
  match next_url with
  | JStr u =>
      r <- client_get
             {| req_url := u; req_headers := [];
                req_params := if String.eqb u posts_url
                              then Some (posts_params token auth_token)
                              else None |} ;;
      if negb (status_code r =? 200)%Z then
        logger_error [("event", LStr "cryptopanic_http_error");
                      ("status", LInt (status_code r));
                      ("body", LStr (take_str 200 (text r)))] ;;;
        ret (Break items, next_url)
      else
        payload <- lift (json_body r) ;;
        results <- lift (rbind (get payload "results" (JArr [])) iter) ;;
        items <- for_each results
                   (λ it items, ev <- news_event token it ;; ret (items ++ [ev]))
                   items ;;
        next_url <- lift (get payload "next" JNull) ;;
        ret (Continue items, next_url)
  | _ => raise TypeError
  end.

(** The loop ends: every turn that continues has used up one of the
    provider's answers, and nothing else in a turn touches them. *)
Definition http_kept (w w' : world) : Prop := w_http w' = w_http w.

Lemma http_kept_refl w : http_kept w w.
Proof. done. Qed.

Lemma http_kept_trans w1 w2 w3 : http_kept w1 w2 → http_kept w2 w3 → http_kept w1 w3.
Proof. unfold http_kept. congruence. Qed.

Lemma keeps_http_utcnow : respects http_kept utcnow.
Proof. done. Qed.

Lemma keeps_http_news_event token it : respects http_kept (news_event token it).
Proof.
  unfold news_event, _parse_date.
  frame_with http_kept_refl http_kept_trans ltac:(apply keeps_http_utcnow).
Qed.

Lemma page_continue_uses_answer token auth_token next_url items w items' next' w' :
  page token auth_token next_url items w = (Ok (Continue items', next'), w') →
  (length (w_http w') < length (w_http w))%nat.
Proof.
  unfold page. destruct next_url as [| | | |u| |]; try discriminate.
  unfold bind at 1, client_get.
  destruct (w_http w) as [|[r|e] rest] eqn:Hhttp; try discriminate.
  set (w2 := with_http _ rest).
  assert (Hw2 : w_http w2 = rest) by done.
  destruct (negb (status_code r =? 200)%Z).
  { unfold bind, logger_error, emit, ret. discriminate. }
  intros Hrun.
  match type of Hrun with ?m w2 = _ =>
    assert (Hk : respects http_kept m) end.
  { frame_with http_kept_refl http_kept_trans ltac:(apply keeps_http_news_event). }
  specialize (Hk w2). unfold http_kept in Hk. rewrite Hrun, Hw2 in Hk. simpl in Hk.
  rewrite Hk. simpl. lia.
Qed.

Equations? fetch_posts_loop (token auth_token : string) (next_url : json)
    (items : list BFMarketNewsEvents) (w : world)
    : result (list BFMarketNewsEvents) * world
  by wf (length (w_http w)) lt :=
fetch_posts_loop token auth_token next_url items w with inspect (truthy next_url) := {
  | exist _ false _ := (Ok items, w)
  | exist _ true _ with inspect (page token auth_token next_url items w) := {
      | exist _ (Ok (Continue items', next_url'), w') _ :=
          fetch_posts_loop token auth_token next_url' items' w'
      | exist _ (Ok (Break items', _), w') _ := (Ok items', w')
      | exist _ (Raise e, w') _ := (Raise e, w') } }.
Proof. eapply page_continue_uses_answer; eauto. Qed.

(** [start] and [end] are parameters of the function and are not used. *)
Definition fetch_posts (token auth_token start end_ : string)
    : M (list BFMarketNewsEvents) :=
  fetch_posts_loop token auth_token (JStr posts_url) [].

(** [start_d <= x.date <= end_d] *)
Definition in_window (start_d end_d : Py.date) (x : BFMarketNewsEvents) : bool :=
  (start_d <=? MarketNewsEvents.date x)%Z && (MarketNewsEvents.date x <=? end_d)%Z.

(** The body of [for sym in token_list] in [main_async]. *)
Definition accumulate (auth_token start end_ : string) (sym : string)
    (all_rows : list BFMarketNewsEvents) : M (list BFMarketNewsEvents) :=
  items <- fetch_posts sym auth_token start end_ ;;
  start_d <- lift (strptime_ymd start) ;;
  end_d <- lift (strptime_ymd end_) ;;
  let items := List.filter (in_window start_d end_d) items in
  ret (all_rows ++ items).

Definition csv_path (exports_dir run_id : string) : string :=
  exports_dir +:+ "/cryptopanic_news_" +:+ run_id +:+ ".csv".
Definition parquet_path (exports_dir run_id : string) : string :=
  exports_dir +:+ "/cryptopanic_news_" +:+ run_id +:+ ".parquet".

(** Lines 114 to 133: an empty list of rows gives an empty frame. *)
Definition persist (all_rows : list BFMarketNewsEvents)
    (run_id exports_dir : string) : M unit :=
  match all_rows with
  | [] => ret tt
  | _ =>
      let df := map (set_run_id run_id) (map NewsRow all_rows) in
      to_csv df (csv_path exports_dir run_id) ;;;
      to_parquet df (parquet_path exports_dir run_id) ;;;
      insert_transaction "bf_market_news_events" df
  end.

(** [main_async] of [run]; [run] has parsed the options, checked the key,
    made sure of the tables and created [exports_dir] before. *)
Definition main_async (auth_token : string) (token_list : list string)
    (start end_ run_id exports_dir : string) : M unit :=
  all_rows <- for_each token_list (accumulate auth_token start end_) [] ;;
  persist all_rows run_id exports_dir ;;;
  logger_info [("event", LStr "cryptopanic_backfill_complete");
               ("count", LNat (length all_rows)); ("run_id", LStr run_id)].

End Adapter.
End Cryptopanic.

(* ===================================================================== *)
(** * [ingestion/backfill_lunarcrush.py]                                   *)
(* ===================================================================== *)

Module Lunarcrush.

Definition API_BASE : string := "https://lunarcrush.com/api3".

Section Adapter.
Context `{Runtime}.

(** [a or b or c] over values already at hand *)
Definition first_of (p : json) (k1 k2 : string) (last : json) : result json :=
  rbind (get p k1 JNull) (λ a,
  or_else a (rbind (get p k2 JNull) (λ b, Ok (py_or b last)))).

(** Lines 43 to 60: the canonical record of one point of a time series. *)
Definition sentiment_point (symbol : string) (p : json) : M BFMarketSentiment :=
  t <- lift (first_of p "time" "timestamp" (JInt 0)) ;;
  dt <- lift (match as_num t with
              | Some n => utcfromtimestamp (num_Q n)
              | None => Raise TypeError
              end) ;;
  score <- lift (rbind (first_of p "galaxy_score" "sentiment" (JFloat 0)) float) ;;
  pos <- lift (rbind (first_of p "social_bullish" "social_positive" (JInt 0)) int) ;;
  neg <- lift (rbind (first_of p "social_bearish" "social_negative" (JInt 0)) int) ;;
  vol <- lift (get p "social_volume" JNull) ;;
  rest <- lift (rbind (sub (py_or vol (JInt 0)) (JInt pos)) (λ x,
                rbind (sub x (JInt neg)) int)) ;;
  let neu := Z.max rest 0 in
  now <- utcnow ;;
  ret {| MarketSentiment.token_symbol := upper symbol;
         MarketSentiment.date := dt_date dt;
         MarketSentiment.sentiment_score := score;
         MarketSentiment.positive_mentions := pos;
         MarketSentiment.negative_mentions := neg;
         MarketSentiment.neutral_mentions := neu;
         MarketSentiment.source_api := "lunarcrush";
         MarketSentiment.timestamp_fetched := now;
         MarketSentiment.backfill_run_id := "" |}.

Definition fetch_daily (api_key symbol start end_ : string)
    : M (list BFMarketSentiment) :=
  let req := {| req_url := API_BASE +:+ "/assets"; req_headers := [];
                req_params := Some [("symbol", upper symbol); ("interval", "day");
                                    ("data_points", "1000"); ("start_time", start);
                                    ("end_time", end_); ("key", api_key)] |} in
  r <- client_get req ;;
  if negb (status_code r =? 200)%Z then
    logger_error [("event", LStr "lunarcrush_http_error");
                  ("status", LInt (status_code r));
                  ("body", LStr (take_str 200 (text r)))] ;;;
    ret []
  else
    payload <- lift (json_body r) ;;
    d <- lift (get payload "data" JNull) ;;
    data <- lift (iter (py_or d (JArr []))) ;;
    for_each data
      (λ series rows,
         ts0 <- lift (get series "timeSeries" (JArr [])) ;;
         ts <- lift (rbind (or_else ts0 (get series "time_series" (JArr []))) iter) ;;
         for_each ts
           (λ p rows, item <- sentiment_point symbol p ;; ret (rows ++ [item]))
           rows)
      [].

Definition csv_path (exports_dir run_id : string) : string :=
  exports_dir +:+ "/lunarcrush_sentiment_" +:+ run_id +:+ ".csv".
Definition parquet_path (exports_dir run_id : string) : string :=
  exports_dir +:+ "/lunarcrush_sentiment_" +:+ run_id +:+ ".parquet".

(** Lines 87 to 106: an empty list of rows gives an empty frame. *)
Definition persist (all_rows : list BFMarketSentiment)
    (run_id exports_dir : string) : M unit :=
  match all_rows with
  | [] => ret tt
  | _ =>
      let df := map (set_run_id run_id) (map SentimentRow all_rows) in
      to_csv df (csv_path exports_dir run_id) ;;;
      to_parquet df (parquet_path exports_dir run_id) ;;;
      insert_transaction "bf_market_sentiment" df
  end.

(** [main_async] of [run]; [run] has parsed the options, checked the key,
    made sure of the tables and created [exports_dir] before. *)
Definition main_async (api_key : string) (token_list : list string)
    (start end_ run_id exports_dir : string) : M unit :=
  all_rows <- for_each token_list
                (λ sym all_rows,
                   rows <- fetch_daily api_key sym (start +:+ "T00:00:00Z")
                             (end_ +:+ "T00:00:00Z") ;;
                   ret (all_rows ++ rows))
                [] ;;
  persist all_rows run_id exports_dir ;;;
  logger_info [("event", LStr "lunarcrush_backfill_complete");
               ("count", LNat (length all_rows)); ("run_id", LStr run_id)].

End Adapter.
End Lunarcrush.

(* ===================================================================== *)
(** * Test fixtures                                                        *)
(* ===================================================================== *)

Module Fixtures.

(** 2024-01-01 and the days after it, by ordinal. *)
Definition jan01 : Py.date := 738886.
Definition jan02 : Py.date := 738887.
Definition jan03 : Py.date := 738888.

(** The library functions on the handful of strings and dates the examples
    use; every other string is refused as Python refuses a malformed one. *)
Definition test_runtime : Runtime :=
  {| strftime_ymd := λ d,
       if (d =? jan01)%Z then "2024-01-01"
       else if (d =? jan02)%Z then "2024-01-02"
       else if (d =? jan03)%Z then "2024-01-03"
       else "9999-12-31";
     strptime_ymd := λ s,
       if String.eqb s "2024-01-01" then Ok jan01
       else if String.eqb s "2024-01-02" then Ok jan02
       else if String.eqb s "2024-01-03" then Ok jan03
       else if String.eqb s "9999-12-31" then Ok date_max
       else Raise ValueError;
     fromisoformat := λ s,
       if String.eqb s "2024-01-01T10:00:00+00:00"
       then Ok {| dt_date := jan01; dt_micros := 36000000000 |}
       else if String.eqb s "2024-01-03T08:30:00+00:00"
       then Ok {| dt_date := jan03; dt_micros := 30600000000 |}
       else Raise ValueError;
     utcfromtimestamp := λ t,
       if Qeq_bool t 1704067200 then Ok {| dt_date := jan01; dt_micros := 0 |}
       else Raise OverflowError;
     float_of_str := λ s, if String.eqb s "1.5" then Ok (3 # 2) else Raise ValueError;
     int_of_str := λ s, if String.eqb s "7" then Ok 7 else Raise ValueError;
     fromisoformat_empty := eq_refl |}.

(** A clock that reads some day of November 2026 at every reading. *)
Definition test_clock (n : nat) : datetime :=
  {| dt_date := 739924; dt_micros := Z.of_nat n |}.

(** A fresh world: the provider will give [answers], the file system and
    the database behave as [fs_ok] and [db] say, nothing is stored yet. *)
Definition test_world (answers : list outcome) (fs_ok : string → bool)
    (db : db_plan) : world :=
  {| w_http := answers; w_clock := test_clock; w_ticks := 0;
     w_fs_ok := fs_ok; w_db := db; w_files := ∅; w_tables := ∅;
     w_trace := [] |}.

Definition ok_response (body : json) : outcome :=
  Respond {| status_code := 200; text := "[...]"; json_body := Ok body |}.

Definition status_response (code : Z) (body : string) : outcome :=
  Respond {| status_code := code; text := body; json_body := Raise JSONDecodeError |}.

Definition bar (o h l c v : Z) : json :=
  JObj [("price_open", JInt o); ("price_high", JInt h); ("price_low", JInt l);
        ("price_close", JInt c); ("volume_traded", JInt v)].

Definition price_record (sym : string) (d : Py.date) (o : Q) : BFHistoricalMarketData :=
  {| HistoricalMarketData.token_symbol := sym;
     HistoricalMarketData.date := d;
     HistoricalMarketData.open_price := o;
     HistoricalMarketData.high_price := o;
     HistoricalMarketData.low_price := o;
     HistoricalMarketData.close_price := o;
     HistoricalMarketData.volume := 0;
     HistoricalMarketData.timestamp_fetched := test_clock 0;
     HistoricalMarketData.source_api := "coinapi";
     HistoricalMarketData.backfill_run_id := "" |}.

End Fixtures.

(* ===================================================================== *)
(** * Observations on a run                                                *)
(* ===================================================================== *)

(** The kinds of events: what the fetch side of a run does, what the export
    writes do, what the durable store sees. *)
Definition is_fetch (e : event) : bool :=
  match e with
  | EvCall _ _ | EvGet _ | EvSleep _ | EvLogError _ => true
  | _ => false
  end.

Definition is_export (e : event) : bool :=
  match e with
  | EvMkdir _ | EvWriteCsv _ _ | EvWriteParquet _ _ => true
  | _ => false
  end.

Definition is_store (e : event) : bool :=
  match e with
  | EvBegin | EvInsert _ _ | EvCommit | EvRollback => true
  | _ => false
  end.

Definition is_get (e : event) : bool :=
  match e with
  | EvGet _ => true
  | _ => false
  end.

Definition is_sleep (e : event) : bool :=
  match e with
  | EvSleep _ => true
  | _ => false
  end.

(** Every row an event hands to a file or to a table carries [run_id]. *)
Definition stamped (run_id : string) (e : event) : Prop :=
  match e with
  | EvWriteCsv _ df | EvWriteParquet _ df => Forall (λ r, row_run_id r = run_id) df
  | EvInsert _ r => row_run_id r = run_id
  | _ => True
  end.

(** The work items the coordinator of the price adapter handed to
    [fetch_day], in the order of the calls. *)
Definition work_item (e : event) : option (string * Py.date) :=
  match e with
  | EvCall callee [LStr sym; LDate d] =>
      if String.eqb callee "fetch_day" then Some (sym, d) else None
  | _ => None
  end.

Definition work_items (tr : list event) : list (string * Py.date) :=
  omap work_item tr.

(** The part of the world a computation may read but not change. *)
Definition same_env (w w' : world) : Prop :=
  w_clock w' = w_clock w ∧ w_fs_ok w' = w_fs_ok w ∧ w_db w' = w_db w.

(** The part only the persistence step changes. *)
Definition same_store (w w' : world) : Prop :=
  w_files w' = w_files w ∧ w_tables w' = w_tables w.

(** The value a computation returns, when it returns one, satisfies [Q]. *)
Definition post {A} (m : M A) (Q : A → Prop) : Prop :=
  ∀ w a w', m w = (Ok a, w') → Q a.

(** Fetching leaves the export files and the durable tables alone and shows
    only fetch events. *)
Definition fetch_step (w w' : world) : Prop :=
  same_store w w' ∧ same_env w w'
  ∧ ∃ evs, w_trace w' = w_trace w ++ evs ∧ Forall (λ e, is_fetch e = true) evs.

(** The votes of an item as the specification speaks of them: a count is a
    non-negative integer, and a count that is absent or null is zero. *)
Definition votes_of (fields : list (string * json)) : list (string * json) :=
  match assoc "votes" fields with
  | Some (JObj votes) => votes
  | _ => []
  end.

Definition vote_count (votes : list (string * json)) (k : string) : Z :=
  match assoc k votes with
  | Some (JInt n) => n
  | _ => 0
  end.

Definition is_count (votes : list (string * json)) (k : string) : bool :=
  match assoc k votes with
  | None | Some JNull => true
  | Some (JInt n) => (0 <=? n)%Z
  | Some _ => false
  end.

Definition votes_are_counts (fields : list (string * json)) : bool :=
  match assoc "votes" fields with
  | None | Some JNull => true
  | Some (JObj votes) =>
      is_count votes "bullish" && is_count votes "liked"
      && is_count votes "bearish" && is_count votes "disliked"
  | Some _ => false
  end.

(** The item offers no single sentiment field: [panic_score] is absent or
    is not a number. *)
Definition no_panic_score (fields : list (string * json)) : bool :=
  match assoc "panic_score" fields with
  | None => true
  | Some v => match as_num v with None => true | Some _ => false end
  end.

(** The timestamp string of an item as line 64 picks it. *)
Definition stamp_of (fields : list (string * json)) : json :=
  let published := match assoc "published_at" fields with Some v => v | None => JNull end in
  let created := match assoc "created_at" fields with Some v => v | None => JNull end in
  py_or (py_or published created) (JStr "").


(** A step that calls no adapter. *)
Definition quiet_step (w w' : world) : Prop :=
  ∃ evs, w_trace w' = w_trace w ++ evs ∧ work_items evs = [].

(** The retry policy of the specification on a fetch whose first answer is
    a 429: the fetch issues a request, waits one second, issues the same
    request once more, and issues no further request and waits no further. *)
Definition retries_once {A} (fetch : M A) : Prop :=
  ∀ w r1 rest,
    w_http w = Respond r1 :: rest → status_code r1 = 429 →
    ∃ req tail,
      w_trace (snd (fetch w)) = w_trace w ++ [EvGet req; EvSleep 1; EvGet req] ++ tail
      ∧ Forall (λ e, is_get e = false ∧ is_sleep e = false) tail.

(** Lines 48 to 67 of [fetch_day]: what is done with the answer that
    stands after the retry decision. *)
Definition handle_answer `{Runtime} (symbol : string) (day : Py.date) (r : response)
    : M (list BFHistoricalMarketData) :=
  if negb (status_code r =? 200)%Z then
    logger_error [("event", LStr "coinapi_http_error"); ("symbol", LStr symbol);
                  ("day", LDate day); ("status", LInt (status_code r));
                  ("body", LStr (take_str 200 (text r)))] ;;;
    ret []
  else
    data <- lift (json_body r) ;;
    if negb (truthy data) then ret []
    else
      row <- lift (index0 data) ;;
      open_price <- lift (Coinapi.float_field row "price_open") ;;
      high_price <- lift (Coinapi.float_field row "price_high") ;;
      low_price <- lift (Coinapi.float_field row "price_low") ;;
      close_price <- lift (Coinapi.float_field row "price_close") ;;
      volume <- lift (Coinapi.float_field row "volume_traded") ;;
      now <- utcnow ;;
      ret [ {| HistoricalMarketData.token_symbol := symbol;
               HistoricalMarketData.date := day;
               HistoricalMarketData.open_price := open_price;
               HistoricalMarketData.high_price := high_price;
               HistoricalMarketData.low_price := low_price;
               HistoricalMarketData.close_price := close_price;
               HistoricalMarketData.volume := volume;
               HistoricalMarketData.timestamp_fetched := now;
               HistoricalMarketData.source_api := "coinapi";
               HistoricalMarketData.backfill_run_id := "" |} ].

Definition on_exception (symbol : string) (day : Py.date) (e : exn)
    : M (list BFHistoricalMarketData) :=
  logger_error [("event", LStr "coinapi_exception"); ("symbol", LStr symbol);
                ("day", LDate day); ("error", LExn e)] ;;;
  ret [].

(** A step that sends no request and does not wait. *)
Definition offline_step (w w' : world) : Prop :=
  w_http w' = w_http w
  ∧ ∃ tail, w_trace w' = w_trace w ++ tail
            ∧ Forall (λ e, is_get e = false ∧ is_sleep e = false) tail.

(** [it.get(k)] on the fields of an object. *)
Definition field (fields : list (string * json)) (k : string) : json :=
  match assoc k fields with
  | Some v => v
  | None => JNull
  end.

(** The fields of the [source] object of a news item, none when the item
    has no source. *)
Definition source_fields (fields : list (string * json)) : list (string * json) :=
  match assoc "source" fields with
  | Some (JObj kv) => kv
  | _ => []
  end.

(** What the news adapter needs of the fields that are present: a source
    that is an object, and a sentiment that is a [panic_score] which is a
    number [float()] takes, or votes that are counts.  Any of the fields may
    be absent or null. *)
Definition source_ok (fields : list (string * json)) : bool :=
  match assoc "source" fields with
  | None | Some JNull | Some (JObj _) => true
  | Some _ => false
  end.

Definition panic_score_ok (fields : list (string * json)) : bool :=
  match assoc "panic_score" fields with
  | Some v => match as_num v with Some n => fits_float n | None => false end
  | None => false
  end.

Definition news_item_ok (fields : list (string * json)) : bool :=
  source_ok fields && (panic_score_ok fields || votes_are_counts fields).

(** What the price adapter needs of a bar: each price that is present is a
    number [float()] takes.  Any of the prices may be absent. *)
Definition price_ok (fields : list (string * json)) (k : string) : bool :=
  match assoc k fields with
  | None => true
  | Some v => match as_num v with Some n => fits_float n | None => false end
  end.

Definition bar_ok (fields : list (string * json)) : bool :=
  price_ok fields "price_open" && price_ok fields "price_high"
  && price_ok fields "price_low" && price_ok fields "price_close"
  && price_ok fields "volume_traded".

(** The price of a bar: the number under the key, 0.0 when there is none. *)
Definition price_of (fields : list (string * json)) (k : string) : Q :=
  match assoc k fields with
  | Some v => match as_num v with Some n => num_Q n | None => 0 end
  | None => 0
  end.

(** ** The token list of a run *)

(** No comma in the text. *)
Fixpoint comma_free (s : string) : bool :=
  match s with
  | EmptyString => true
  | String c s' => negb (Ascii.eqb c ",") && comma_free s'
  end.

(** A token as a run hands it to its adapter: ASCII, not empty, with no
    white space at either end, in upper case, and with no comma. *)
Definition normal_token (t : string) : Prop :=
  ascii_only t = true ∧ t ≠ "" ∧ strip t = t ∧ upper t = t ∧ comma_free t = true.

(** Text that does not start with white space. *)
Definition starts_clean (s : string) : Prop :=
  match s with
  | EmptyString => True
  | String c _ => is_space c = false
  end.

(** ** The records of the price run *)

(** The work item a price record answers. *)
Definition price_key (x : BFHistoricalMarketData) : string * Py.date :=
  (HistoricalMarketData.token_symbol x, HistoricalMarketData.date x).

(** A price record as [fetch_day] makes it for a work item. *)
Definition fresh_price_record (sym : string) (d : Py.date)
    (x : BFHistoricalMarketData) : Prop :=
  price_key x = (sym, d)
  ∧ HistoricalMarketData.source_api x = "coinapi"
  ∧ HistoricalMarketData.backfill_run_id x = "".

(** An answer of the price provider that carries a bar: status 200 and a
    list whose first element is an object with readable prices. *)
Definition good_bar_answer (o : outcome) : Prop :=
  ∃ r fields more,
    o = Respond r ∧ status_code r = 200
    ∧ json_body r = Ok (JArr (JObj fields :: more)) ∧ bar_ok fields = true.

(** ** The pages of the news provider *)

(** The request [fetch_posts] sends for a page: the parameters go with the
    first URL only (line 58). *)
Definition page_request (token auth_token u : string) : request :=
  {| req_url := u; req_headers := [];
     req_params := if String.eqb u Cryptopanic.posts_url
                   then Some (Cryptopanic.posts_params token auth_token)
                   else None |}.

(** A page the news provider serves: status 200 and a body that is an
    object, with [items] under "results" (none when the key is absent) and
    [next] under "next" (null when the key is absent). *)
Definition serves (r : response) (items : list json) (next : json) : Prop :=
  status_code r = 200
  ∧ ∃ payload,
      json_body r = Ok (JObj payload)
      ∧ match assoc "results" payload with Some v => v | None => JArr [] end
        = JArr items
      ∧ field payload "next" = next.

(** An item the news adapter can read. *)
Definition readable (it : json) : Prop :=
  ∃ fields, it = JObj fields ∧ news_item_ok fields = true.

(** The record of an item, as far as the item alone determines it. *)
Definition record_of (token : string) (it : json) (ev : BFMarketNewsEvents) : Prop :=
  ∃ fields,
    it = JObj fields
    ∧ MarketNewsEvents.token_symbol ev = upper token
    ∧ MarketNewsEvents.title ev = py_or (field fields "title") (JStr "")
    ∧ MarketNewsEvents.source ev
      = py_or (field (source_fields fields) "title") (JStr "cryptopanic")
    ∧ MarketNewsEvents.backfill_run_id ev = "".

(** A page with readable items that links to a following page: the
    response, its items, and the URL under "next". *)
Definition continues (p : response * list json * string) : Prop :=
  serves p.1.1 p.1.2 (JStr p.2) ∧ p.2 ≠ "" ∧ Forall readable p.1.2.

(** The requests for a chain of linked pages that starts at [u], and the
    URL the chain links to at its end. *)
Fixpoint requests_of (token auth_token u : string)
    (pages : list (response * list json * string)) : list request :=
  match pages with
  | [] => []
  | p :: rest => page_request token auth_token u :: requests_of token auth_token p.2 rest
  end.

Fixpoint last_url (u : string) (pages : list (response * list json * string)) : string :=
  match pages with
  | [] => u
  | p :: rest => last_url p.2 rest
  end.

Definition answers_of (pages : list (response * list json * string)) : list outcome :=
  map (λ p, Respond p.1.1) pages.

Definition items_of (pages : list (response * list json * string)) : list json :=
  concat (map (λ p, p.1.2) pages).

(** What ends a fetch with an exception: no answer within the timeout, an
    error of the transport, or a 200 whose body is not JSON. *)
Definition breaks (answers : list outcome) (e : exn) : Prop :=
  match answers with
  | [] => e = TransportError "ReadTimeout"
  | Fail e' :: _ => e = e'
  | Respond r :: _ => status_code r = 200 ∧ json_body r = Raise e
  end.

(** A step that sends nothing, shows nothing and stores nothing: it may
    read the clock. *)
Definition silent_step (w w' : world) : Prop :=
  w_http w' = w_http w ∧ w_trace w' = w_trace w ∧ same_store w w' ∧ same_env w w'.

(** ** The social-sentiment adapter and the inline persistence *)

(** The request [fetch_daily] sends for a token (lines 23 to 32). *)
Definition daily_request (api_key symbol start end_ : string) : request :=
  {| req_url := Lunarcrush.API_BASE +:+ "/assets"; req_headers := [];
     req_params := Some [("symbol", upper symbol); ("interval", "day");
                         ("data_points", "1000"); ("start_time", start);
                         ("end_time", end_); ("key", api_key)] |}.

(** A record as [fetch_daily] makes it for a token. *)
Definition canonical_point (symbol : string) (x : BFMarketSentiment) : Prop :=
  MarketSentiment.token_symbol x = upper symbol
  ∧ MarketSentiment.source_api x = "lunarcrush"
  ∧ MarketSentiment.backfill_run_id x = ""
  ∧ 0 ≤ MarketSentiment.neutral_mentions x.

(** The requests and the waits a trace shows, in order. *)
Definition sent (tr : list event) : list event :=
  List.filter (λ e, is_get e || is_sleep e) tr.

(** Frames the parquet writer can encode.  A column of a parquet file has
    one type.  The text columns of a news record hold whatever the provider
    sent under the key (lines 65 to 68): they make a column when each of them
    is a string.  The counts of a sentiment record are Python [int]s: they
    make a column when each of them fits 64 bits. *)
Definition is_text (v : json) : bool :=
  match v with
  | JStr _ => true
  | _ => false
  end.

Definition text_record (x : BFMarketNewsEvents) : bool :=
  is_text (MarketNewsEvents.title x) && is_text (MarketNewsEvents.description x)
  && is_text (MarketNewsEvents.source x) && is_text (MarketNewsEvents.url x).

Definition fits_int64 (z : Z) : bool := (- 2 ^ 63 <=? z)%Z && (z <? 2 ^ 63)%Z.

Definition counted_record (x : BFMarketSentiment) : bool :=
  fits_int64 (MarketSentiment.positive_mentions x)
  && fits_int64 (MarketSentiment.negative_mentions x)
  && fits_int64 (MarketSentiment.neutral_mentions x).

(** A persistence step that writes the CSV file, then the parquet file,
    then opens a transaction whose first statement is refused: the two
    writes are the first events, only store events follow and none of them
    is a commit, both files hold the frame, the step ends in the
    database's exception and no table has changed. *)
Definition exports_then_is_refused (step : M unit) (csv pq : string)
    (df : list row) (w : world) : Prop :=
  ∃ w' evs,
    step w = (Raise DBAPIError, w')
    ∧ w_trace w' = w_trace w ++ [EvWriteCsv csv df; EvWriteParquet pq df] ++ evs
    ∧ Forall (λ e, is_store e = true ∧ e ≠ EvCommit) evs
    ∧ w_files w' = <[pq := df]> (<[csv := df]> (w_files w))
    ∧ w_tables w' = w_tables w.

(** ** Answers of the providers used in the examples *)

(** Two pages of the news provider: the first links to the second, the
    second has no "next". *)
Module NewsPages.

Definition second_url : string := "https://cryptopanic.com/api/v1/posts/?page=2".

Definition first_items : list json :=
  [JObj [("title", JStr "Bitcoin up")]; JObj [("title", JStr "Bitcoin down")]].

Definition first_page : response :=
  {| status_code := 200; text := "{...}";
     json_body := Ok (JObj [("results", JArr first_items); ("next", JStr second_url)]) |}.

Definition last_items : list json := [JObj []].

Definition last_page : response :=
  {| status_code := 200; text := "{...}";
     json_body := Ok (JObj [("results", JArr last_items)]) |}.

Definition chain : list (response * list json * string) :=
  [(first_page, first_items, second_url)].

End NewsPages.

(** An answer of the social-sentiment provider: one series with two
    points, the second with fewer mentions in all than bullish and bearish
    ones together. *)
Module SocialAnswers.

Definition point (volume bullish bearish : Z) : json :=
  JObj [("time", JInt 1704067200); ("galaxy_score", JFloat (3 # 2));
        ("social_volume", JInt volume); ("social_bullish", JInt bullish);
        ("social_bearish", JInt bearish)].

Definition series : response :=
  {| status_code := 200; text := "{...}";
     json_body :=
       Ok (JObj [("data",
                  JArr [JObj [("timeSeries", JArr [point 20 7 5; point 10 7 5])]])]) |}.

Definition no_data : response :=
  {| status_code := 200; text := "{...}";
     json_body := Ok (JObj [("config", JObj []); ("data", JNull)]) |}.

End SocialAnswers.

(* ===================================================================== *)
(** * Reasoning about computations                                         *)
(* ===================================================================== *)

Lemma bind_ok {A B} (m : M A) (k : A → M B) w a w1 :
  m w = (Ok a, w1) → bind m k w = k a w1.
Proof. intros Hm. unfold bind. by rewrite Hm. Qed.

Lemma bind_raise {A B} (m : M A) (k : A → M B) w e w1 :
  m w = (Raise e, w1) → bind m k w = (Raise e, w1).
Proof. intros Hm. unfold bind. by rewrite Hm. Qed.

Lemma bind_inv_ok {A B} (m : M A) (k : A → M B) w b w2 :
  bind m k w = (Ok b, w2) →
  ∃ a w1, m w = (Ok a, w1) ∧ k a w1 = (Ok b, w2).
Proof.
  unfold bind. destruct (m w) as [[a|e] w1]; [eauto | discriminate].
Qed.

(** ** Postconditions on the value a computation returns *)

Lemma post_ret {A} (a : A) (Q : A → Prop) : Q a → post (ret a) Q.
Proof. intros HQ w a' w'. unfold ret. by intros [= <- _]. Qed.

Lemma post_raise {A} (e : exn) (Q : A → Prop) : post (raise e) Q.
Proof. intros w a w'. unfold raise. discriminate. Qed.

Lemma post_bind {A B} (m : M A) (k : A → M B) (Q : B → Prop) :
  (∀ a, post (k a) Q) → post (bind m k) Q.
Proof.
  intros Hk w b w' Hrun.
  apply bind_inv_ok in Hrun as (a & w1 & _ & Hrun). by eapply Hk.
Qed.

Lemma post_try_except {A} (body : M A) (handler : exn → M A) (Q : A → Prop) :
  post body Q → (∀ e, post (handler e) Q) → post (try_except body handler) Q.
Proof.
  intros Hb Hh w a w'. unfold try_except.
  destruct (body w) as [[a0|e] w1] eqn:Hbody.
  - intros [= <- <-]. by eapply Hb.
  - apply Hh.
Qed.

Ltac post_steps :=
  repeat first
    [ apply post_raise
    | apply post_ret
    | apply post_try_except; [|intros ?]
    | apply post_bind; intros ?
    | match goal with
      | |- post (if ?b then _ else _) _ => destruct b
      | |- post (match ?v with _ => _ end) _ => destruct v
      end ].

(** ** The durable store *)

(** Executing the statements of a transaction only adds to the trace; it
    stages every row unless the database refuses a statement. *)
Lemma execute_rows_run plan table df : ∀ k staged w r w',
  execute_rows plan table k df staged w = (r, w') →
  ∃ evs,
    w' = with_trace w (w_trace w ++ evs)
    ∧ Forall (λ e, is_store e = true) evs
    ∧ (∀ t x, EvInsert t x ∈ evs → x ∈ df)
    ∧ match r with
      | Ok out => out = staged ++ df
      | Raise e => e = DBAPIError
      end.
Proof.
  induction df as [|x df IH]; intros k staged w r w'; cbn [execute_rows].
  - unfold ret. intros [= <- <-]. exists [].
    rewrite !app_nil_r. split; [by destruct w|].
    split; [done|]. split; [|done]. intros t x Hin. by apply elem_of_nil in Hin.
  - unfold bind at 1, emit at 1.
    destruct (refuses plan k || negb (bound_by_text insert_values)).
    + unfold raise. intros [= <- <-]. exists [EvInsert table x].
      split; [done|]. split; [by repeat constructor|]. split; [|done].
      intros t y Hin. apply list_elem_of_singleton in Hin as [= _ ->]. left.
    + intros Hrun. apply IH in Hrun as (evs & -> & Hst & Hin & Hres).
      exists (EvInsert table x :: evs).
      split; [unfold with_trace; simpl; by rewrite <- app_assoc|].
      split; [by constructor|].
      split.
      * intros t y Hy. apply elem_of_cons in Hy as [[= _ ->]|Hy]; [left|].
        right. by eapply Hin.
      * destruct r; [|done]. by rewrite Hres, <- app_assoc.
Qed.

(** A transaction leaves the files alone, shows only store events, and
    either adds all the rows to the table or leaves every table as it was. *)
Lemma insert_transaction_run table df w r w' :
  insert_transaction table df w = (r, w') →
  ∃ evs,
    w_trace w' = w_trace w ++ evs
    ∧ Forall (λ e, is_store e = true) evs
    ∧ (∀ t x, EvInsert t x ∈ evs → x ∈ df)
    ∧ w_files w' = w_files w
    ∧ same_env w w'
    ∧ match r with
      | Ok _ =>
          w_tables w' = <[table := default [] (w_tables w !! table) ++ df]> (w_tables w)
      | Raise e => e = DBAPIError ∧ w_tables w' = w_tables w
      end.
Proof.
  unfold insert_transaction.
  destruct (w_db w) as [| |j|] eqn:Hdb.
  2: { intros [= <- <-]. exists []. rewrite app_nil_r.
       split; [done|]. split; [done|]. split; [|done].
       intros t x Hin. by apply elem_of_nil in Hin. }
  all: unfold try_except, bind at 1, emit at 1.
  all: set (w1 := with_trace w (w_trace w ++ [EvBegin])).
  all: unfold bind at 1.
  all: match goal with |- context [execute_rows ?plan] =>
         pose proof (execute_rows_run plan table df 0%nat [] w1) as Hex;
         destruct (execute_rows plan table 0 df [] w1) as [[staged|e] w2]
       end.
  all: destruct (Hex _ _ eq_refl) as (evs & -> & Hst & Hin & Hres); clear Hex.
  all: simpl in Hres; subst.
  all: unfold commit, raise, bind, emit; simpl; intros [= <- <-]; simpl.
  all: assert (Hins : ∀ last, is_store last = true → last ≠ EvBegin →
                 (∀ t x, last ≠ EvInsert t x) →
                 Forall (λ e, is_store e = true) (EvBegin :: evs ++ [last])
                 ∧ ∀ t x, EvInsert t x ∈ EvBegin :: evs ++ [last] → x ∈ df).
  all: try (intros last Hlast _ Hno; split;
            [ constructor; [done|]; apply Forall_app; split; [done|]; by constructor
            | intros t x Hx; apply elem_of_cons in Hx as [[=]|Hx];
              apply elem_of_app in Hx as [Hx|Hx]; [by eapply Hin|];
              apply list_elem_of_singleton in Hx; by destruct (Hno t x) ]).
  all: first [ exists (EvBegin :: evs ++ [EvCommit]); rewrite <- ?app_assoc;
               (split; [reflexivity|]);
               destruct (Hins EvCommit) as [Hall Hrows]; [done..|];
               by repeat split
             | exists (EvBegin :: evs ++ [EvRollback]); rewrite <- ?app_assoc;
               (split; [reflexivity|]);
               destruct (Hins EvRollback) as [Hall Hrows]; [done..|];
               by repeat split ].
Qed.

(** ** Strings and lists *)

Lemma append_inj_r (s a b : string) : s +:+ a = s +:+ b → a = b.
Proof. induction s as [|c s IH]; simpl; [done|]. intros [= Heq]. auto. Qed.

Lemma coinapi_paths_differ exports_dir run_id :
  Coinapi.csv_path exports_dir run_id ≠ Coinapi.parquet_path exports_dir run_id.
Proof.
  unfold Coinapi.csv_path, Coinapi.parquet_path. intros Heq.
  do 3 apply append_inj_r in Heq. discriminate.
Qed.

(** In a trace that starts with events outside a class, an event of the
    class has all of that start before it. *)
Lemma split_after_prefix (P : event → bool) (hd tl pre post : list event) e :
  hd ++ tl = pre ++ e :: post →
  Forall (λ x, P x = false) hd → P e = true →
  ∃ pre', pre = hd ++ pre'.
Proof.
  revert pre. induction hd as [|h hd IH]; intros pre Heq Hhd He; simpl in *.
  - by exists pre.
  - apply Forall_cons in Hhd as [Hh Hhd].
    destruct pre as [|p pre]; simpl in Heq.
    + injection Heq as -> _. congruence.
    + injection Heq as -> Heq. destruct (IH pre Heq Hhd He) as [pre' ->].
      by exists pre'.
Qed.

Lemma no_split_outside (P : event → bool) (l pre post : list event) e :
  l = pre ++ e :: post → Forall (λ x, P x = false) l → P e = true → False.
Proof.
  intros -> Hl He. apply Forall_app in Hl as [_ Hl].
  apply Forall_cons in Hl as [Hl _]. congruence.
Qed.

(* ===================================================================== *)
(** * The persistence step                                                 *)
(* ===================================================================== *)

(** C1.  For a non-empty batch and any [run_id], whatever the file system
    and the database do: no statement reaches the durable store before both
    export files, named by [run_id], are written with the stamped rows.
    When the file system takes the two writes, both files are there at the
    end with all N rows; if the step then ends in an exception, the
    transaction was rolled back and no durable table has gained a row, and
    if it ends normally the table has gained exactly the N rows. *)
Theorem upsert_and_export_exports_before_store
    (rows : list BFHistoricalMarketData) (run_id exports_dir : string)
    (w : world) (r : result unit) (w' : world) :
  rows ≠ [] →
  Coinapi.upsert_and_export rows run_id exports_dir w = (r, w') →
  let df := map (set_run_id run_id) (map PriceRow rows) in
  let csv := Coinapi.csv_path exports_dir run_id in
  let pq := Coinapi.parquet_path exports_dir run_id in
  ∃ evs,
    w_trace w' = w_trace w ++ evs
    ∧ (∀ pre e post, evs = pre ++ e :: post → is_store e = true →
         EvWriteCsv csv df ∈ pre ∧ EvWriteParquet pq df ∈ pre)
    ∧ (w_fs_ok w csv = true → w_fs_ok w pq = true →
         csv ≠ pq
         ∧ w_files w' !! csv = Some df ∧ w_files w' !! pq = Some df
         ∧ length df = length rows
         ∧ match r with
           | Raise e => e = DBAPIError ∧ w_tables w' = w_tables w
           | Ok _ =>
               w_tables w' =
                 <["bf_historical_market_data" :=
                     default [] (w_tables w !! "bf_historical_market_data") ++ df]>
                   (w_tables w)
           end).
Proof.
  intros Hne Hrun df csv pq.
  unfold Coinapi.upsert_and_export in Hrun.
  destruct rows as [|x rows]; [done|]. clear Hne.
  fold df csv pq in Hrun.
  unfold bind at 1, mkdir, emit at 1 in Hrun.
  unfold bind at 1, to_csv, write_file at 1 in Hrun. simpl in Hrun.
  destruct (w_fs_ok w csv) eqn:Hcsv.
  2: { injection Hrun as <- <-. exists [EvMkdir exports_dir]. simpl.
       split; [done|]. split; [|done].
       intros pre e post Heq He. exfalso.
       eapply (no_split_outside is_store); [exact Heq| |exact He].
       by repeat constructor. }
  unfold bind at 1, to_parquet, write_file at 1 in Hrun. simpl in Hrun.
  destruct (w_fs_ok w pq) eqn:Hpq.
  2: { injection Hrun as <- <-. exists [EvMkdir exports_dir; EvWriteCsv csv df]. simpl.
       split; [by rewrite <- app_assoc|]. split; [|done].
       intros pre e post Heq He. exfalso.
       eapply (no_split_outside is_store); [exact Heq| |exact He].
       by repeat constructor. }
  apply insert_transaction_run in Hrun as (evs & Htr & Hst & _ & Hfiles & _ & Hres).
  simpl in Htr, Hfiles, Hres.
  exists ([EvMkdir exports_dir; EvWriteCsv csv df; EvWriteParquet pq df] ++ evs).
  split; [by rewrite Htr, <- !app_assoc|].
  split.
  - intros pre e post Heq He.
    destruct (split_after_prefix is_store _ _ _ _ _ Heq) as [pre' ->];
      [by repeat constructor | done |].
    split; apply elem_of_app; left; set_solver.
  - intros _ _.
    split; [apply coinapi_paths_differ|].
    rewrite Hfiles.
    split; [rewrite lookup_insert_ne by (symmetry; apply coinapi_paths_differ);
            by rewrite lookup_insert_eq|].
    split; [by rewrite lookup_insert_eq|].
    split; [unfold df; by rewrite !length_map|].
    exact Hres.
Qed.

Lemma upsert_and_export_exports_before_store_witness :
  let rows := [Fixtures.price_record "BTC" Fixtures.jan01 1;
               Fixtures.price_record "BTC" Fixtures.jan02 2] in
  let w := Fixtures.test_world [] (λ _, true) (DbFailExecute 1) in
  let r := fst (Coinapi.upsert_and_export rows "run7" "exports" w) in
  let w' := snd (Coinapi.upsert_and_export rows "run7" "exports" w) in
  let df := map (set_run_id "run7") (map PriceRow rows) in
  r = Raise DBAPIError
  ∧ ∃ evs,
      w_trace w' = w_trace w ++ evs
      ∧ (∀ pre e post, evs = pre ++ e :: post → is_store e = true →
           EvWriteCsv "exports/coinapi_ohlcv_run7.csv" df ∈ pre
           ∧ EvWriteParquet "exports/coinapi_ohlcv_run7.parquet" df ∈ pre)
      ∧ (true = true → true = true →
           "exports/coinapi_ohlcv_run7.csv" ≠ "exports/coinapi_ohlcv_run7.parquet"
           ∧ w_files w' !! "exports/coinapi_ohlcv_run7.csv" = Some df
           ∧ w_files w' !! "exports/coinapi_ohlcv_run7.parquet" = Some df
           ∧ length df = 2%nat
           ∧ match r with
             | Raise e => e = DBAPIError ∧ w_tables w' = w_tables w
             | Ok _ =>
                 w_tables w' =
                   <["bf_historical_market_data" :=
                       default [] (w_tables w !! "bf_historical_market_data") ++ df]>
                     (w_tables w)
             end).
Proof.
  intros rows w r w' df. split; [reflexivity|].
  apply (upsert_and_export_exports_before_store rows "run7" "exports" w r w').
  - discriminate.
  - reflexivity.
Defined.

(* ===================================================================== *)
(** * The fetch side of a run                                              *)
(* ===================================================================== *)

Lemma fetch_step_refl w : fetch_step w w.
Proof.
  repeat split. exists []. by rewrite app_nil_r.
Qed.

Lemma fetch_step_trans w1 w2 w3 :
  fetch_step w1 w2 → fetch_step w2 w3 → fetch_step w1 w3.
Proof.
  intros ([Hf1 Ht1] & (Hc1 & Hs1 & Hd1) & evs1 & Htr1 & Hev1)
         ([Hf2 Ht2] & (Hc2 & Hs2 & Hd2) & evs2 & Htr2 & Hev2).
  repeat split; try congruence.
  exists (evs1 ++ evs2). split; [by rewrite Htr2, Htr1, app_assoc|].
  by apply Forall_app.
Qed.

Lemma fetch_step_emit e : is_fetch e = true → respects fetch_step (emit e).
Proof.
  intros He w. repeat split. exists [e]. split; [done|]. by constructor.
Qed.

Lemma fetch_step_utcnow : respects fetch_step utcnow.
Proof. intros w. repeat split. exists []. simpl. by rewrite app_nil_r. Qed.

Lemma fetch_step_client_get req : respects fetch_step (client_get req).
Proof.
  intros w. unfold client_get.
  destruct (w_http w) as [|[r|e] rest]; repeat split;
    exists [EvGet req]; (split; [done|]); by constructor.
Qed.

Ltac fetch_frame leaf :=
  frame_with fetch_step_refl fetch_step_trans
    ltac:(first [ leaf
                | apply fetch_step_client_get
                | apply fetch_step_utcnow
                | apply fetch_step_emit; reflexivity ]).

Section FetchSide.
Context `{Runtime}.

Lemma fetch_step_fetch_day api_key sym d :
  respects fetch_step (Coinapi.fetch_day api_key sym d).
Proof.
  unfold Coinapi.fetch_day, sleep, logger_error. fetch_frame fail.
Qed.

Lemma fetch_step_collect api_key tokens start_d end_d :
  respects fetch_step (Coinapi.collect api_key tokens start_d end_d).
Proof.
  unfold Coinapi.collect, Coinapi.await_fetch_day.
  fetch_frame ltac:(apply fetch_step_fetch_day).
Qed.

Lemma fetch_step_news_event token it :
  respects fetch_step (Cryptopanic.news_event token it).
Proof.
  unfold Cryptopanic.news_event, Cryptopanic._parse_date. fetch_frame fail.
Qed.

Lemma fetch_step_page token auth_token next_url items :
  respects fetch_step (Cryptopanic.page token auth_token next_url items).
Proof.
  unfold Cryptopanic.page, logger_error.
  fetch_frame ltac:(apply fetch_step_news_event).
Qed.

(** One turn of the pagination loop. *)
Lemma fetch_posts_loop_eq token auth_token next_url items w :
  Cryptopanic.fetch_posts_loop token auth_token next_url items w =
    if truthy next_url then
      match Cryptopanic.page token auth_token next_url items w with
      | (Ok (Cryptopanic.Continue items', next_url'), w') =>
          Cryptopanic.fetch_posts_loop token auth_token next_url' items' w'
      | (Ok (Cryptopanic.Break items', _), w') => (Ok items', w')
      | (Raise e, w') => (Raise e, w')
      end
    else (Ok items, w).
Proof.
  funelim (Cryptopanic.fetch_posts_loop token auth_token next_url items w).
  all: clear Heqcall.
  all: match goal with e : truthy _ = _ |- _ => rewrite e end.
  all: try match goal with e : Cryptopanic.page _ _ _ _ _ = _ |- _ => rewrite e end.
  all: reflexivity.
Qed.

(** Induction on the number of answers the provider still has to give. *)
Lemma fetch_posts_loop_ind token auth_token
    (P : json → list BFMarketNewsEvents → world →
         result (list BFMarketNewsEvents) * world → Prop) :
  (∀ next_url items w, truthy next_url = false → P next_url items w (Ok items, w)) →
  (∀ next_url items w items' junk w',
     truthy next_url = true →
     Cryptopanic.page token auth_token next_url items w
       = (Ok (Cryptopanic.Break items', junk), w') →
     P next_url items w (Ok items', w')) →
  (∀ next_url items w e w',
     truthy next_url = true →
     Cryptopanic.page token auth_token next_url items w = (Raise e, w') →
     P next_url items w (Raise e, w')) →
  (∀ next_url items w items' next_url' w',
     truthy next_url = true →
     Cryptopanic.page token auth_token next_url items w
       = (Ok (Cryptopanic.Continue items', next_url'), w') →
     P next_url' items' w'
       (Cryptopanic.fetch_posts_loop token auth_token next_url' items' w') →
     P next_url items w
       (Cryptopanic.fetch_posts_loop token auth_token next_url' items' w')) →
  ∀ next_url items w,
    P next_url items w (Cryptopanic.fetch_posts_loop token auth_token next_url items w).
Proof.
  intros Hstop Hbreak Hraise Hcont next_url items w.
  remember (length (w_http w)) as n eqn:Hn.
  revert next_url items w Hn.
  induction (lt_wf n) as [n _ IH]; intros next_url items w ->.
  rewrite fetch_posts_loop_eq.
  destruct (truthy next_url) eqn:Htruthy; [|by apply Hstop].
  destruct (Cryptopanic.page token auth_token next_url items w)
    as [[[[items'|items'] next_url']|e] w'] eqn:Hpage.
  - by eapply Hbreak.
  - eapply Hcont; [done | exact Hpage |].
    eapply IH; [|reflexivity].
    by eapply Cryptopanic.page_continue_uses_answer.
  - by eapply Hraise.
Qed.

Lemma fetch_step_fetch_posts_loop token auth_token next_url items :
  respects fetch_step (Cryptopanic.fetch_posts_loop token auth_token next_url items).
Proof.
  intros w.
  apply (fetch_posts_loop_ind token auth_token (λ _ _ w out, fetch_step w out.2)).
  - intros. apply fetch_step_refl.
  - intros ? ? w0 ? ? ? _ Hpage.
    pose proof (fetch_step_page token auth_token next_url0 items0 w0) as Hstep.
    by rewrite Hpage in Hstep.
  - intros ? ? w0 ? ? _ Hpage.
    pose proof (fetch_step_page token auth_token next_url0 items0 w0) as Hstep.
    by rewrite Hpage in Hstep.
  - intros ? ? w0 ? ? ? _ Hpage IH.
    pose proof (fetch_step_page token auth_token next_url0 items0 w0) as Hstep.
    rewrite Hpage in Hstep. eapply fetch_step_trans; [exact Hstep | exact IH].
Qed.

Lemma fetch_step_accumulate auth_token start end_ sym all_rows :
  respects fetch_step (Cryptopanic.accumulate auth_token start end_ sym all_rows).
Proof.
  unfold Cryptopanic.accumulate, Cryptopanic.fetch_posts.
  fetch_frame ltac:(apply fetch_step_fetch_posts_loop).
Qed.

End FetchSide.

(* ===================================================================== *)
(** * Stamping and the empty batch                                         *)
(* ===================================================================== *)

Lemma row_run_id_set run_id r : row_run_id (set_run_id run_id r) = run_id.
Proof. by destruct r. Qed.

Lemma stamped_frame run_id (rows : list row) :
  Forall (λ r, row_run_id r = run_id) (map (set_run_id run_id) rows).
Proof.
  apply Forall_forall. intros r Hr.
  apply list_elem_of_fmap in Hr as (r0 & -> & _). apply row_run_id_set.
Qed.

(** What the persistence step of the price adapter does to the world, for
    any batch: it shows export and store events only, every row it hands out
    is stamped, a file is either as before or holds stamped rows, and the
    tables are as before or have gained stamped rows. *)
Lemma upsert_and_export_run rows run_id exports_dir w r w' :
  Coinapi.upsert_and_export rows run_id exports_dir w = (r, w') →
  ∃ evs,
    w_trace w' = w_trace w ++ evs
    ∧ Forall (λ e, (is_export e || is_store e) = true ∧ stamped run_id e) evs
    ∧ (∀ path, w_files w' !! path = w_files w !! path
               ∨ ∃ df, w_files w' !! path = Some df
                       ∧ Forall (λ x, row_run_id x = run_id) df)
    ∧ (w_tables w' = w_tables w
       ∨ ∃ df, Forall (λ x, row_run_id x = run_id) df
               ∧ w_tables w' =
                   <["bf_historical_market_data" :=
                       default [] (w_tables w !! "bf_historical_market_data") ++ df]>
                     (w_tables w)).
Proof.
  unfold Coinapi.upsert_and_export.
  destruct rows as [|x rows].
  { intros [= <- <-]. exists []. rewrite app_nil_r. repeat split; auto. }
  set (df := map (set_run_id run_id) (map PriceRow (x :: rows))).
  assert (Hdf : Forall (λ r, row_run_id r = run_id) df) by apply stamped_frame.
  set (csv := Coinapi.csv_path exports_dir run_id).
  set (pq := Coinapi.parquet_path exports_dir run_id).
  unfold bind at 1, mkdir, emit at 1.
  unfold bind at 1, to_csv, write_file at 1. simpl.
  destruct (w_fs_ok w csv).
  2: { intros [= <- <-]. exists [EvMkdir exports_dir]. simpl.
       repeat split; auto. repeat constructor. }
  unfold bind at 1, to_parquet, write_file at 1. simpl.
  destruct (w_fs_ok w pq).
  2: { intros [= <- <-]. exists [EvMkdir exports_dir; EvWriteCsv csv df]. simpl.
       split; [by rewrite <- app_assoc|].
       split; [repeat (apply List.Forall_cons; [by split|]); apply List.Forall_nil|].
       split; [|by left].
       intros path. destruct (decide (path = csv)) as [->|Hne].
       - right. exists df. by rewrite lookup_insert_eq.
       - left. by rewrite lookup_insert_ne. }
  intros Hrun.
  apply insert_transaction_run in Hrun as (evs & Htr & Hst & Hin & Hfiles & _ & Hres).
  simpl in Htr, Hfiles, Hres.
  exists ([EvMkdir exports_dir; EvWriteCsv csv df; EvWriteParquet pq df] ++ evs).
  split; [by rewrite Htr, <- !app_assoc|].
  split.
  { apply Forall_app.
    split; [repeat (apply List.Forall_cons; [by split|]); apply List.Forall_nil|].
    apply Forall_forall. intros e He.
    rewrite Forall_forall in Hst. specialize (Hst e He).
    split; [rewrite Hst; apply orb_true_r|].
    destruct e; try done. simpl.
    rewrite Forall_forall in Hdf. apply Hdf. by eapply Hin. }
  split.
  { intros path. rewrite Hfiles.
    destruct (decide (path = pq)) as [->|Hpq].
    - right. exists df. by rewrite lookup_insert_eq.
    - rewrite lookup_insert_ne by done.
      destruct (decide (path = csv)) as [->|Hcsv].
      + right. exists df. by rewrite lookup_insert_eq.
      + left. by rewrite lookup_insert_ne. }
  destruct r as [[]|e]; [right; by exists df | left; by destruct Hres].
Qed.

Section Runs.
Context `{Runtime}.

Lemma fetch_day_in_flight api_key sym d :
  post (Coinapi.fetch_day api_key sym d)
    (Forall (λ x, HistoricalMarketData.backfill_run_id x = "")).
Proof.
  unfold Coinapi.fetch_day. post_steps; by repeat constructor.
Qed.

Lemma news_event_in_flight token it :
  post (Cryptopanic.news_event token it)
    (λ ev, MarketNewsEvents.backfill_run_id ev = "").
Proof.
  unfold Cryptopanic.news_event. post_steps. reflexivity.
Qed.

End Runs.

Section RunTheorems.
Context `{Runtime}.

Lemma sentiment_point_in_flight symbol p :
  post (Lunarcrush.sentiment_point symbol p)
    (λ x, MarketSentiment.backfill_run_id x = "").
Proof.
  unfold Lunarcrush.sentiment_point. post_steps. reflexivity.
Qed.

(** C7.  A record is created in flight: [fetch_day], and likewise the news
    and the social-sentiment adapters, give every record they create an
    empty [backfill_run_id].  The run of the price adapter stamps at the
    persistence step only: its trace is the fetches of the whole run, then
    the export and store events, then the completion event; every row handed
    to an export file or to the durable table carries the caller's
    [run_id]; a file is as it was or holds stamped rows, and the tables are
    as they were or have gained stamped rows. *)
Theorem run_id_stamped_only_at_persist
    (api_key : string) (token_list : list string) (start_d end_d : Py.date)
    (run_id exports_dir : string) (w : world) :
  let w' := snd (Coinapi.main_async api_key token_list start_d end_d
                   run_id exports_dir w) in
  (∀ sym d w0 rows w1,
     Coinapi.fetch_day api_key sym d w0 = (Ok rows, w1) →
     Forall (λ x, HistoricalMarketData.backfill_run_id x = "") rows)
  ∧ (∀ token it w0 ev w1,
       Cryptopanic.news_event token it w0 = (Ok ev, w1) →
       MarketNewsEvents.backfill_run_id ev = "")
  ∧ (∀ symbol p w0 x w1,
       Lunarcrush.sentiment_point symbol p w0 = (Ok x, w1) →
       MarketSentiment.backfill_run_id x = "")
  ∧ ∃ fetched persisted tail,
      w_trace w' = w_trace w ++ fetched ++ persisted ++ tail
      ∧ Forall (λ e, is_fetch e = true) fetched
      ∧ Forall (λ e, (is_export e || is_store e) = true ∧ stamped run_id e) persisted
      ∧ Forall (λ e, is_fetch e = false ∧ is_export e = false ∧ is_store e = false) tail
      ∧ (∀ path, w_files w' !! path = w_files w !! path
                 ∨ ∃ df, w_files w' !! path = Some df
                         ∧ Forall (λ x, row_run_id x = run_id) df)
      ∧ (w_tables w' = w_tables w
         ∨ ∃ df, Forall (λ x, row_run_id x = run_id) df
                 ∧ w_tables w' =
                     <["bf_historical_market_data" :=
                         default [] (w_tables w !! "bf_historical_market_data") ++ df]>
                       (w_tables w)).
Proof.
  intros w'.
  split; [intros sym d w0 rows w1; apply fetch_day_in_flight|].
  split; [intros token it w0 ev w1; apply news_event_in_flight|].
  split; [intros symbol p w0 x w1; apply sentiment_point_in_flight|].
  destruct (Coinapi.main_async api_key token_list start_d end_d run_id exports_dir w)
    as [r w2] eqn:Hrun.
  subst w'. simpl.
  unfold Coinapi.main_async, bind at 1 in Hrun.
  pose proof (fetch_step_collect api_key token_list start_d end_d w) as Hfetch.
  destruct (Coinapi.collect api_key token_list start_d end_d w)
    as [[all_rows|e] w1]; simpl in Hfetch;
    destruct Hfetch as ([Hf Ht] & _ & fetched & Htr & Hfetched).
  2: { injection Hrun as <- <-.
       exists fetched, [], []. simpl. rewrite app_nil_r.
       split; [done|]. split; [done|]. split; [done|]. split; [done|].
       split; [intros path; left; by rewrite Hf | by left]. }
  unfold bind at 1 in Hrun.
  destruct (Coinapi.upsert_and_export all_rows run_id exports_dir w1)
    as [[[]|e] w3] eqn:Hpersist;
    apply upsert_and_export_run in Hpersist
      as (persisted & Htr2 & Hpersisted & Hfiles & Htables);
    unfold logger_info, emit in Hrun; injection Hrun as <- <-; simpl.
  - exists fetched, persisted, [EvLogInfo
        [("event", LStr "coinapi_backfill_complete");
         ("count", LNat (length all_rows)); ("run_id", LStr run_id)]].
    rewrite Htr2, Htr, <- !app_assoc.
    split; [done|]. split; [done|]. split; [done|].
    split; [by repeat constructor|].
    split; [intros path; rewrite <- Hf; apply Hfiles | by rewrite <- Ht].
  - exists fetched, persisted, []. rewrite Htr2, Htr, app_nil_r, <- !app_assoc.
    split; [done|]. split; [done|]. split; [done|]. split; [done|].
    split; [intros path; rewrite <- Hf; apply Hfiles | by rewrite <- Ht].
Qed.

(** C9.  With an empty batch the persistence step of the price adapter and
    the one of the news adapter return at once and leave the world exactly
    as it was: no export file, no transaction, no change to a table.  A run
    whose fetches gave no record still completes: it ends normally with the
    completion event counting zero, having shown fetch events only. *)
Theorem empty_batch_persists_nothing
    (run_id exports_dir : string) (w : world) :
  Coinapi.upsert_and_export [] run_id exports_dir w = (Ok tt, w)
  ∧ Cryptopanic.persist [] run_id exports_dir w = (Ok tt, w)
  ∧ (∀ api_key token_list start_d end_d w1,
       Coinapi.collect api_key token_list start_d end_d w = (Ok [], w1) →
       Coinapi.main_async api_key token_list start_d end_d run_id exports_dir w
         = (Ok tt,
            with_trace w1
              (w_trace w1 ++
               [EvLogInfo [("event", LStr "coinapi_backfill_complete");
                           ("count", LNat 0); ("run_id", LStr run_id)]]))
       ∧ fetch_step w w1)
  ∧ (∀ auth_token token_list start end_ w1,
       for_each token_list (Cryptopanic.accumulate auth_token start end_) [] w
         = (Ok [], w1) →
       Cryptopanic.main_async auth_token token_list start end_ run_id exports_dir w
         = (Ok tt,
            with_trace w1
              (w_trace w1 ++
               [EvLogInfo [("event", LStr "cryptopanic_backfill_complete");
                           ("count", LNat 0); ("run_id", LStr run_id)]]))
       ∧ fetch_step w w1).
Proof.
  split; [reflexivity|]. split; [reflexivity|]. split.
  - intros api_key token_list start_d end_d w1 Hcollect.
    split.
    + unfold Coinapi.main_async. by rewrite (bind_ok _ _ _ _ _ Hcollect).
    + pose proof (fetch_step_collect api_key token_list start_d end_d w) as Hstep.
      by rewrite Hcollect in Hstep.
  - intros auth_token token_list start end_ w1 Hloop.
    split.
    + unfold Cryptopanic.main_async. by rewrite (bind_ok _ _ _ _ _ Hloop).
    + pose proof (respects_for_each fetch_step fetch_step_refl fetch_step_trans
                    token_list (Cryptopanic.accumulate auth_token start end_) []
                    (fetch_step_accumulate auth_token start end_) w) as Hstep.
      by rewrite Hloop in Hstep.
Qed.

End RunTheorems.

Lemma empty_batch_persists_nothing_witness :
  let w := Fixtures.test_world [Fixtures.status_response 503 "down"] (λ _, true) DbUp in
  let w1 := snd (@Coinapi.collect Fixtures.test_runtime "key" ["BTC"]
                   Fixtures.jan01 Fixtures.jan01 w) in
  @Coinapi.collect Fixtures.test_runtime "key" ["BTC"] Fixtures.jan01 Fixtures.jan01 w
    = (Ok [], w1)
  ∧ @Coinapi.main_async Fixtures.test_runtime "key" ["BTC"] Fixtures.jan01
      Fixtures.jan01 "run7" "exports" w
    = (Ok tt,
       with_trace w1
         (w_trace w1 ++
          [EvLogInfo [("event", LStr "coinapi_backfill_complete");
                      ("count", LNat 0); ("run_id", LStr "run7")]]))
  ∧ fetch_step w w1.
Proof.
  intros w w1.
  assert (Hcollect :
    @Coinapi.collect Fixtures.test_runtime "key" ["BTC"] Fixtures.jan01 Fixtures.jan01 w
      = (Ok [], w1)) by reflexivity.
  split; [exact Hcollect|].
  destruct (@empty_batch_persists_nothing Fixtures.test_runtime "run7" "exports" w)
    as (_ & _ & Hrun & _).
  exact (Hrun "key" ["BTC"] Fixtures.jan01 Fixtures.jan01 w1 Hcollect).
Defined.

(* ===================================================================== *)
(** * The sentiment of a news item                                         *)
(* ===================================================================== *)

Lemma count_or_zero votes k :
  is_count votes k = true →
  py_or (match assoc k votes with Some v => v | None => JNull end) (JInt 0)
    = JInt (vote_count votes k)
  ∧ 0 ≤ vote_count votes k.
Proof.
  unfold is_count, vote_count, py_or.
  destruct (assoc k votes) as [[| | n | | | |]|]; try discriminate; simpl; try done.
  intros Hn%Z.leb_le.
  destruct (Z.eqb_spec n 0) as [->|Hne]; simpl; done.
Qed.

Lemma inject_Z_le_0 t : Qle_bool (inject_Z t) (inject_Z 0) = (t <=? 0)%Z.
Proof.
  unfold Qle_bool, inject_Z. simpl. by rewrite Z.mul_1_r.
Qed.

Lemma ratio_bounded (x t : Z) :
  0 < t → - t ≤ x ≤ t →
  (-1 <= inject_Z x / inject_Z t)%Q ∧ (inject_Z x / inject_Z t <= 1)%Q.
Proof.
  intros Ht Hx.
  assert (Htq : (0 < inject_Z t)%Q).
  { change (inject_Z 0 < inject_Z t)%Q. rewrite <- Zlt_Qlt. lia. }
  split.
  - apply Qle_shift_div_l; [done|].
    unfold Qle. simpl. lia.
  - apply Qle_shift_div_r; [done|].
    unfold Qle. simpl. lia.
Qed.

Lemma float_limit_big : 1 < float_limit.
Proof. reflexivity. Qed.

(** The score the votes give when they are counts, as a function of the
    combined counts. *)
Lemma votes_sentiment_of_counts (fields : list (string * json)) :
  votes_are_counts fields = true →
  let votes := votes_of fields in
  let bullish := vote_count votes "bullish" + vote_count votes "liked" in
  let bearish := vote_count votes "bearish" + vote_count votes "disliked" in
  0 ≤ bullish ∧ 0 ≤ bearish
  ∧ Cryptopanic.sentiment_from_votes (JObj fields) =
      if (0 <? bullish + bearish)%Z
      then Ok (inject_Z (bullish - bearish) / inject_Z (bullish + bearish))%Q
      else Ok 0%Q.
Proof.
  intros Hvotes votes bullish bearish.
  assert (Hcounts : is_count votes "bullish" = true ∧ is_count votes "liked" = true
                    ∧ is_count votes "bearish" = true
                    ∧ is_count votes "disliked" = true).
  { subst votes. unfold votes_are_counts, votes_of in *.
    destruct (assoc "votes" fields) as [[| | | | | |vs]|]; try discriminate;
      try (by repeat split).
    by repeat (apply andb_prop in Hvotes as [Hvotes ?]). }
  destruct Hcounts as (Hb & Hl & Hb' & Hd).
  apply count_or_zero in Hb as [Hb Hb0], Hl as [Hl Hl0],
                         Hb' as [Hb' Hb'0], Hd as [Hd Hd0].
  split; [subst bullish; lia|]. split; [subst bearish; lia|].
  unfold Cryptopanic.sentiment_from_votes, get, rbind.
  assert (Hv : py_or (match assoc "votes" fields with
                      | Some v => v | None => JNull end) (JObj [])
               = JObj votes).
  { subst votes. unfold votes_of, votes_are_counts in *.
    destruct (assoc "votes" fields) as [[| | | | | |vs]|];
      try discriminate; try reflexivity. by destruct vs. }
  cbv zeta. rewrite Hv, Hb, Hl, Hb', Hd. cbn [add as_num sub].
  fold bullish bearish.
  unfold gt_int. cbn [as_num num_Q]. rewrite inject_Z_le_0.
  destruct (Z.ltb_spec 0 (bullish + bearish)) as [Hpos|Hle].
  - replace (bullish + bearish <=? 0)%Z with false
      by (symmetry; apply Z.leb_gt; lia).
    cbn [negb]. unfold truediv. cbn [as_num].
    replace (bullish + bearish =? 0)%Z with false
      by (symmetry; apply Z.eqb_neq; lia).
    pose proof float_limit_big.
    replace (Z.abs (bullish - bearish)
             <? float_limit * Z.abs (bullish + bearish))%Z with true; [done|].
    symmetry. apply Z.ltb_lt. nia.
  - by replace (bullish + bearish <=? 0)%Z with true
      by (symmetry; apply Z.leb_le; lia).
Qed.

(** The score of an item with no numeric [panic_score] whose votes are
    counts, as a function of the combined counts. *)
Lemma sentiment_of_counts (fields : list (string * json)) :
  no_panic_score fields = true →
  votes_are_counts fields = true →
  let votes := votes_of fields in
  let bullish := vote_count votes "bullish" + vote_count votes "liked" in
  let bearish := vote_count votes "bearish" + vote_count votes "disliked" in
  0 ≤ bullish ∧ 0 ≤ bearish
  ∧ Cryptopanic._sentiment_from_item (JObj fields) =
      if (0 <? bullish + bearish)%Z
      then Ok (inject_Z (bullish - bearish) / inject_Z (bullish + bearish))%Q
      else Ok 0%Q.
Proof.
  intros Hscore Hvotes votes bullish bearish.
  destruct (votes_sentiment_of_counts fields Hvotes) as (Hb & Hb' & Hrun).
  split; [done|]. split; [done|].
  etransitivity; [|exact Hrun].
  unfold Cryptopanic._sentiment_from_item, no_panic_score in *.
  cbn [get rbind].
  destruct (assoc "panic_score" fields) as [v|]; [|reflexivity].
  by destruct (as_num v).
Qed.

(** C5.  For an item with no numeric [panic_score] whose votes are counts,
    the score is defined, lies in [-1, 1], equals
    (bullish - bearish) / (bullish + bearish) over the combined counts when
    their sum is positive, and is exactly 0 when both combined counts are
    zero. *)
Theorem sentiment_from_votes_bounded (fields : list (string * json)) :
  no_panic_score fields = true →
  votes_are_counts fields = true →
  let votes := votes_of fields in
  let bullish := vote_count votes "bullish" + vote_count votes "liked" in
  let bearish := vote_count votes "bearish" + vote_count votes "disliked" in
  ∃ score : Q,
    Cryptopanic._sentiment_from_item (JObj fields) = Ok score
    ∧ (-1 <= score)%Q ∧ (score <= 1)%Q
    ∧ (0 < bullish + bearish →
         score = (inject_Z (bullish - bearish) / inject_Z (bullish + bearish))%Q)
    ∧ (bullish = 0 ∧ bearish = 0 → score = 0%Q).
Proof.
  intros Hscore Hvotes votes bullish bearish.
  destruct (sentiment_of_counts fields Hscore Hvotes) as (Hb & Hb' & Hrun).
  fold votes in Hb, Hb', Hrun. fold bullish in Hb, Hrun. fold bearish in Hb', Hrun.
  destruct (Z.ltb_spec 0 (bullish + bearish)) as [Hpos|Hle].
  - exists (inject_Z (bullish - bearish) / inject_Z (bullish + bearish))%Q.
    split; [done|].
    destruct (ratio_bounded (bullish - bearish) (bullish + bearish)) as [Hlo Hhi];
      [lia | lia |].
    split; [done|]. split; [done|]. split; [done|].
    intros [Hb1 Hb2]. lia.
  - exists 0%Q. split; [done|].
    split; [done|]. split; [done|]. split; [lia|done].
Qed.

Lemma sentiment_from_votes_bounded_witness :
  let fields := [("title", JStr "t");
                 ("votes", JObj [("bullish", JInt 3); ("disliked", JInt 1)])] in
  ∃ score : Q,
    Cryptopanic._sentiment_from_item (JObj fields) = Ok score
    ∧ (-1 <= score)%Q ∧ (score <= 1)%Q
    ∧ (0 < (3 + 0) + (0 + 1) →
         score = (inject_Z ((3 + 0) - (0 + 1)) / inject_Z ((3 + 0) + (0 + 1)))%Q)
    ∧ ((3 + 0) = 0 ∧ (0 + 1) = 0 → score = 0%Q).
Proof.
  intros fields.
  apply (sentiment_from_votes_bounded fields); reflexivity.
Defined.

(** The scenario of the spec: no positive and no negative vote. *)
Example sentiment_of_no_votes :
  Cryptopanic._sentiment_from_item
    (JObj [("votes", JObj [("bullish", JInt 0); ("bearish", JInt 0)])]) = Ok 0%Q.
Proof. reflexivity. Qed.

(* ===================================================================== *)
(** * The window of the news adapter                                       *)
(* ===================================================================== *)

Lemma filter_sublist {A} (f : A → bool) (l : list A) : sublist (List.filter f l) l.
Proof.
  induction l as [|x l IH]; simpl; [constructor|].
  destruct (f x); by constructor.
Qed.

Lemma in_window_spec start_d end_d x :
  Cryptopanic.in_window start_d end_d x = true
  ↔ start_d ≤ MarketNewsEvents.date x ≤ end_d.
Proof.
  unfold Cryptopanic.in_window. rewrite andb_true_iff, !Z.leb_le. tauto.
Qed.

Section Window.
Context `{Runtime}.

(** C8.  The fetch of the news adapter takes no date: it is the same
    computation whatever [start] and [end] are.  The window is applied to
    its result: the records accumulated for a token are the fetched items
    whose date lies in [start_d, end_d], bounds included, in the order and
    with the multiplicity of the fetch; an item is kept if and only if it
    was fetched and its date is in the window. *)
Theorem news_window_filtered_after_fetch
    (auth_token start end_ sym : string) (all_rows items : list BFMarketNewsEvents)
    (start_d end_d : Py.date) (w w1 : world) :
  Cryptopanic.fetch_posts sym auth_token start end_ w = (Ok items, w1) →
  strptime_ymd start = Ok start_d →
  strptime_ymd end_ = Ok end_d →
  let kept := List.filter (Cryptopanic.in_window start_d end_d) items in
  Cryptopanic.accumulate auth_token start end_ sym all_rows w
    = (Ok (all_rows ++ kept), w1)
  ∧ (∀ x, x ∈ kept ↔ x ∈ items ∧ start_d ≤ MarketNewsEvents.date x ≤ end_d)
  ∧ sublist kept items
  ∧ (∀ start' end',
       Cryptopanic.fetch_posts sym auth_token start' end'
         = Cryptopanic.fetch_posts sym auth_token start end_).
Proof.
  intros Hfetch Hstart Hend kept.
  split.
  { unfold Cryptopanic.accumulate.
    rewrite (bind_ok _ _ _ _ _ Hfetch), Hstart, Hend. reflexivity. }
  split.
  { intros x. subst kept. rewrite !list_elem_of_In, filter_In, in_window_spec. tauto. }
  split; [apply filter_sublist | reflexivity].
Qed.




End Window.


Lemma news_window_filtered_after_fetch_witness :
  let page :=
    JObj [("results",
           JArr [JObj [("title", JStr "inside");
                       ("published_at", JStr "2024-01-01T10:00:00Z")];
                 JObj [("title", JStr "after");
                       ("published_at", JStr "2024-01-03T08:30:00Z")];
                 JObj [("title", JStr "undated")]])] in
  let w := Fixtures.test_world [Fixtures.ok_response page] (λ _, true) DbUp in
  let out := @Cryptopanic.fetch_posts Fixtures.test_runtime "btc" "key"
               "2024-01-01" "2024-01-02" w in
  ∃ items,
    fst out = Ok items
    ∧ map MarketNewsEvents.title items
        = [JStr "inside"; JStr "after"; JStr "undated"]
    ∧ map MarketNewsEvents.title
        (List.filter (Cryptopanic.in_window Fixtures.jan01 Fixtures.jan02) items)
        = [JStr "inside"]
    ∧ @Cryptopanic.accumulate Fixtures.test_runtime "key" "2024-01-01" "2024-01-02"
        "btc" [] w
        = (Ok ([] ++ List.filter (Cryptopanic.in_window Fixtures.jan01 Fixtures.jan02)
                       items), snd out).
Proof.
  intros page w out.
  destruct out as [[items|e] w1] eqn:Hout; [|by vm_compute in Hout].
  exists items. split; [reflexivity|].
  split; [by vm_compute in Hout; injection Hout as <- _|].
  split; [by vm_compute in Hout; injection Hout as <- _|].
  simpl.
  by destruct (@news_window_filtered_after_fetch Fixtures.test_runtime
                 "key" "2024-01-01" "2024-01-02" "btc" [] items
                 Fixtures.jan01 Fixtures.jan02 w w1 Hout eq_refl eq_refl)
    as (Hacc & _).
Defined.

(* ===================================================================== *)
(** * The coordinator of the price adapter                                 *)
(* ===================================================================== *)

(** One turn of the loop of [daterange]. *)
Lemma daterange_from_eq cur end_ :
  Coinapi.daterange_from cur end_ =
    if Z_le_dec cur end_ then
      match add_day cur with
      | Ok next =>
          {| yields := cur :: yields (Coinapi.daterange_from next end_);
             stop := stop (Coinapi.daterange_from next end_) |}
      | Raise e => {| yields := [cur]; stop := Some e |}
      end
    else {| yields := []; stop := None |}.
Proof.
  funelim (Coinapi.daterange_from cur end_).
  all: clear Heqcall.
  all: match goal with e : Z_le_dec _ _ = _ |- _ => rewrite e | _ => idtac end.
  all: try match goal with e : add_day _ = _ |- _ => rewrite e end.
  all: try reflexivity.
Qed.

(** Below [date.max] the generator yields the days of the window in
    ascending order and stops normally. *)
Lemma daterange_from_window end_ :
  end_ < date_max →
  ∀ cur, Coinapi.daterange_from cur end_
         = {| yields := seqZ cur (end_ - cur + 1); stop := None |}.
Proof.
  intros Hmax cur.
  remember (Z.to_nat (end_ + 1 - cur)) as n eqn:Hn.
  revert cur Hn. induction n as [|n IH]; intros cur Hn.
  - rewrite daterange_from_eq.
    destruct (Z_le_dec cur end_); [lia|]. by rewrite seqZ_nil by lia.
  - rewrite daterange_from_eq.
    destruct (Z_le_dec cur end_); [|lia].
    unfold add_day. destruct (Z.ltb_spec cur date_max); [|lia].
    rewrite (IH (cur + 1)) by lia. simpl.
    rewrite (seqZ_cons cur) by lia.
    do 2 f_equal. f_equal; lia.
Qed.

Lemma daterange_empty start end_ :
  end_ < start → Coinapi.daterange start end_ = {| yields := []; stop := None |}.
Proof.
  intros Hlt. unfold Coinapi.daterange. rewrite daterange_from_eq.
  destruct (Z_le_dec start end_); [lia|done].
Qed.

Lemma work_items_app tr1 tr2 : work_items (tr1 ++ tr2) = work_items tr1 ++ work_items tr2.
Proof. unfold work_items. apply omap_app. Qed.

Lemma quiet_step_refl w : quiet_step w w.
Proof. exists []. by rewrite app_nil_r. Qed.

Lemma quiet_step_trans w1 w2 w3 : quiet_step w1 w2 → quiet_step w2 w3 → quiet_step w1 w3.
Proof.
  intros (evs1 & Htr1 & Hq1) (evs2 & Htr2 & Hq2).
  exists (evs1 ++ evs2). split; [by rewrite Htr2, Htr1, app_assoc|].
  by rewrite work_items_app, Hq1, Hq2.
Qed.

Lemma quiet_step_work_items w w' :
  quiet_step w w' → work_items (w_trace w') = work_items (w_trace w).
Proof.
  intros (evs & -> & Hq). by rewrite work_items_app, Hq, app_nil_r.
Qed.

Lemma quiet_of_kinds (evs : list event) :
  Forall (λ e, match e with EvCall _ _ => False | _ => True end) evs →
  work_items evs = [].
Proof.
  induction 1 as [|e evs He _ IH]; [done|].
  change (work_items (e :: evs)) with (work_items ([e] ++ evs)).
  rewrite work_items_app, IH, app_nil_r. by destruct e.
Qed.

Lemma quiet_step_emit e :
  match e with EvCall _ _ => False | _ => True end → respects quiet_step (emit e).
Proof.
  intros He w. exists [e]. split; [done|]. apply quiet_of_kinds. by constructor.
Qed.

Lemma quiet_step_utcnow : respects quiet_step utcnow.
Proof. intros w. exists []. simpl. by rewrite app_nil_r. Qed.

Lemma quiet_step_client_get req : respects quiet_step (client_get req).
Proof.
  intros w. unfold client_get.
  destruct (w_http w) as [|[r|e] rest]; exists [EvGet req]; by split.
Qed.

Section Coordinator.
Context `{Runtime}.

Lemma quiet_step_fetch_day api_key sym d :
  respects quiet_step (Coinapi.fetch_day api_key sym d).
Proof.
  unfold Coinapi.fetch_day, sleep, logger_error.
  frame_with quiet_step_refl quiet_step_trans
    ltac:(first [ apply quiet_step_client_get | apply quiet_step_utcnow
                | apply quiet_step_emit; exact I ]).
Qed.

(** Before [date.max], [fetch_day] returns a list whatever it meets. *)
Lemma fetch_day_returns api_key sym d w :
  d < date_max → ∃ rows, fst (Coinapi.fetch_day api_key sym d w) = Ok rows.
Proof.
  intros Hd. unfold Coinapi.fetch_day, bind at 1, lift at 1, add_day.
  destruct (Z.ltb_spec d date_max); [|lia].
  unfold try_except.
  match goal with |- context [bind ?m ?k w] => destruct (bind m k w) as [[rows|e] w1] end.
  - by exists rows.
  - by exists [].
Qed.

Lemma await_fetch_day_run api_key sym d w :
  d < date_max →
  ∃ rows w',
    Coinapi.await_fetch_day api_key sym d w = (Ok rows, w')
    ∧ work_items (w_trace w') = work_items (w_trace w) ++ [(sym, d)].
Proof.
  intros Hd. unfold Coinapi.await_fetch_day, bind, emit.
  set (w0 := with_trace w (w_trace w ++ [EvCall "fetch_day" [LStr sym; LDate d]])).
  destruct (fetch_day_returns api_key sym d w0 Hd) as [rows Hrows].
  pose proof (quiet_step_fetch_day api_key sym d w0) as Hquiet.
  destruct (Coinapi.fetch_day api_key sym d w0) as [r w'].
  simpl in Hrows, Hquiet. subst r. exists rows, w'. split; [done|].
  rewrite (quiet_step_work_items _ _ Hquiet). subst w0. simpl.
  by rewrite work_items_app.
Qed.

Lemma visit_days api_key sym (days : list Py.date) :
  Forall (λ d, d < date_max) days →
  ∀ all_rows w,
    ∃ all_rows' w',
      for_each days
        (λ d all_rows,
           rows <- Coinapi.await_fetch_day api_key sym d ;;
           ret (match rows with [] => all_rows | _ => all_rows ++ rows end))
        all_rows w = (Ok all_rows', w')
      ∧ work_items (w_trace w')
          = work_items (w_trace w) ++ map (λ d, (sym, d)) days.
Proof.
  induction 1 as [|d days Hd _ IH]; intros all_rows w; simpl.
  - exists all_rows, w. by rewrite app_nil_r.
  - destruct (await_fetch_day_run api_key sym d w Hd) as (rows & w1 & Hrun & Hw1).
    unfold bind at 1. unfold bind at 1. rewrite Hrun. unfold ret at 1.
    destruct (IH (match rows with [] => all_rows | _ => all_rows ++ rows end) w1)
      as (all_rows' & w' & Hrest & Hw').
    exists all_rows', w'. split; [exact Hrest|].
    by rewrite Hw', Hw1, <- app_assoc.
Qed.

Lemma collect_visits api_key (token_list : list string) start_d end_d :
  end_d < date_max →
  ∀ w, ∃ all_rows w',
    Coinapi.collect api_key token_list start_d end_d w = (Ok all_rows, w')
    ∧ work_items (w_trace w')
        = work_items (w_trace w)
          ++ list_prod token_list (seqZ start_d (end_d - start_d + 1)).
Proof.
  intros Hmax. unfold Coinapi.collect, Coinapi.daterange.
  rewrite (daterange_from_window end_d Hmax start_d).
  set (days := seqZ start_d (end_d - start_d + 1)).
  assert (Hdays : Forall (λ d, d < date_max) days).
  { apply Forall_seqZ. lia. }
  generalize (@nil BFHistoricalMarketData).
  induction token_list as [|sym token_list IH]; intros acc w; simpl.
  - exists acc, w. by rewrite app_nil_r.
  - unfold bind at 1, for_gen at 1. simpl.
    destruct (visit_days api_key sym days Hdays acc w) as (acc1 & w1 & Hrun & Hw1).
    unfold bind at 1. rewrite Hrun. unfold ret at 1.
    destruct (IH acc1 w1) as (all_rows & w' & Hrest & Hw').
    exists all_rows, w'. split; [exact Hrest|].
    by rewrite Hw', Hw1, <- app_assoc.
Qed.

End Coordinator.

Lemma quiet_step_upsert_and_export rows run_id exports_dir :
  respects quiet_step (Coinapi.upsert_and_export rows run_id exports_dir).
Proof.
  intros w.
  destruct (Coinapi.upsert_and_export rows run_id exports_dir w) as [r w'] eqn:Hrun.
  apply upsert_and_export_run in Hrun as (evs & Htr & Hevs & _).
  exists evs. split; [done|]. apply quiet_of_kinds.
  eapply Forall_impl; [exact Hevs|]. intros e [He _]. by destruct e.
Qed.

Section CoordinatorTheorems.
Context `{Runtime}.

(** C6, as amended.  For an end date before the last date a [date] can
    hold: [daterange(start, end)] yields the days from [start] to [end],
    bounds included, each once and in ascending order, and stops normally;
    it yields nothing when [start > end] (this part for every end date).
    The run calls the adapter on exactly the pairs of the product of the
    token list with that window, once each, tokens in the outer loop and
    days ascending in the inner loop. *)
Theorem coordinator_visits_product
    (api_key : string) (token_list : list string) (start_d end_d : Py.date)
    (run_id exports_dir : string) (w : world) :
  end_d < date_max →
  let window := seqZ start_d (end_d - start_d + 1) in
  let w' := snd (Coinapi.main_async api_key token_list start_d end_d
                   run_id exports_dir w) in
  Coinapi.daterange start_d end_d = {| yields := window; stop := None |}
  ∧ NoDup window
  ∧ (∀ d, d ∈ window ↔ start_d ≤ d ≤ end_d)
  ∧ (∀ i d, window !! i = Some d → d = start_d + Z.of_nat i)
  ∧ (∀ s e, e < s → Coinapi.daterange s e = {| yields := []; stop := None |})
  ∧ work_items (w_trace w')
      = work_items (w_trace w) ++ list_prod token_list window.
Proof.
  intros Hmax window w'.
  split; [apply (daterange_from_window end_d Hmax)|].
  split; [apply NoDup_seqZ|].
  split; [intros d; subst window; rewrite elem_of_seqZ; lia|].
  split; [intros i d Hi; by apply lookup_seqZ in Hi as [-> _]|].
  split; [apply daterange_empty|].
  subst w'. unfold Coinapi.main_async.
  destruct (collect_visits api_key token_list start_d end_d Hmax w)
    as (all_rows & w1 & Hcollect & Hw1).
  rewrite (bind_ok _ _ _ _ _ Hcollect). fold window in Hw1. rewrite <- Hw1.
  apply quiet_step_work_items.
  revert w1 Hcollect Hw1. intros w1 _ _.
  assert (Hq : respects quiet_step
    (Coinapi.upsert_and_export all_rows run_id exports_dir ;;;
     logger_info [("event", LStr "coinapi_backfill_complete");
                  ("count", LNat (length all_rows)); ("run_id", LStr run_id)])).
  { unfold logger_info.
    frame_with quiet_step_refl quiet_step_trans
      ltac:(first [ apply quiet_step_upsert_and_export
                  | apply quiet_step_emit; exact I ]). }
  apply Hq.
Qed.

End CoordinatorTheorems.

Lemma coordinator_visits_product_witness :
  let w := Fixtures.test_world
             [Fixtures.ok_response (JArr [Fixtures.bar 1 2 3 4 5])]
             (λ _, true) DbUp in
  let w' := snd (@Coinapi.main_async Fixtures.test_runtime "key" ["BTC"; "ETH"]
                   Fixtures.jan01 Fixtures.jan02 "run7" "exports" w) in
  Coinapi.daterange Fixtures.jan01 Fixtures.jan02
    = {| yields := [Fixtures.jan01; Fixtures.jan02]; stop := None |}
  ∧ work_items (w_trace w')
      = [("BTC", Fixtures.jan01); ("BTC", Fixtures.jan02);
         ("ETH", Fixtures.jan01); ("ETH", Fixtures.jan02)].
Proof.
  intros w w'.
  assert (Hmax : Fixtures.jan02 < date_max) by reflexivity.
  destruct (@coordinator_visits_product Fixtures.test_runtime "key" ["BTC"; "ETH"]
              Fixtures.jan01 Fixtures.jan02 "run7" "exports" w Hmax)
    as (Hrange & _ & _ & _ & _ & Hvisits).
  split; [exact Hrange | exact Hvisits].
Defined.

(** C6 as stated fails on the last day a [date] can hold.  With
    [start = end = date.max] the generator yields that day and then ends in
    [OverflowError]; [fetch_day] raises the same error on that day before
    its [try], so the run aborts on the first token and the second token is
    never visited. *)
Lemma coordinator_aborts_at_date_max :
  let w := Fixtures.test_world [] (λ _, true) DbUp in
  let out := @Coinapi.main_async Fixtures.test_runtime "key" ["BTC"; "ETH"]
               date_max date_max "run7" "exports" w in
  date_max ≤ date_max
  ∧ Coinapi.daterange date_max date_max
      = {| yields := [date_max]; stop := Some OverflowError |}
  ∧ fst out = Raise OverflowError
  ∧ work_items (w_trace (snd out)) = [("BTC", date_max)]
  ∧ work_items (w_trace (snd out))
      ≠ work_items (w_trace w) ++ list_prod ["BTC"; "ETH"] [date_max].
Proof.
  intros w out.
  split; [lia|]. split; [by vm_compute|].
  split; [by vm_compute|]. split; [by vm_compute|].
  by vm_compute.
Qed.

(* ===================================================================== *)
(** * Rate limits                                                          *)
(* ===================================================================== *)

Lemma client_get_respond req w r rest :
  w_http w = Respond r :: rest →
  client_get req w = (Ok r, with_http (with_trace w (w_trace w ++ [EvGet req])) rest).
Proof. intros Hhttp. unfold client_get. by rewrite Hhttp. Qed.

Lemma client_get_fail req w e rest :
  w_http w = Fail e :: rest →
  client_get req w = (Raise e, with_http (with_trace w (w_trace w ++ [EvGet req])) rest).
Proof. intros Hhttp. unfold client_get. by rewrite Hhttp. Qed.

Lemma client_get_timeout req w :
  w_http w = [] →
  client_get req w
    = (Raise (TransportError "ReadTimeout"), with_trace w (w_trace w ++ [EvGet req])).
Proof. intros Hhttp. unfold client_get. by rewrite Hhttp. Qed.

Section RateLimit.
Context `{Runtime}.

Lemma fetch_day_unfold api_key symbol day :
  Coinapi.fetch_day api_key symbol day =
    (next_day <- lift (add_day day) ;;
     let req := Coinapi.request_of api_key symbol day next_day in
     try_except
       (r <- client_get req ;;
        r <- (if (status_code r =? 429)%Z then sleep 1 ;;; client_get req else ret r) ;;
        handle_answer symbol day r)
       (on_exception symbol day)).
Proof. reflexivity. Qed.

Lemma bind_lift_ok {A B} (a : A) (k : A → M B) w : bind (lift (Ok a)) k w = k a w.
Proof. reflexivity. Qed.

Lemma try_except_bind_ok {A B} (m : M A) (k : A → M B) (h : exn → M B) w a w1 :
  m w = (Ok a, w1) → try_except (bind m k) h w = try_except (k a) h w1.
Proof. intros Hm. unfold try_except, bind. by rewrite Hm. Qed.

Lemma try_except_bind_raise {A B} (m : M A) (k : A → M B) (h : exn → M B) w e w1 :
  m w = (Raise e, w1) → try_except (bind m k) h w = h e w1.
Proof. intros Hm. unfold try_except, bind. by rewrite Hm. Qed.

Lemma offline_step_refl w : offline_step w w.
Proof. split; [done|]. exists []. by rewrite app_nil_r. Qed.

Lemma offline_step_trans w1 w2 w3 :
  offline_step w1 w2 → offline_step w2 w3 → offline_step w1 w3.
Proof.
  intros (Hh1 & t1 & Htr1 & Ht1) (Hh2 & t2 & Htr2 & Ht2).
  split; [congruence|]. exists (t1 ++ t2).
  split; [by rewrite Htr2, Htr1, app_assoc | by apply Forall_app].
Qed.

Lemma offline_step_log fields : respects offline_step (logger_error fields).
Proof.
  intros w. split; [done|]. exists [EvLogError fields]. split; [done|].
  by repeat constructor.
Qed.

Lemma offline_step_utcnow : respects offline_step utcnow.
Proof. intros w. split; [done|]. exists []. simpl. by rewrite app_nil_r. Qed.

Ltac offline_frame :=
  frame_with offline_step_refl offline_step_trans
    ltac:(first [ apply offline_step_log | apply offline_step_utcnow ]).

(** The answer that stands is handled offline, and so is an exception. *)
Lemma offline_handle_answer symbol day r :
  respects offline_step
    (try_except (handle_answer symbol day r) (on_exception symbol day)).
Proof. unfold handle_answer, on_exception. offline_frame. Qed.

Lemma offline_on_exception symbol day e :
  respects offline_step (on_exception symbol day e).
Proof. unfold on_exception. offline_frame. Qed.

(** [fetch_day] before [date.max] when the first answer is not a 429 (or
    there is no first answer): no retry decision is taken. *)
Lemma fetch_day_direct api_key symbol day w :
  day < date_max →
  match w_http w with
  | Respond r :: _ => status_code r ≠ 429
  | _ => True
  end →
  let req := Coinapi.request_of api_key symbol day (day + 1) in
  Coinapi.fetch_day api_key symbol day w
    = try_except (r <- client_get req ;; handle_answer symbol day r)
        (on_exception symbol day) w.
Proof.
  intros Hday Hfirst req. rewrite fetch_day_unfold.
  unfold bind at 1, lift at 1, add_day.
  destruct (Z.ltb_spec day date_max); [|lia]. fold req.
  unfold try_except, bind at 1. unfold bind at 3.
  unfold client_get.
  destruct (w_http w) as [|[r|e] rest]; try reflexivity.
  apply Z.eqb_neq in Hfirst. unfold bind at 1. by rewrite Hfirst.
Qed.

(** [fetch_day] before [date.max] when the first answer is a 429: one wait
    of a second, then the same request, whose answer stands. *)
Lemma fetch_day_rate_limited api_key symbol day w r1 rest :
  day < date_max →
  w_http w = Respond r1 :: rest → status_code r1 = 429 →
  let req := Coinapi.request_of api_key symbol day (day + 1) in
  Coinapi.fetch_day api_key symbol day w
    = try_except (r <- client_get req ;; handle_answer symbol day r)
        (on_exception symbol day)
        (with_http (with_trace w (w_trace w ++ [EvGet req; EvSleep 1])) rest).
Proof.
  intros Hday Hhttp Hstatus req. rewrite fetch_day_unfold.
  unfold bind at 1, lift at 1, add_day.
  destruct (Z.ltb_spec day date_max); [|lia]. fold req.
  unfold try_except, bind at 1. unfold bind at 3.
  rewrite (client_get_respond req w r1 rest Hhttp), Hstatus. simpl.
  unfold bind at 1. unfold bind at 1. unfold sleep, emit. simpl.
  unfold client_get. simpl. rewrite <- !app_assoc. simpl.
  reflexivity.
Qed.

Lemma fetch_day_retries_once api_key symbol day :
  day < date_max → retries_once (Coinapi.fetch_day api_key symbol day).
Proof.
  intros Hday w r1 rest Hhttp Hstatus.
  set (req := Coinapi.request_of api_key symbol day (day + 1)).
  exists req.
  rewrite (fetch_day_rate_limited api_key symbol day w r1 rest Hday Hhttp Hstatus).
  fold req.
  set (w2 := with_http (with_trace w (w_trace w ++ [EvGet req; EvSleep 1])) rest).
  assert (Htr2 : ∀ tl, w_trace w2 ++ EvGet req :: tl
                       = w_trace w ++ [EvGet req; EvSleep 1; EvGet req] ++ tl).
  { intros tl. subst w2. simpl. by rewrite <- app_assoc. }
  destruct rest as [|[r2|e] rest'].
  - rewrite (try_except_bind_raise _ _ _ _ _ _ (client_get_timeout req w2 eq_refl)).
    destruct (offline_on_exception symbol day (TransportError "ReadTimeout")
                (with_trace w2 (w_trace w2 ++ [EvGet req])))
      as (_ & tail & Htr & Htail).
    exists tail. split; [|done]. rewrite Htr. simpl.
    by rewrite <- !app_assoc.
  - rewrite (try_except_bind_ok _ _ _ _ _ _ (client_get_respond req w2 r2 rest' eq_refl)).
    destruct (offline_handle_answer symbol day r2
                (with_http (with_trace w2 (w_trace w2 ++ [EvGet req])) rest'))
      as (_ & tail & Htr & Htail).
    exists tail. split; [|done]. rewrite Htr. simpl.
    by rewrite <- !app_assoc.
  - rewrite (try_except_bind_raise _ _ _ _ _ _ (client_get_fail req w2 e rest' eq_refl)).
    destruct (offline_on_exception symbol day e
                (with_http (with_trace w2 (w_trace w2 ++ [EvGet req])) rest'))
      as (_ & tail & Htr & Htail).
    exists tail. split; [|done]. rewrite Htr. simpl.
    by rewrite <- !app_assoc.
Qed.

(** The news adapter on a first answer that is not a 200: one request, the
    error event, and the (empty) list of the pages read so far. *)
Lemma fetch_posts_refused token auth_token start end_ w r rest :
  w_http w = Respond r :: rest → status_code r ≠ 200 →
  let req := {| req_url := Cryptopanic.posts_url; req_headers := [];
                req_params := Some (Cryptopanic.posts_params token auth_token) |} in
  Cryptopanic.fetch_posts token auth_token start end_ w
    = (Ok [],
       with_http
         (with_trace w
            (w_trace w ++
             [EvGet req;
              EvLogError [("event", LStr "cryptopanic_http_error");
                          ("status", LInt (status_code r));
                          ("body", LStr (take_str 200 (text r)))]]))
         rest).
Proof.
  intros Hhttp Hstatus req.
  unfold Cryptopanic.fetch_posts. rewrite fetch_posts_loop_eq.
  change (truthy (JStr Cryptopanic.posts_url)) with true. cbv iota.
  unfold Cryptopanic.page.
  change (String.eqb Cryptopanic.posts_url Cryptopanic.posts_url) with true.
  cbv iota. fold req.
  rewrite (bind_ok _ _ _ _ _ (client_get_respond req w r rest Hhttp)).
  apply Z.eqb_neq in Hstatus. rewrite Hstatus. simpl.
  unfold bind, logger_error, emit, ret. simpl.
  by rewrite <- app_assoc.
Qed.

(** The price adapter on a rate limit.  For a day before [date.max], a
    first answer with status 429 makes [fetch_day] wait one second and send
    the same request once more, and nothing more is sent.  [fetch_day]
    returns a list and never raises.  When the answer to the retry is a 200
    the fetch is the fetch that meets this answer first; when it has any
    other status, 429 included, the fetch returns the empty list and logs
    the status and the first 200 characters of the body. *)
Lemma fetch_day_on_rate_limit
    (api_key symbol : string) (day : Py.date) (w : world)
    (r1 : response) (rest : list outcome) :
  day < date_max →
  w_http w = Respond r1 :: rest →
  status_code r1 = 429 →
  let req := Coinapi.request_of api_key symbol day (day + 1) in
  let w2 := with_http (with_trace w (w_trace w ++ [EvGet req; EvSleep 1])) rest in
  retries_once (Coinapi.fetch_day api_key symbol day)
  ∧ (∃ rows, fst (Coinapi.fetch_day api_key symbol day w) = Ok rows)
  ∧ (∀ r2 rest', rest = Respond r2 :: rest' → status_code r2 = 200 →
       Coinapi.fetch_day api_key symbol day w = Coinapi.fetch_day api_key symbol day w2)
  ∧ (∀ r2 rest', rest = Respond r2 :: rest' → status_code r2 ≠ 200 →
       Coinapi.fetch_day api_key symbol day w
         = (Ok [],
            with_http
              (with_trace w
                 (w_trace w ++
                  [EvGet req; EvSleep 1; EvGet req;
                   EvLogError [("event", LStr "coinapi_http_error");
                               ("symbol", LStr symbol); ("day", LDate day);
                               ("status", LInt (status_code r2));
                               ("body", LStr (take_str 200 (text r2)))]]))
              rest')).
Proof.
  intros Hday Hhttp Hstatus req w2.
  split; [by apply fetch_day_retries_once|].
  split; [by apply fetch_day_returns|].
  split.
  { intros r2 rest' -> Hok.
    rewrite (fetch_day_rate_limited api_key symbol day w r1 _ Hday Hhttp Hstatus).
    symmetry. apply fetch_day_direct; [done|]. simpl. lia. }
  intros r2 rest' -> Hbad.
  rewrite (fetch_day_rate_limited api_key symbol day w r1 _ Hday Hhttp Hstatus).
  fold req w2.
  rewrite (try_except_bind_ok _ _ _ _ _ _
             (client_get_respond req w2 r2 rest' eq_refl)).
  unfold handle_answer. apply Z.eqb_neq in Hbad. rewrite Hbad. simpl.
  unfold try_except, bind, logger_error, emit, ret. simpl.
  by rewrite <- !app_assoc.
Qed.

End RateLimit.

(** The news adapter does not do the same: after a 429 it neither waits
    nor sends the request again. *)
Lemma news_adapter_does_not_retry :
  ¬ retries_once (@Cryptopanic.fetch_posts Fixtures.test_runtime "btc" "key"
                    "2024-01-01" "2024-01-02").
Proof.
  intros Hretry.
  destruct (Hretry
              (Fixtures.test_world
                 [Fixtures.status_response 429 "slow down";
                  Fixtures.ok_response (JObj [("results", JArr [JObj []])])]
                 (λ _, true) DbUp)
              _ _ eq_refl eq_refl) as (req & tail & Htrace & _).
  vm_compute in Htrace. discriminate Htrace.
Qed.

(* ===================================================================== *)
(** * Items with missing fields                                            *)
(* ===================================================================== *)

Lemma or_else_ok a b : or_else a (Ok b) = Ok (if truthy a then a else b).
Proof. unfold or_else. by destruct (truthy a). Qed.

Lemma stamp_of_eq fields :
  (if truthy (field fields "published_at") then field fields "published_at"
   else py_or (field fields "created_at") (JStr ""))
  = stamp_of fields.
Proof.
  unfold stamp_of, py_or, field.
  destruct (truthy (match assoc "published_at" fields with
                    | Some v => v | None => JNull end)) eqn:Hp.
  - by rewrite Hp.
  - by destruct (truthy (match assoc "created_at" fields with
                         | Some v => v | None => JNull end)) eqn:Hc; rewrite ?Hc.
Qed.

Lemma source_object fields :
  source_ok fields = true →
  py_or (field fields "source") (JObj []) = JObj (source_fields fields).
Proof.
  unfold source_ok, source_fields, field, py_or.
  destruct (assoc "source" fields) as [[| | | | | |kv]|]; try discriminate; try done.
  by destruct kv.
Qed.

Section MissingFields.
Context `{Runtime}.

Lemma parse_date_returns v w :
  ∃ dt w1, Cryptopanic._parse_date v w = (Ok dt, w1) ∧ offline_step w w1.
Proof.
  unfold Cryptopanic._parse_date, try_except.
  assert (Hfallback : ∃ dt w1,
    (now <- utcnow ;; ret (dt_date now)) w = (Ok dt, w1) ∧ offline_step w w1).
  { eexists _, _. split; [reflexivity|]. apply offline_step_utcnow. }
  destruct v; try exact Hfallback.
  unfold bind at 1, lift.
  destruct (fromisoformat _) as [dt|e]; [|exact Hfallback].
  exists (dt_date dt), w. split; [done | apply offline_step_refl].
Qed.

(** The record of an item the adapter can read, field by field. *)
Lemma news_event_run token fields w score :
  source_ok fields = true →
  Cryptopanic._sentiment_from_item (JObj fields) = Ok score →
  ∃ dt w1,
    Cryptopanic._parse_date (stamp_of fields) w = (Ok dt, w1)
    ∧ Cryptopanic.news_event token (JObj fields) w
      = (Ok {| MarketNewsEvents.token_symbol := upper token;
               MarketNewsEvents.date := dt;
               MarketNewsEvents.title := py_or (field fields "title") (JStr "");
               MarketNewsEvents.description :=
                 if truthy (field fields "description")
                 then field fields "description"
                 else py_or (field fields "body") (JStr "");
               MarketNewsEvents.source :=
                 py_or (field (source_fields fields) "title") (JStr "cryptopanic");
               MarketNewsEvents.sentiment_score := score;
               MarketNewsEvents.url :=
                 if truthy (field fields "url")
                 then field fields "url"
                 else py_or (field (source_fields fields) "url") (JStr "");
               MarketNewsEvents.timestamp_fetched := w_clock w1 (w_ticks w1);
               MarketNewsEvents.backfill_run_id := "" |},
         with_ticks w1 (S (w_ticks w1))).
Proof.
  intros Hsource Hscore.
  destruct (parse_date_returns (stamp_of fields) w) as (dt & w1 & Hparse & _).
  exists dt, w1. split; [exact Hparse|].
  unfold Cryptopanic.news_event.
  rewrite Hscore.
  repeat first
    [ rewrite bind_lift_ok
    | rewrite or_else_ok
    | rewrite stamp_of_eq
    | rewrite (bind_ok _ _ _ _ _ Hparse)
    | rewrite (source_object fields Hsource)
    | progress cbn [rbind]
    | match goal with
      | |- context [get (JObj ?f) ?k JNull] =>
          change (get (JObj f) k JNull) with (@Ok json (field f k))
      end ].
  reflexivity.
Qed.

Lemma sentiment_returns fields :
  (panic_score_ok fields || votes_are_counts fields) = true →
  ∃ score,
    Cryptopanic._sentiment_from_item (JObj fields) = Ok score
    ∧ (assoc "panic_score" fields = None → assoc "votes" fields = None →
       score = 0%Q).
Proof.
  intros Hok.
  assert (Hvotes : votes_are_counts fields = true →
    ∃ score,
      Cryptopanic.sentiment_from_votes (JObj fields) = Ok score
      ∧ (assoc "votes" fields = None → score = 0%Q)).
  { intros Hcounts.
    destruct (votes_sentiment_of_counts fields Hcounts) as (_ & _ & Hrun).
    destruct (0 <? _)%Z eqn:Hpos.
    - eexists. split; [exact Hrun|]. intros Hnone.
      unfold votes_of in Hpos. rewrite Hnone in Hpos. discriminate.
    - by exists 0%Q. }
  unfold panic_score_ok in Hok.
  unfold Cryptopanic._sentiment_from_item, float_of_num. cbn [get rbind].
  destruct (assoc "panic_score" fields) as [v|].
  - destruct (as_num v) as [n|].
    + destruct (fits_float n).
      * exists (num_Q n). by split.
      * destruct (Hvotes Hok) as (score & Hrun & _). exists score. by split.
    + destruct (Hvotes Hok) as (score & Hrun & _). exists score. by split.
  - destruct (Hvotes Hok) as (score & Hrun & Hzero). exists score.
    split; [done|]. intros _. exact Hzero.
Qed.

Lemma float_field_ok fields k :
  price_ok fields k = true →
  Coinapi.float_field (JObj fields) k = Ok (price_of fields k).
Proof.
  unfold price_ok, price_of, Coinapi.float_field, get, rbind.
  destruct (assoc k fields) as [v|]; [|done].
  unfold float, float_of_num.
  destruct v; try discriminate; cbn [as_num]; by intros ->.
Qed.


End MissingFields.



(** Numbers no [float] holds.  A price of 10^400 makes [float()] raise
    inside the [try] of [fetch_day], which logs the exception and returns
    the empty list.  A [panic_score] of 10^400 makes [float()] raise inside
    [_sentiment_from_item], which goes on to the votes: with votes that are
    counts the item gets their score, and with votes that are no object
    the item raises [AttributeError]. *)
Example price_too_big_is_dropped :
  let w := Fixtures.test_world
             [Fixtures.ok_response (JArr [JObj [("price_open", JInt (10 ^ 400))]])]
             (λ _, true) DbUp in
  @Coinapi.fetch_day Fixtures.test_runtime "key" "BTC" Fixtures.jan01 w
    = (Ok [],
       with_http
         (with_trace w
            [EvGet (@Coinapi.request_of Fixtures.test_runtime "key" "BTC"
                      Fixtures.jan01 Fixtures.jan02);
             EvLogError [("event", LStr "coinapi_exception"); ("symbol", LStr "BTC");
                         ("day", LDate Fixtures.jan01); ("error", LExn OverflowError)]])
         []).
Proof. by vm_compute. Qed.

Example panic_score_too_big_falls_to_votes :
  Cryptopanic._sentiment_from_item
    (JObj [("panic_score", JInt (10 ^ 400));
           ("votes", JObj [("bullish", JInt 3); ("disliked", JInt 1)])])
    = Ok (inject_Z (3 - 1) / inject_Z (3 + 1))%Q
  ∧ Cryptopanic._sentiment_from_item
      (JObj [("panic_score", JInt (10 ^ 400)); ("votes", JStr "x")])
    = Raise AttributeError
  ∧ Cryptopanic._sentiment_from_item
      (JObj [("panic_score", JInt (2 ^ 1024 - 2 ^ 970 - 1)); ("votes", JStr "x")])
    = Ok (inject_Z (2 ^ 1024 - 2 ^ 970 - 1)).
Proof. by vm_compute. Qed.

(* ===================================================================== *)
(** * Transport errors                                                     *)
(* ===================================================================== *)

Section TransportErrors.
Context `{Runtime}.

(** The price adapter absorbs a transport error: the exception handler of
    [fetch_day] turns it into the empty list and an error event. *)
Lemma fetch_day_absorbs_transport_error api_key symbol day w e rest :
  day < date_max →
  w_http w = Fail e :: rest →
  let req := Coinapi.request_of api_key symbol day (day + 1) in
  Coinapi.fetch_day api_key symbol day w
    = (Ok [],
       with_http
         (with_trace w
            (w_trace w ++
             [EvGet req;
              EvLogError [("event", LStr "coinapi_exception"); ("symbol", LStr symbol);
                          ("day", LDate day); ("error", LExn e)]]))
         rest).
Proof.
  intros Hday Hhttp req.
  rewrite fetch_day_direct; [|done|by rewrite Hhttp]. fold req.
  rewrite (try_except_bind_raise _ _ _ _ _ _ (client_get_fail req w e rest Hhttp)).
  unfold on_exception, bind, logger_error, emit, ret. simpl.
  by rewrite <- app_assoc.
Qed.

(** The news adapter and the social-sentiment adapter have no handler
    around their request: the error of the transport leaves the fetch. *)
Lemma fetch_posts_lets_transport_error_out token auth_token start end_ w e rest :
  w_http w = Fail e :: rest →
  fst (Cryptopanic.fetch_posts token auth_token start end_ w) = Raise e.
Proof.
  intros Hhttp.
  unfold Cryptopanic.fetch_posts. rewrite fetch_posts_loop_eq.
  change (truthy (JStr Cryptopanic.posts_url)) with true. cbv iota.
  unfold Cryptopanic.page.
  by rewrite (bind_raise _ _ _ _ _ (client_get_fail _ w e rest Hhttp)).
Qed.

Lemma fetch_daily_lets_transport_error_out api_key symbol start end_ w e rest :
  w_http w = Fail e :: rest →
  fst (Lunarcrush.fetch_daily api_key symbol start end_ w) = Raise e.
Proof.
  intros Hhttp. unfold Lunarcrush.fetch_daily.
  by rewrite (bind_raise _ _ _ _ _ (client_get_fail _ w e rest Hhttp)).
Qed.

End TransportErrors.

(** C3, at the failing input.  The provider's connection is reset on the
    first request.  [fetch_day] returns the empty list; [fetch_posts] and
    [fetch_daily] end in the exception, and so does the run of the news
    adapter, before anything is exported or stored.  A body that is not
    JSON leaves [fetch_posts] the same way. *)
Theorem transport_error_leaves_news_and_sentiment_fetch :
  let reset := TransportError "ConnectionResetError" in
  let w := Fixtures.test_world [Fail reset] (λ _, true) DbUp in
  let malformed :=
    Fixtures.test_world
      [Respond {| status_code := 200; text := "<html>";
                  json_body := Raise JSONDecodeError |}]
      (λ _, true) DbUp in
  fst (@Coinapi.fetch_day Fixtures.test_runtime "key" "BTC" Fixtures.jan01 w) = Ok []
  ∧ fst (@Cryptopanic.fetch_posts Fixtures.test_runtime "btc" "key"
           "2024-01-01" "2024-01-02" w) = Raise reset
  ∧ fst (@Lunarcrush.fetch_daily Fixtures.test_runtime "key" "btc"
           "2024-01-01T00:00:00Z" "2024-01-02T00:00:00Z" w) = Raise reset
  ∧ fst (@Cryptopanic.fetch_posts Fixtures.test_runtime "btc" "key"
           "2024-01-01" "2024-01-02" malformed) = Raise JSONDecodeError
  ∧ (let out := @Cryptopanic.main_async Fixtures.test_runtime "key" ["btc"; "eth"]
                  "2024-01-01" "2024-01-02" "run7" "exports" w in
     fst out = Raise reset
     ∧ w_files (snd out) = ∅ ∧ w_tables (snd out) = ∅
     ∧ Forall (λ e, is_export e = false ∧ is_store e = false) (w_trace (snd out))).
Proof.
  intros reset w malformed.
  split; [by vm_compute|]. split; [by vm_compute|].
  split; [by vm_compute|]. split; [by vm_compute|].
  split; [by vm_compute|]. split; [by vm_compute|]. split; [by vm_compute|].
  vm_compute. by repeat constructor.
Qed.

(* ===================================================================== *)
(** * The token list of a run                                              *)
(* ===================================================================== *)

Lemma upper_ascii_idem c : upper_ascii (upper_ascii c) = upper_ascii c.
Proof. by destruct c as [[] [] [] [] [] [] [] []]. Qed.

Lemma is_space_upper c : is_space (upper_ascii c) = is_space c.
Proof. by destruct c as [[] [] [] [] [] [] [] []]. Qed.

Lemma upper_ascii_comma c : Ascii.eqb (upper_ascii c) "," = Ascii.eqb c ",".
Proof. by destruct c as [[] [] [] [] [] [] [] []]. Qed.

Lemma upper_ascii_only c :
  (nat_of_ascii (upper_ascii c) <? 128)%nat = (nat_of_ascii c <? 128)%nat.
Proof. by destruct c as [[] [] [] [] [] [] [] []]. Qed.

Lemma upper_idem s : upper (upper s) = upper s.
Proof. induction s as [|c s IH]; simpl; [done|]. by rewrite upper_ascii_idem, IH. Qed.

Lemma upper_empty s : upper s = "" ↔ s = "".
Proof. by destruct s. Qed.

Lemma lstrip_upper s : lstrip (upper s) = upper (lstrip s).
Proof.
  induction s as [|c s IH]; simpl; [done|].
  rewrite is_space_upper. by destruct (is_space c).
Qed.

Lemma rstrip_upper s : rstrip (upper s) = upper (rstrip s).
Proof.
  induction s as [|c s IH]; simpl; [done|].
  rewrite IH, is_space_upper.
  destruct (rstrip s) as [|c' r]; simpl; [by destruct (is_space c)|done].
Qed.

Lemma strip_upper s : strip (upper s) = upper (strip s).
Proof. unfold strip. by rewrite lstrip_upper, rstrip_upper. Qed.

Lemma lstrip_starts_clean s : starts_clean (lstrip s).
Proof.
  induction s as [|c s IH]; simpl; [done|].
  by destruct (is_space c) eqn:Hc.
Qed.

Lemma lstrip_clean s : starts_clean s → lstrip s = s.
Proof. destruct s as [|c s]; simpl; [done|]. by intros ->. Qed.

Lemma rstrip_starts_clean s : starts_clean s → starts_clean (rstrip s).
Proof.
  destruct s as [|c s]; simpl; [done|]. intros Hc.
  destruct (rstrip s); simpl; by rewrite ?Hc.
Qed.

Lemma rstrip_idem s : rstrip (rstrip s) = rstrip s.
Proof.
  induction s as [|c s IH]; simpl; [done|].
  destruct (rstrip s) as [|c' r] eqn:Hr.
  - destruct (is_space c) eqn:Hc; simpl; [done|]. by rewrite Hc.
  - change (rstrip (String c (String c' r))) with
      (match rstrip (String c' r) with
       | EmptyString => if is_space c then EmptyString else String c EmptyString
       | r0 => String c r0
       end).
    by rewrite IH.
Qed.

Lemma strip_idem s : strip (strip s) = strip s.
Proof.
  unfold strip.
  rewrite (lstrip_clean (rstrip (lstrip s)))
    by apply rstrip_starts_clean, lstrip_starts_clean.
  apply rstrip_idem.
Qed.

Lemma lstrip_comma_free s : comma_free s = true → comma_free (lstrip s) = true.
Proof.
  induction s as [|c s IH]; simpl; [done|].
  intros [Hc Hs]%andb_prop. destruct (is_space c); [auto|]. simpl. by rewrite Hc, Hs.
Qed.

Lemma rstrip_comma_free s : comma_free s = true → comma_free (rstrip s) = true.
Proof.
  induction s as [|c s IH]; simpl; [done|].
  intros [Hc Hs]%andb_prop. specialize (IH Hs).
  destruct (rstrip s) as [|c' r].
  - destruct (is_space c); simpl; [done|]. by rewrite Hc.
  - simpl in *. by rewrite Hc, IH.
Qed.

Lemma upper_comma_free s : comma_free (upper s) = comma_free s.
Proof.
  induction s as [|c s IH]; simpl; [done|]. by rewrite upper_ascii_comma, IH.
Qed.

Lemma lstrip_ascii_only s : ascii_only s = true → ascii_only (lstrip s) = true.
Proof.
  induction s as [|c s IH]; simpl; [done|].
  intros [Hc Hs]%andb_prop. destruct (is_space c); [auto|]. simpl. by rewrite Hc, Hs.
Qed.

Lemma rstrip_ascii_only s : ascii_only s = true → ascii_only (rstrip s) = true.
Proof.
  induction s as [|c s IH]; simpl; [done|].
  intros [Hc Hs]%andb_prop. specialize (IH Hs).
  destruct (rstrip s) as [|c' r].
  - destruct (is_space c); simpl; [done|]. by rewrite Hc.
  - simpl in *. by rewrite Hc, IH.
Qed.

Lemma upper_ascii_only_str s : ascii_only (upper s) = ascii_only s.
Proof.
  induction s as [|c s IH]; simpl; [done|]. by rewrite upper_ascii_only, IH.
Qed.

(** The pieces of a split hold no separator, and are ASCII when the text is. *)
Lemma split_comma_free s : Forall (λ t, comma_free t = true) (split "," s).
Proof.
  induction s as [|c s IH]; simpl; [by repeat constructor|].
  destruct (Ascii.eqb c ",") eqn:Hc; [by constructor|].
  destruct (split "," s) as [|h t]; [by repeat constructor; simpl; rewrite Hc|].
  apply Forall_cons in IH as [Hh Ht].
  constructor; [simpl; by rewrite Hc, Hh | done].
Qed.

Lemma split_ascii_only s :
  ascii_only s = true → Forall (λ t, ascii_only t = true) (split "," s).
Proof.
  induction s as [|c s IH]; simpl; [by repeat constructor|].
  intros [Hc Hs]%andb_prop. specialize (IH Hs).
  destruct (Ascii.eqb c ","); [by constructor|].
  destruct (split "," s) as [|h t]; [by repeat constructor; simpl; rewrite Hc|].
  apply Forall_cons in IH as [Hh Ht].
  constructor; [simpl; by rewrite Hc, Hh | done].
Qed.

Lemma split_whole s : comma_free s = true → split "," s = [s].
Proof.
  induction s as [|c s IH]; simpl; [done|].
  intros [Hc Hs]%andb_prop. apply negb_true_iff in Hc. by rewrite Hc, IH.
Qed.

Lemma split_append s rest :
  comma_free s = true →
  split "," (s +:+ String "," rest) = s :: split "," rest.
Proof.
  induction s as [|c s IH]; simpl; [done|].
  intros [Hc Hs]%andb_prop. apply negb_true_iff in Hc. by rewrite Hc, IH.
Qed.

Lemma split_concat ts :
  ts ≠ [] → Forall (λ t, comma_free t = true) ts →
  split "," (String.concat "," ts) = ts.
Proof.
  induction ts as [|t ts IH]; [done|]. intros _ Hts.
  apply Forall_cons in Hts as [Ht Hts].
  destruct ts as [|t' ts].
  - by apply split_whole.
  - change (String.concat "," (t :: t' :: ts))
      with (t +:+ String "," (String.concat "," (t' :: ts))).
    rewrite split_append by done. f_equal. by apply IH.
Qed.

(** X1.  The tokens of a run, for ASCII text: every token is normal.  Empty
    entries and entries of white space alone are dropped; the others are
    trimmed and upper-cased. *)
Theorem token_list_is_normal (tokens : string) :
  ascii_only tokens = true →
  Forall normal_token (token_list_of tokens).
Proof.
  intros Hascii. unfold token_list_of.
  apply Forall_fmap, Forall_forall. intros t Ht.
  apply list_elem_of_In, filter_In in Ht as [Ht Hkeep].
  apply list_elem_of_In in Ht.
  pose proof (split_comma_free tokens) as Hfree.
  pose proof (split_ascii_only tokens Hascii) as Hasc.
  rewrite Forall_forall in Hfree, Hasc.
  apply negb_true_iff, String.eqb_neq in Hkeep.
  unfold normal_token, compose.
  split. { rewrite upper_ascii_only_str. unfold strip.
           by apply rstrip_ascii_only, lstrip_ascii_only, Hasc. }
  split. { by rewrite upper_empty. }
  split. { by rewrite strip_upper, strip_idem. }
  split. { apply upper_idem. }
  rewrite upper_comma_free. unfold strip.
  by apply rstrip_comma_free, lstrip_comma_free, Hfree.
Qed.

Lemma token_list_is_normal_witness :
  token_list_of ",btc,, Eth ," = ["BTC"; "ETH"]
  ∧ Forall normal_token (token_list_of ",btc,, Eth ,").
Proof.
  split; [reflexivity|]. by apply token_list_is_normal.
Defined.

(** X2.  Round trip: normal tokens joined with commas are read back as they are. *)
Theorem token_list_of_joined (ts : list string) :
  Forall normal_token ts →
  token_list_of (String.concat "," ts) = ts.
Proof.
  intros Hts. unfold token_list_of.
  destruct ts as [|t0 ts0]; [reflexivity|].
  rewrite split_concat;
    [|done|eapply Forall_impl; [exact Hts|]; by intros t (_ & _ & _ & _ & Hc)].
  generalize (t0 :: ts0) Hts. clear. intros ts Hts.
  induction Hts as [|t ts (_ & Hne & Hstrip & Hupper & _) _ IH]; simpl; [done|].
  rewrite Hstrip.
  apply String.eqb_neq in Hne. rewrite Hne. simpl.
  by rewrite Hstrip, Hupper, IH.
Qed.

Lemma token_list_of_joined_witness :
  token_list_of (String.concat "," ["BTC"; "ETH"; "SOL"]) = ["BTC"; "ETH"; "SOL"].
Proof.
  apply token_list_of_joined.
  repeat constructor; try reflexivity; discriminate.
Defined.

(* ===================================================================== *)
(** * Symbols and days of the price adapter                                *)
(* ===================================================================== *)

Lemma list_ascii_of_append (s t : string) :
  String.list_ascii_of_string (s +:+ t)
    = String.list_ascii_of_string s ++ String.list_ascii_of_string t.
Proof. induction s as [|c s IH]; simpl; [done|]. by rewrite IH. Qed.

Lemma append_inj_l (a b t : string) : a +:+ t = b +:+ t → a = b.
Proof.
  intros Heq. apply (f_equal String.list_ascii_of_string) in Heq.
  rewrite !list_ascii_of_append in Heq. apply app_inv_tail in Heq.
  apply (f_equal String.string_of_list_ascii) in Heq.
  by rewrite !String.string_of_list_ascii_of_string in Heq.
Qed.

(** X3.  For ASCII text, the instrument id names the symbol up to case,
    and nothing else of it: for a given quote and exchange two symbols have
    the same id exactly when they have the same upper-case form, and
    [fetch_day] builds the same request for two symbols exactly when they
    do.  So two different tokens of a run never share an instrument, and
    [BTC] and [btc] share one. *)
Theorem symbol_id_names_symbol_up_to_case `{Runtime}
    (s1 s2 quote exchange api_key : string) (day next_day : Py.date) :
  ascii_only s1 = true → ascii_only s2 = true → ascii_only quote = true →
  (Coinapi._symbol_id s1 quote exchange = Coinapi._symbol_id s2 quote exchange
   ↔ upper s1 = upper s2)
  ∧ (Coinapi.request_of api_key s1 day next_day
       = Coinapi.request_of api_key s2 day next_day
     ↔ upper s1 = upper s2)
  ∧ Coinapi._symbol_id (upper s1) (upper quote) exchange
      = Coinapi._symbol_id s1 quote exchange.
Proof.
  intros _ _ _.
  assert (Hid : ∀ q ex,
    Coinapi._symbol_id s1 q ex = Coinapi._symbol_id s2 q ex ↔ upper s1 = upper s2).
  { intros q ex. unfold Coinapi._symbol_id. split; [|by intros ->].
    intros Heq. do 2 apply append_inj_r in Heq. by apply append_inj_l in Heq. }
  split; [apply Hid|].
  split.
  - rewrite <- (Hid "USD" "BITSTAMP").
    split.
    + intros Heq. apply (f_equal req_url) in Heq.
      unfold Coinapi.request_of in Heq. cbn [req_url] in Heq.
      apply append_inj_r in Heq. by apply append_inj_l in Heq.
    + intros Heq. unfold Coinapi.request_of. by rewrite Heq.
  - unfold Coinapi._symbol_id. by rewrite !upper_idem.
Qed.

Lemma symbol_id_names_symbol_up_to_case_witness :
  (Coinapi._symbol_id "btc" "usd" "BITSTAMP" = Coinapi._symbol_id "Btc" "usd" "BITSTAMP"
   ↔ upper "btc" = upper "Btc")
  ∧ Coinapi._symbol_id "btc" "usd" "BITSTAMP" = "BITSTAMP_SPOT_BTC_USD"
  ∧ Coinapi._symbol_id (upper "btc") (upper "usd") "BITSTAMP"
      = Coinapi._symbol_id "btc" "usd" "BITSTAMP".
Proof.
  destruct (@symbol_id_names_symbol_up_to_case Fixtures.test_runtime
              "btc" "Btc" "usd" "BITSTAMP" "key" Fixtures.jan01 Fixtures.jan02
              eq_refl eq_refl eq_refl) as (Hid & _ & Hup).
  split; [exact Hid|]. split; [reflexivity | exact Hup].
Defined.

(** X4.  Up to the last day a [date] can hold, [daterange] still yields every
    day of the window, in ascending order, but it does not stop normally:
    resumed after [date.max] it ends in [OverflowError]. *)
Theorem daterange_to_date_max (start end_ : Py.date) :
  start ≤ date_max → date_max ≤ end_ →
  Coinapi.daterange start end_
    = {| yields := seqZ start (date_max - start + 1); stop := Some OverflowError |}.
Proof.
  intros Hstart Hend. unfold Coinapi.daterange.
  remember (Z.to_nat (date_max - start)) as n eqn:Hn.
  revert start Hstart Hn. induction n as [|n IH]; intros start Hstart Hn.
  - assert (start = date_max) as -> by lia.
    rewrite daterange_from_eq.
    destruct (Z_le_dec date_max end_); [|lia].
    unfold add_day. rewrite Z.ltb_irrefl.
    by replace (date_max - date_max + 1) with 1 by lia.
  - rewrite daterange_from_eq.
    destruct (Z_le_dec start end_); [|lia].
    unfold add_day. destruct (Z.ltb_spec start date_max); [|lia].
    rewrite (IH (start + 1)) by lia. simpl.
    rewrite (seqZ_cons start) by lia.
    do 2 f_equal. f_equal; lia.
Qed.

Lemma daterange_to_date_max_witness :
  Coinapi.daterange (date_max - 2) date_max
    = {| yields := [date_max - 2; date_max - 1; date_max];
         stop := Some OverflowError |}.
Proof.
  rewrite daterange_to_date_max by (unfold date_max; lia). reflexivity.
Defined.

(* ===================================================================== *)
(** * What the price run accumulates                                       *)
(* ===================================================================== *)

Lemma post_bind_strong {A B} (m : M A) (k : A → M B) (P : A → Prop) (Q : B → Prop) :
  post m P → (∀ a, P a → post (k a) Q) → post (bind m k) Q.
Proof.
  intros Hm Hk w b w' Hrun.
  apply bind_inv_ok in Hrun as (a & w1 & Ha & Hrun).
  eapply Hk; [by eapply Hm | exact Hrun].
Qed.

Lemma post_for_each {X A} (xs : list X) (body : X → A → M A) (Inv : A → Prop) acc :
  (∀ x a, Inv a → post (body x a) Inv) → Inv acc → post (for_each xs body acc) Inv.
Proof.
  intros Hbody. revert acc.
  induction xs as [|x xs IH]; intros acc Hacc; simpl.
  - by apply post_ret.
  - eapply post_bind_strong; [by apply Hbody|]. intros a Ha. by apply IH.
Qed.

Lemma for_each_cons_ok {X A} (x : X) (xs : list X) (body : X → A → M A) acc w acc1 w1 :
  body x acc w = (Ok acc1, w1) →
  for_each (x :: xs) body acc w = for_each xs body acc1 w1.
Proof. intros Hbody. simpl. by rewrite (bind_ok _ _ _ _ _ Hbody). Qed.

Lemma post_weaken {A} (m : M A) (P Q : A → Prop) :
  post m P → (∀ a, P a → Q a) → post m Q.
Proof. intros Hm HPQ w a w' Hrun. by eapply HPQ, Hm. Qed.

Section Accumulated.
Context `{Runtime}.

(** [fetch_day] returns no record or the one record of its work item. *)
Lemma fetch_day_rows api_key sym d :
  post (Coinapi.fetch_day api_key sym d)
    (λ rows, rows = [] ∨ ∃ x, rows = [x] ∧ fresh_price_record sym d x).
Proof.
  unfold Coinapi.fetch_day. post_steps; try by left.
  right. eexists. split; [reflexivity|]. by repeat split.
Qed.

Lemma days_rows api_key sym (days : list Py.date) :
  ∀ acc w acc' w',
    for_each days
      (λ d all_rows,
         rows <- Coinapi.await_fetch_day api_key sym d ;;
         ret (match rows with [] => all_rows | _ => all_rows ++ rows end))
      acc w = (Ok acc', w') →
    ∃ new,
      acc' = acc ++ new
      ∧ sublist (map price_key new) (map (pair sym) days)
      ∧ Forall (λ x, ∃ d, d ∈ days ∧ fresh_price_record sym d x) new.
Proof.
  induction days as [|d days IH]; intros acc w acc' w'; simpl.
  - unfold ret. intros [= <- <-]. exists []. by rewrite app_nil_r.
  - intros Hrun.
    apply bind_inv_ok in Hrun as (acc1 & w1 & Hbody & Hrest).
    apply bind_inv_ok in Hbody as (rows & w0 & Hfetch & Hret).
    unfold ret in Hret. injection Hret as <- <-.
    unfold Coinapi.await_fetch_day in Hfetch.
    apply bind_inv_ok in Hfetch as ([] & w00 & _ & Hfetch).
    apply fetch_day_rows in Hfetch.
    apply IH in Hrest as (new & -> & Hsub & Hnew).
    destruct Hfetch as [->|(x & -> & Hx)].
    + exists new. split; [done|]. split; [by constructor|].
      eapply Forall_impl; [exact Hnew|]. intros y (d' & Hd' & Hy).
      exists d'. split; [by right|done].
    + exists (x :: new). split; [by rewrite <- app_assoc|].
      split.
      * simpl. destruct Hx as (-> & _). by constructor.
      * constructor; [exists d; split; [by left|done]|].
        eapply Forall_impl; [exact Hnew|]. intros y (d' & Hd' & Hy).
        exists d'. split; [by right|done].
Qed.

Lemma tokens_rows api_key (g : generated Py.date) (token_list : list string) :
  ∀ acc w acc' w',
    for_each token_list
      (λ sym all_rows,
         for_gen g
           (λ d all_rows,
              rows <- Coinapi.await_fetch_day api_key sym d ;;
              ret (match rows with [] => all_rows | _ => all_rows ++ rows end))
           all_rows)
      acc w = (Ok acc', w') →
    ∃ new,
      acc' = acc ++ new
      ∧ sublist (map price_key new) (list_prod token_list (yields g))
      ∧ Forall (λ x, ∃ sym d, sym ∈ token_list ∧ d ∈ yields g
                              ∧ fresh_price_record sym d x) new.
Proof.
  induction token_list as [|sym token_list IH]; intros acc w acc' w'; simpl.
  - unfold ret. intros [= <- <-]. exists []. by rewrite app_nil_r.
  - intros Hrun.
    apply bind_inv_ok in Hrun as (acc1 & w1 & Hgen & Hrest).
    unfold for_gen in Hgen.
    apply bind_inv_ok in Hgen as (acc0 & w0 & Hdays & Hstop).
    assert (Heq : acc0 = acc1).
    { destruct (stop g); [discriminate|]. unfold ret in Hstop. congruence. }
    rewrite Heq in Hdays. clear Heq Hstop.
    apply days_rows in Hdays as (new1 & Hacc1 & Hsub1 & Hnew1).
    apply IH in Hrest as (new2 & Hacc' & Hsub2 & Hnew2).
    exists (new1 ++ new2). split; [by rewrite Hacc', Hacc1, <- app_assoc|].
    split.
    + rewrite map_app. by apply sublist_app.
    + apply Forall_app. split.
      * eapply Forall_impl; [exact Hnew1|]. intros x (d & Hd & Hx).
        exists sym, d. split; [by left|done].
      * eapply Forall_impl; [exact Hnew2|]. intros x (s & d & Hs & Hd & Hx).
        exists s, d. split; [by right|done].
Qed.

(** X5.  Whatever the provider answers, a run that gets through its fetches has
    accumulated at most one record per work item, in the order of the work
    items: the keys of the records are a sublist of the product of the
    token list with the days of the window.  Every record is in flight and
    names the price provider as its source. *)
Theorem collect_at_most_one_record_per_work_item
    (api_key : string) (token_list : list string) (start_d end_d : Py.date)
    (w : world) (all_rows : list BFHistoricalMarketData) (w' : world) :
  Coinapi.collect api_key token_list start_d end_d w = (Ok all_rows, w') →
  let window := yields (Coinapi.daterange start_d end_d) in
  sublist (map price_key all_rows) (list_prod token_list window)
  ∧ (length all_rows ≤ length token_list * length window)%nat
  ∧ Forall (λ x, HistoricalMarketData.source_api x = "coinapi"
                 ∧ HistoricalMarketData.backfill_run_id x = ""
                 ∧ HistoricalMarketData.token_symbol x ∈ token_list
                 ∧ HistoricalMarketData.date x ∈ window) all_rows.
Proof.
  intros Hrun. cbv zeta.
  apply tokens_rows in Hrun as (new & Hall & Hsub & Hnew). simpl in Hall.
  rewrite Hall. split; [exact Hsub|].
  split.
  { apply sublist_length in Hsub.
    by rewrite length_map, length_prod in Hsub. }
  eapply Forall_impl; [exact Hnew|].
  intros x (s & d & Hs & Hd & Hkey & Hsrc & Hid).
  unfold price_key in Hkey. injection Hkey as Hs' Hd'. by rewrite Hs', Hd'.
Qed.

End Accumulated.

Lemma collect_at_most_one_record_per_work_item_witness :
  let w := Fixtures.test_world
             [Fixtures.ok_response (JArr [Fixtures.bar 1 2 3 4 5]);
              Fixtures.status_response 500 "down";
              Fixtures.ok_response (JArr [])]
             (λ _, true) DbUp in
  let out := @Coinapi.collect Fixtures.test_runtime "key" ["BTC"; "ETH"]
               Fixtures.jan01 Fixtures.jan02 w in
  ∃ all_rows,
    fst out = Ok all_rows
    ∧ map price_key all_rows = [("BTC", Fixtures.jan01)]
    ∧ sublist (map price_key all_rows)
        (list_prod ["BTC"; "ETH"]
           (yields (Coinapi.daterange Fixtures.jan01 Fixtures.jan02))).
Proof.
  intros w out.
  destruct out as [[all_rows|e] w'] eqn:Hout; [|by vm_compute in Hout].
  exists all_rows. split; [reflexivity|].
  split; [by vm_compute in Hout; injection Hout as <- _|].
  by destruct (@collect_at_most_one_record_per_work_item Fixtures.test_runtime
                 "key" ["BTC"; "ETH"] Fixtures.jan01 Fixtures.jan02 w all_rows w' Hout)
    as (Hsub & _).
Defined.

Section GoodAnswers.
Context `{Runtime}.

Lemma fetch_day_bar api_key sym d w o rest :
  d < date_max → w_http w = o :: rest → good_bar_answer o →
  ∃ x w',
    Coinapi.fetch_day api_key sym d w = (Ok [x], w')
    ∧ fresh_price_record sym d x ∧ w_http w' = rest.
Proof.
  intros Hd Hhttp (r & fields & more & -> & Hstatus & Hbody & Hbar).
  unfold bar_ok in Hbar. repeat (apply andb_prop in Hbar as [Hbar ?]).
  rewrite fetch_day_direct; [|done|rewrite Hhttp; lia].
  rewrite (try_except_bind_ok _ _ _ _ _ _ (client_get_respond _ w r rest Hhttp)).
  unfold handle_answer. rewrite Hstatus, Hbody.
  cbn -[Coinapi.float_field].
  unfold try_except. rewrite bind_lift_ok. cbn [truthy negb index0].
  rewrite bind_lift_ok.
  repeat (rewrite float_field_ok by done; rewrite bind_lift_ok).
  eexists _, _. split; [reflexivity|]. by repeat split.
Qed.

Lemma days_all_good api_key sym (days : list Py.date) :
  Forall (λ d, d < date_max) days →
  ∀ answers rest acc w,
    length answers = length days →
    Forall good_bar_answer answers →
    w_http w = answers ++ rest →
    ∃ new w',
      for_each days
        (λ d all_rows,
           rows <- Coinapi.await_fetch_day api_key sym d ;;
           ret (match rows with [] => all_rows | _ => all_rows ++ rows end))
        acc w = (Ok (acc ++ new), w')
      ∧ map price_key new = map (pair sym) days
      ∧ w_http w' = rest.
Proof.
  induction 1 as [|d days Hd _ IH]; intros answers rest acc w Hlen Hgood Hhttp.
  - destruct answers; [|discriminate]. exists [], w. simpl.
    by rewrite app_nil_r.
  - destruct answers as [|o answers]; [discriminate|].
    apply Forall_cons in Hgood as [Ho Hgood].
    set (w0 := with_trace w (w_trace w ++ [EvCall "fetch_day" [LStr sym; LDate d]])).
    destruct (fetch_day_bar api_key sym d w0 o (answers ++ rest) Hd Hhttp Ho)
      as (x & w1 & Hfetch & Hx & Hw1).
    assert (Hawait : Coinapi.await_fetch_day api_key sym d w = (Ok [x], w1)).
    { unfold Coinapi.await_fetch_day, bind, emit. fold w0. by rewrite Hfetch. }
    destruct (IH answers rest (acc ++ [x]) w1) as (new & w' & Hrest & Hkeys & Hw');
      [by injection Hlen | done | done |].
    exists (x :: new), w'.
    split; [|split; [|done]].
    + erewrite for_each_cons_ok; [|by rewrite (bind_ok _ _ _ _ _ Hawait)].
      rewrite Hrest. by rewrite <- app_assoc.
    + simpl. destruct Hx as (-> & _). by rewrite Hkeys.
Qed.

(** X6.  When the provider answers every request with a bar, the run
    accumulates exactly one record per work item, in the order of the work
    items, and uses exactly one answer per work item. *)
Theorem collect_one_record_per_good_answer
    (api_key : string) (token_list : list string) (start_d end_d : Py.date)
    (answers rest : list outcome) (w : world) :
  end_d < date_max →
  w_http w = answers ++ rest →
  length answers
    = (length token_list * length (seqZ start_d (end_d - start_d + 1)))%nat →
  Forall good_bar_answer answers →
  ∃ all_rows w',
    Coinapi.collect api_key token_list start_d end_d w = (Ok all_rows, w')
    ∧ map price_key all_rows
        = list_prod token_list (seqZ start_d (end_d - start_d + 1))
    ∧ w_http w' = rest.
Proof.
  intros Hmax Hhttp Hlen Hgood. unfold Coinapi.collect, Coinapi.daterange.
  rewrite (daterange_from_window end_d Hmax start_d).
  set (days := seqZ start_d (end_d - start_d + 1)) in *.
  assert (Hdays : Forall (λ d, d < date_max) days) by (apply Forall_seqZ; lia).
  clearbody days.
  assert (Hgen : ∀ acc,
    ∃ new w',
      for_each token_list
        (λ sym all_rows,
           for_gen {| yields := days; stop := None |}
             (λ d all_rows,
                rows <- Coinapi.await_fetch_day api_key sym d ;;
                ret (match rows with [] => all_rows | _ => all_rows ++ rows end))
             all_rows)
        acc w = (Ok (acc ++ new), w')
      ∧ map price_key new = list_prod token_list days ∧ w_http w' = rest).
  { revert answers w Hhttp Hlen Hgood.
    induction token_list as [|sym token_list IH];
      intros answers w Hhttp Hlen Hgood acc.
    - simpl in *. destruct answers; [|discriminate]. exists [], w. by rewrite app_nil_r.
    - simpl in Hlen.
      remember (length token_list * length days)%nat as m eqn:Hm.
      assert (Hlen1 : length (take (length days) answers) = length days)
        by (rewrite length_take; lia).
      assert (Hlen2 : length (drop (length days) answers) = m)
        by (rewrite length_drop; lia).
      rewrite <- (take_drop (length days) answers) in Hhttp, Hgood.
      apply Forall_app in Hgood as [Hgood1 Hgood2].
      rewrite <- app_assoc in Hhttp.
      destruct (days_all_good api_key sym days Hdays _ _ acc w Hlen1 Hgood1 Hhttp)
        as (new1 & w1 & Hrun1 & Hkeys1 & Hw1).
      destruct (IH (drop (length days) answers) w1 Hw1
                  ltac:(by rewrite Hlen2, Hm) Hgood2 (acc ++ new1))
        as (new2 & w' & Hrun2 & Hkeys2 & Hw').
      exists (new1 ++ new2), w'.
      split; [|split; [|done]].
      + erewrite for_each_cons_ok;
          [|unfold for_gen; by rewrite (bind_ok _ _ _ _ _ Hrun1)].
        rewrite Hrun2. by rewrite <- app_assoc.
      + by rewrite map_app, Hkeys1, Hkeys2. }
  destruct (Hgen []) as (new & w' & Hrun & Hkeys & Hw').
  by exists new, w'.
Qed.

End GoodAnswers.

Lemma collect_one_record_per_good_answer_witness :
  let answers := [Fixtures.ok_response (JArr [Fixtures.bar 1 2 3 4 5]);
                  Fixtures.ok_response (JArr [JObj []])] in
  let w := Fixtures.test_world answers (λ _, true) DbUp in
  ∃ all_rows w',
    @Coinapi.collect Fixtures.test_runtime "key" ["BTC"] Fixtures.jan01 Fixtures.jan02 w
      = (Ok all_rows, w')
    ∧ map price_key all_rows
        = list_prod ["BTC"] (seqZ Fixtures.jan01 (Fixtures.jan02 - Fixtures.jan01 + 1))
    ∧ w_http w' = [].
Proof.
  intros answers w.
  apply (@collect_one_record_per_good_answer Fixtures.test_runtime "key" ["BTC"]
           Fixtures.jan01 Fixtures.jan02 answers [] w).
  - reflexivity.
  - by rewrite app_nil_r.
  - reflexivity.
  - repeat constructor.
    + by eexists _, _, _.
    + by eexists _, _, _.
Defined.

(* ===================================================================== *)
(** * The price run from fetch to store                                    *)
(* ===================================================================== *)

(** A transaction for a frame that is not empty: the first statement is
    refused, whatever the database would do with a statement it can read,
    and the transaction is rolled back. *)
Lemma insert_transaction_refused table x df w :
  insert_transaction table (x :: df) w
    = (Raise DBAPIError,
       match w_db w with
       | DbFailBegin => w
       | _ => with_trace w (w_trace w ++ [EvBegin; EvInsert table x; EvRollback])
       end).
Proof.
  unfold insert_transaction.
  destruct (w_db w); [| reflexivity | |];
    unfold try_except, bind, emit, raise; cbn [execute_rows];
    unfold bind, emit, raise; rewrite orb_true_r; cbn [w_trace with_trace];
    by rewrite <- !app_assoc.
Qed.

(** The persistence step of the price adapter never changes a table, and
    it ends normally for the empty batch only. *)
Lemma upsert_and_export_keeps_tables rows run_id exports_dir w r w' :
  Coinapi.upsert_and_export rows run_id exports_dir w = (r, w') →
  w_tables w' = w_tables w ∧ (r = Ok tt → rows = []).
Proof.
  unfold Coinapi.upsert_and_export.
  destruct rows as [|x rows]; [by intros [= <- <-]|].
  unfold bind at 1, mkdir, emit at 1.
  unfold bind at 1, to_csv, write_file at 1. cbn [w_fs_ok with_trace].
  destruct (w_fs_ok w _); [|by intros [= <- <-]].
  unfold bind at 1, to_parquet, write_file at 1.
  cbn [w_fs_ok with_trace with_files].
  destruct (w_fs_ok w _); [|by intros [= <- <-]].
  cbn [map]. rewrite insert_transaction_refused. intros [= <- <-].
  split; [|done]. by destruct (w_db w).
Qed.

(** The persistence step of the price adapter when the file system takes
    the writes and the step still ends in an exception. *)
Lemma upsert_and_export_down rows run_id exports_dir w e w' :
  w_fs_ok w (Coinapi.csv_path exports_dir run_id) = true →
  w_fs_ok w (Coinapi.parquet_path exports_dir run_id) = true →
  Coinapi.upsert_and_export rows run_id exports_dir w = (Raise e, w') →
  let df := map (set_run_id run_id) (map PriceRow rows) in
  rows ≠ [] ∧ e = DBAPIError
  ∧ w_tables w' = w_tables w
  ∧ w_files w'
      = <[Coinapi.parquet_path exports_dir run_id := df]>
          (<[Coinapi.csv_path exports_dir run_id := df]> (w_files w))
  ∧ ∃ evs, w_trace w' = w_trace w ++ evs
           ∧ Forall (λ ev, (is_export ev || is_store ev) = true) evs.
Proof.
  intros Hcsv Hpq Hrun df.
  unfold Coinapi.upsert_and_export in Hrun.
  destruct rows as [|x rows]; [discriminate Hrun|]. fold df in Hrun.
  unfold bind at 1, mkdir, emit at 1 in Hrun.
  unfold bind at 1, to_csv, write_file at 1 in Hrun. simpl in Hrun.
  rewrite Hcsv in Hrun.
  unfold bind at 1, to_parquet, write_file at 1 in Hrun. simpl in Hrun.
  rewrite Hpq in Hrun.
  apply insert_transaction_run in Hrun
    as (evs & Htr & Hst & _ & Hfiles & _ & -> & Htables).
  simpl in Htr, Hfiles, Htables.
  split; [done|]. split; [done|]. split; [done|]. split; [done|].
  exists ([EvMkdir exports_dir;
           EvWriteCsv (Coinapi.csv_path exports_dir run_id) df;
           EvWriteParquet (Coinapi.parquet_path exports_dir run_id) df] ++ evs).
  split; [by rewrite Htr, <- !app_assoc|].
  apply Forall_app. split; [by repeat constructor|].
  eapply Forall_impl; [exact Hst|]. intros ev ->. apply orb_true_r.
Qed.

Section EndToEnd.
Context `{Runtime}.

(** X7.  The price run never stores.  The INSERT statement of
    [upsert_and_export] writes its values as [%(name)s], which
    [sqlalchemy.text] does not bind, so the first statement of a batch is
    refused.  Whatever the provider, the file system and the database do, a
    run leaves every table as it was; a run whose fetches gave a record does
    not end normally; and when the file system takes the two writes, such a
    run ends in the database's exception with both export files holding
    the stamped batch. *)
Theorem price_run_never_stores
    (api_key : string) (token_list : list string) (start_d end_d : Py.date)
    (run_id exports_dir : string) (w : world) :
  let out := Coinapi.main_async api_key token_list start_d end_d run_id exports_dir w in
  w_tables (snd out) = w_tables w
  ∧ (∀ all_rows w1,
       Coinapi.collect api_key token_list start_d end_d w = (Ok all_rows, w1) →
       all_rows ≠ [] →
       let df := map (set_run_id run_id) (map PriceRow all_rows) in
       (∃ e, fst out = Raise e)
       ∧ (w_fs_ok w (Coinapi.csv_path exports_dir run_id) = true →
          w_fs_ok w (Coinapi.parquet_path exports_dir run_id) = true →
          fst out = Raise DBAPIError
          ∧ w_files (snd out) !! Coinapi.csv_path exports_dir run_id = Some df
          ∧ w_files (snd out) !! Coinapi.parquet_path exports_dir run_id = Some df)).
Proof.
  intros out. subst out.
  pose proof (fetch_step_collect api_key token_list start_d end_d w) as Hstep.
  unfold Coinapi.main_async.
  destruct (Coinapi.collect api_key token_list start_d end_d w)
    as [[rows|e] w1] eqn:Hcollect; cbn [snd] in Hstep;
    destruct Hstep as ([Hf Ht] & (_ & Hfs & _) & _).
  2: { rewrite (bind_raise _ _ _ _ _ Hcollect). split; [done|]. discriminate. }
  rewrite (bind_ok _ _ _ _ _ Hcollect).
  destruct (Coinapi.upsert_and_export rows run_id exports_dir w1)
    as [[[]|e] w2] eqn:Hpersist.
  - destruct (upsert_and_export_keeps_tables _ _ _ _ _ _ Hpersist) as [Htab Hempty].
    rewrite (bind_ok _ _ _ _ _ Hpersist). unfold logger_info, emit.
    cbn [fst snd w_tables with_trace].
    split; [congruence|].
    intros all_rows w1' [= <- <-] Hne. by destruct Hne, Hempty.
  - destruct (upsert_and_export_keeps_tables _ _ _ _ _ _ Hpersist) as [Htab _].
    rewrite (bind_raise _ _ _ _ _ Hpersist). cbn [fst snd].
    split; [congruence|].
    intros all_rows w1' [= <- <-] Hne. cbv zeta.
    set (df := map (set_run_id run_id) (map PriceRow rows)).
    split; [by exists e|].
    intros Hcsv Hpq.
    apply upsert_and_export_down in Hpersist
      as (_ & -> & _ & Hfiles & _); [| by rewrite Hfs | by rewrite Hfs].
    fold df in Hfiles. rewrite Hfiles.
    split; [done|].
    split; [|by rewrite lookup_insert_eq].
    rewrite lookup_insert_ne by (symmetry; apply coinapi_paths_differ).
    by rewrite lookup_insert_eq.
Qed.

(** X8.  A price run that ends in an exception although its fetches
    returned and the file system took the writes: the exception that
    leaves the run is the database's, the batch was not empty, no table has
    changed, both export files hold the stamped records, and the run has
    shown fetch, export and store events only, so that no completion event
    was logged. *)
Theorem price_run_sink_failure_keeps_exports
    (api_key : string) (token_list : list string) (start_d end_d : Py.date)
    (run_id exports_dir : string) (w w1 w' : world)
    (all_rows : list BFHistoricalMarketData) (e : exn) :
  Coinapi.collect api_key token_list start_d end_d w = (Ok all_rows, w1) →
  w_fs_ok w (Coinapi.csv_path exports_dir run_id) = true →
  w_fs_ok w (Coinapi.parquet_path exports_dir run_id) = true →
  Coinapi.main_async api_key token_list start_d end_d run_id exports_dir w
    = (Raise e, w') →
  let df := map (set_run_id run_id) (map PriceRow all_rows) in
  e = DBAPIError
  ∧ all_rows ≠ []
  ∧ w_tables w' = w_tables w
  ∧ w_files w' !! Coinapi.csv_path exports_dir run_id = Some df
  ∧ w_files w' !! Coinapi.parquet_path exports_dir run_id = Some df
  ∧ ∃ evs,
      w_trace w' = w_trace w ++ evs
      ∧ Forall (λ ev, (is_fetch ev || is_export ev || is_store ev) = true) evs
      ∧ ∀ fields, EvLogInfo fields ∉ evs.
Proof.
  intros Hcollect Hcsv Hpq Hrun df.
  pose proof (fetch_step_collect api_key token_list start_d end_d w) as Hstep.
  rewrite Hcollect in Hstep.
  destruct Hstep as ([Hf Ht] & (_ & Hfs & Hdb1) & fetched & Htr & Hfetched).
  cbn [snd] in Hf, Ht, Hfs, Hdb1, Htr.
  unfold Coinapi.main_async in Hrun.
  rewrite (bind_ok _ _ _ _ _ Hcollect) in Hrun.
  destruct (Coinapi.upsert_and_export all_rows run_id exports_dir w1)
    as [[[]|e0] w2] eqn:Hpersist.
  { rewrite (bind_ok _ _ _ _ _ Hpersist) in Hrun. discriminate Hrun. }
  rewrite (bind_raise _ _ _ _ _ Hpersist) in Hrun. injection Hrun as <- <-.
  apply upsert_and_export_down in Hpersist
    as (Hne & -> & Htables & Hfiles & evs & Htr2 & Hevs);
    [| by rewrite Hfs | by rewrite Hfs].
  fold df in Hfiles.
  split; [done|]. split; [done|]. split; [congruence|].
  rewrite Hfiles.
  split. { rewrite lookup_insert_ne by (symmetry; apply coinapi_paths_differ).
           by rewrite lookup_insert_eq. }
  split; [by rewrite lookup_insert_eq|].
  assert (Hall : Forall (λ ev, (is_fetch ev || is_export ev || is_store ev) = true)
                   (fetched ++ evs)).
  { apply Forall_app. split.
    - eapply Forall_impl; [exact Hfetched|]. by intros ev ->.
    - eapply Forall_impl; [exact Hevs|]. intros ev Hev.
      by rewrite <- orb_assoc, Hev, orb_true_r. }
  exists (fetched ++ evs).
  split; [by rewrite Htr2, Htr, app_assoc|]. split; [exact Hall|].
  intros fields Hin. rewrite Forall_forall in Hall. by apply Hall in Hin.
Qed.

End EndToEnd.

Lemma price_run_never_stores_witness :
  let w := Fixtures.test_world
             [Fixtures.ok_response (JArr [Fixtures.bar 1 2 3 4 5])]
             (λ _, true) DbUp in
  let rows := [ {| HistoricalMarketData.token_symbol := "BTC";
                   HistoricalMarketData.date := Fixtures.jan01;
                   HistoricalMarketData.open_price := 1;
                   HistoricalMarketData.high_price := 2;
                   HistoricalMarketData.low_price := 3;
                   HistoricalMarketData.close_price := 4;
                   HistoricalMarketData.volume := 5;
                   HistoricalMarketData.timestamp_fetched := Fixtures.test_clock 0;
                   HistoricalMarketData.source_api := "coinapi";
                   HistoricalMarketData.backfill_run_id := "" |} ] in
  let df := map (set_run_id "run7") (map PriceRow rows) in
  let out := @Coinapi.main_async Fixtures.test_runtime "key" ["BTC"] Fixtures.jan01
               Fixtures.jan01 "run7" "exports" w in
  w_tables (snd out) = w_tables w
  ∧ fst out = Raise DBAPIError
  ∧ w_files (snd out) !! "exports/coinapi_ohlcv_run7.csv" = Some df
  ∧ w_files (snd out) !! "exports/coinapi_ohlcv_run7.parquet" = Some df.
Proof.
  intros w rows df out.
  destruct (@price_run_never_stores Fixtures.test_runtime "key" ["BTC"]
              Fixtures.jan01 Fixtures.jan01 "run7" "exports" w)
    as [Htables Hrun].
  split; [exact Htables|].
  destruct (Hrun rows
              (snd (@Coinapi.collect Fixtures.test_runtime "key" ["BTC"]
                      Fixtures.jan01 Fixtures.jan01 w))
              ltac:(vm_compute; reflexivity) ltac:(discriminate))
    as [_ Hfiles].
  exact (Hfiles eq_refl eq_refl).
Defined.

Lemma price_run_sink_failure_keeps_exports_witness :
  let w := Fixtures.test_world
             [Fixtures.ok_response (JArr [Fixtures.bar 1 2 3 4 5])]
             (λ _, true) DbFailCommit in
  let rows := [ {| HistoricalMarketData.token_symbol := "BTC";
                   HistoricalMarketData.date := Fixtures.jan01;
                   HistoricalMarketData.open_price := 1;
                   HistoricalMarketData.high_price := 2;
                   HistoricalMarketData.low_price := 3;
                   HistoricalMarketData.close_price := 4;
                   HistoricalMarketData.volume := 5;
                   HistoricalMarketData.timestamp_fetched := Fixtures.test_clock 0;
                   HistoricalMarketData.source_api := "coinapi";
                   HistoricalMarketData.backfill_run_id := "" |} ] in
  let df := map (set_run_id "run7") (map PriceRow rows) in
  let out := @Coinapi.main_async Fixtures.test_runtime "key" ["BTC"] Fixtures.jan01
               Fixtures.jan01 "run7" "exports" w in
  fst out = Raise DBAPIError
  ∧ w_tables (snd out) = w_tables w
  ∧ w_files (snd out) !! "exports/coinapi_ohlcv_run7.csv" = Some df
  ∧ ∃ evs, w_trace (snd out) = w_trace w ++ evs
           ∧ ∀ fields, EvLogInfo fields ∉ evs.
Proof.
  intros w rows df out.
  destruct (@price_run_sink_failure_keeps_exports Fixtures.test_runtime "key" ["BTC"]
              Fixtures.jan01 Fixtures.jan01 "run7" "exports" w
              (snd (@Coinapi.collect Fixtures.test_runtime "key" ["BTC"]
                      Fixtures.jan01 Fixtures.jan01 w))
              (snd out) rows DBAPIError)
    as (_ & _ & Htables & Hcsv & _ & evs & Htr & _ & Hlog);
    [vm_compute; reflexivity ..|].
  split; [vm_compute; reflexivity|]. split; [exact Htables|]. split; [exact Hcsv|].
  by exists evs.
Defined.

(* ===================================================================== *)
(** * The pages of the news provider                                       *)
(* ===================================================================== *)

Lemma silent_step_refl w : silent_step w w.
Proof. by repeat split. Qed.

Lemma silent_step_trans w1 w2 w3 :
  silent_step w1 w2 → silent_step w2 w3 → silent_step w1 w3.
Proof.
  intros (Hh1 & Ht1 & [Hf1 Hb1] & (Hc1 & Hs1 & Hd1))
         (Hh2 & Ht2 & [Hf2 Hb2] & (Hc2 & Hs2 & Hd2)).
  repeat split; congruence.
Qed.

Lemma silent_step_utcnow : respects silent_step utcnow.
Proof. intros w. by repeat split. Qed.

Section Pagination.
Context `{Runtime}.

Lemma silent_news_event token it :
  respects silent_step (Cryptopanic.news_event token it).
Proof.
  unfold Cryptopanic.news_event, Cryptopanic._parse_date.
  frame_with silent_step_refl silent_step_trans ltac:(apply silent_step_utcnow).
Qed.

(** The inner loop of a page on items the adapter can read: one record
    per item, in the order of the items, after the records at hand. *)
Lemma news_events_run token items :
  Forall readable items →
  ∀ acc w,
    ∃ evs w',
      for_each items
        (λ it items, ev <- Cryptopanic.news_event token it ;; ret (items ++ [ev]))
        acc w = (Ok (acc ++ evs), w')
      ∧ Forall2 (record_of token) items evs
      ∧ silent_step w w'.
Proof.
  induction 1 as [|it items (fields & -> & Hok) _ IH]; intros acc w.
  - exists [], w. simpl. rewrite app_nil_r.
    split; [done|]. split; [constructor | apply silent_step_refl].
  - apply andb_prop in Hok as [Hsource Hsent].
    destruct (sentiment_returns fields Hsent) as (score & Hscore & _).
    destruct (news_event_run token fields w score Hsource Hscore)
      as (dt & w1 & _ & Hrun).
    pose proof (silent_news_event token (JObj fields) w) as Hsilent.
    rewrite Hrun in Hsilent. cbn [snd] in Hsilent.
    match type of Hrun with _ = (Ok ?x, _) => remember x as ev eqn:Hev end.
    erewrite for_each_cons_ok; [|by rewrite (bind_ok _ _ _ _ _ Hrun)].
    destruct (IH (acc ++ [ev]) (with_ticks w1 (S (w_ticks w1))))
      as (evs & w' & Hrest & Hrecs & Hstep).
    exists (ev :: evs), w'. rewrite Hrest, <- app_assoc.
    split; [reflexivity|].
    split; [|by eapply silent_step_trans].
    constructor; [|done]. exists fields. by rewrite Hev.
Qed.

(** One turn of the loop on a page the provider serves. *)
Lemma page_served token auth_token u acc w r rest items next :
  w_http w = Respond r :: rest →
  serves r items next →
  Forall readable items →
  ∃ evs w',
    Cryptopanic.page token auth_token (JStr u) acc w
      = (Ok (Cryptopanic.Continue (acc ++ evs), next), w')
    ∧ Forall2 (record_of token) items evs
    ∧ w_http w' = rest
    ∧ w_trace w' = w_trace w ++ [EvGet (page_request token auth_token u)]
    ∧ same_store w w'.
Proof.
  intros Hhttp (Hstatus & payload & Hbody & Hresults & Hnext) Hitems.
  set (w1 := with_http
               (with_trace w (w_trace w ++ [EvGet (page_request token auth_token u)]))
               rest).
  destruct (news_events_run token items Hitems acc w1)
    as (evs & w' & Hloop & Hrecs & (Hh & Ht & Hstore & _)).
  exists evs, w'.
  split.
  { unfold Cryptopanic.page. fold (page_request token auth_token u).
    rewrite (bind_ok _ _ _ _ _ (client_get_respond _ w r rest Hhttp)).
    fold w1. rewrite Hstatus. change (negb (200 =? 200)%Z) with false. cbv iota.
    rewrite Hbody, bind_lift_ok. cbn [get rbind]. rewrite Hresults.
    cbn [iter]. rewrite bind_lift_ok.
    rewrite (bind_ok _ _ _ _ _ Hloop), bind_lift_ok.
    unfold ret. by rewrite <- Hnext. }
  split; [done|]. split; [by rewrite Hh|]. split; [by rewrite Ht|].
  exact Hstore.
Qed.

(** The loop over a chain of linked pages: it arrives at the URL the chain
    ends with, having sent one request per page and gathered one record
    per item. *)
Lemma fetch_posts_loop_chain token auth_token pages :
  Forall continues pages →
  ∀ u acc w rest,
    u ≠ "" →
    w_http w = answers_of pages ++ rest →
    ∃ evs w',
      Cryptopanic.fetch_posts_loop token auth_token (JStr u) acc w
        = Cryptopanic.fetch_posts_loop token auth_token
            (JStr (last_url u pages)) (acc ++ evs) w'
      ∧ last_url u pages ≠ ""
      ∧ Forall2 (record_of token) (items_of pages) evs
      ∧ w_http w' = rest
      ∧ w_trace w' = w_trace w ++ map EvGet (requests_of token auth_token u pages)
      ∧ same_store w w'.
Proof.
  induction 1 as [|[[r items] u'] pages (Hserves & Hu' & Hitems) _ IH];
    intros u acc w rest Hu Hhttp.
  - exists [], w. simpl in *. rewrite !app_nil_r.
    repeat split; done.
  - simpl in Hserves, Hu', Hitems, Hhttp.
    destruct (page_served token auth_token u acc w r _ items (JStr u')
                Hhttp Hserves Hitems)
      as (evs1 & w1 & Hpage & Hrecs1 & Hh1 & Ht1 & [Hf1 Hb1]).
    destruct (IH u' (acc ++ evs1) w1 rest Hu' Hh1)
      as (evs2 & w' & Hloop & Hlast & Hrecs2 & Hh2 & Ht2 & [Hf2 Hb2]).
    exists (evs1 ++ evs2), w'.
    split.
    { rewrite fetch_posts_loop_eq.
      assert (Htruthy : truthy (JStr u) = true).
      { simpl. by destruct (String.eqb_spec u ""). }
      rewrite Htruthy, Hpage, Hloop. simpl. by rewrite <- app_assoc. }
    split; [done|].
    split; [unfold items_of; simpl; by apply Forall2_app|].
    split; [done|].
    split; [rewrite Ht2, Ht1; simpl; by rewrite <- app_assoc|].
    split; congruence.
Qed.

(** X10.  Pagination.  The provider serves a chain of pages of readable items,
    each linking to the next, then a page of readable items whose "next" is
    null, empty or absent.  [fetch_posts] reads all of them: it returns one
    record per item, in the order of the pages and of the items, uses up
    exactly the answers of these pages, and has sent one request per page,
    the first with the query parameters and to the fixed URL, each
    following one to the URL the page before it gave. *)
Theorem fetch_posts_follows_next_links
    (token auth_token start end_ : string)
    (pages : list (response * list json * string))
    (r : response) (items : list json) (next : json)
    (rest : list outcome) (w : world) :
  Forall continues pages →
  serves r items next → Forall readable items → truthy next = false →
  w_http w = answers_of pages ++ Respond r :: rest →
  ∃ evs w',
    Cryptopanic.fetch_posts token auth_token start end_ w = (Ok evs, w')
    ∧ Forall2 (record_of token) (items_of pages ++ items) evs
    ∧ w_http w' = rest
    ∧ w_trace w'
        = w_trace w
          ++ map EvGet
               (requests_of token auth_token Cryptopanic.posts_url pages
                ++ [page_request token auth_token
                      (last_url Cryptopanic.posts_url pages)])
    ∧ same_store w w'.
Proof.
  intros Hpages Hserves Hitems Hnext Hhttp.
  destruct (fetch_posts_loop_chain token auth_token pages Hpages
              Cryptopanic.posts_url [] w _ ltac:(discriminate) Hhttp)
    as (evs1 & w1 & Hloop & Hlast & Hrecs1 & Hh1 & Ht1 & [Hf1 Hb1]).
  destruct (page_served token auth_token (last_url Cryptopanic.posts_url pages)
              ([] ++ evs1) w1 r rest items next Hh1 Hserves Hitems)
    as (evs2 & w' & Hpage & Hrecs2 & Hh2 & Ht2 & [Hf2 Hb2]).
  exists (evs1 ++ evs2), w'.
  split.
  { unfold Cryptopanic.fetch_posts. rewrite Hloop, fetch_posts_loop_eq.
    assert (Htruthy : truthy (JStr (last_url Cryptopanic.posts_url pages)) = true).
    { simpl. by destruct (String.eqb_spec (last_url Cryptopanic.posts_url pages) ""). }
    rewrite Htruthy, Hpage, fetch_posts_loop_eq, Hnext. reflexivity. }
  split; [by apply Forall2_app|].
  split; [done|].
  split; [by rewrite Ht2, Ht1, map_app, <- app_assoc|].
  split; congruence.
Qed.

(** X11.  A page that is refused.  After a chain of linked pages the provider
    answers with a status that is not 200: [fetch_posts] logs the status
    and the start of the body, asks no further, and returns the records of
    the pages it has read. *)
Theorem fetch_posts_refused_page_keeps_earlier_pages
    (token auth_token start end_ : string)
    (pages : list (response * list json * string))
    (r : response) (rest : list outcome) (w : world) :
  Forall continues pages →
  status_code r ≠ 200 →
  w_http w = answers_of pages ++ Respond r :: rest →
  ∃ evs w',
    Cryptopanic.fetch_posts token auth_token start end_ w = (Ok evs, w')
    ∧ Forall2 (record_of token) (items_of pages) evs
    ∧ w_http w' = rest
    ∧ w_trace w'
        = w_trace w
          ++ map EvGet (requests_of token auth_token Cryptopanic.posts_url pages)
          ++ [EvGet (page_request token auth_token
                       (last_url Cryptopanic.posts_url pages));
              EvLogError [("event", LStr "cryptopanic_http_error");
                          ("status", LInt (status_code r));
                          ("body", LStr (take_str 200 (text r)))]].
Proof.
  intros Hpages Hstatus Hhttp.
  destruct (fetch_posts_loop_chain token auth_token pages Hpages
              Cryptopanic.posts_url [] w _ ltac:(discriminate) Hhttp)
    as (evs & w1 & Hloop & Hlast & Hrecs & Hh1 & Ht1 & _).
  eexists evs, _.
  split.
  { unfold Cryptopanic.fetch_posts. rewrite Hloop, fetch_posts_loop_eq.
    assert (Htruthy : truthy (JStr (last_url Cryptopanic.posts_url pages)) = true).
    { simpl. by destruct (String.eqb_spec (last_url Cryptopanic.posts_url pages) ""). }
    rewrite Htruthy. unfold Cryptopanic.page.
    rewrite (bind_ok _ _ _ _ _ (client_get_respond _ w1 r rest Hh1)).
    apply Z.eqb_neq in Hstatus. rewrite Hstatus. cbn [negb].
    unfold bind, logger_error, emit, ret. reflexivity. }
  split; [done|]. split; [done|].
  cbn [w_trace with_trace with_http]. rewrite Ht1.
  by rewrite <- !app_assoc.
Qed.

(** X12.  A page that fails.  After a chain of linked pages the next request
    gets no answer, meets an error of the transport, or gets a 200 whose
    body is not JSON: the exception leaves [fetch_posts], the records of
    the pages read are lost with it, and the run of the news adapter ends
    in that exception with no file written and no table changed. *)
Theorem fetch_posts_failure_loses_earlier_pages
    (auth_token sym start end_ run_id exports_dir : string)
    (more : list string)
    (pages : list (response * list json * string))
    (tail : list outcome) (e : exn) (w : world) :
  Forall continues pages →
  breaks tail e →
  w_http w = answers_of pages ++ tail →
  fst (Cryptopanic.fetch_posts sym auth_token start end_ w) = Raise e
  ∧ ∃ w',
      Cryptopanic.main_async auth_token (sym :: more) start end_ run_id exports_dir w
        = (Raise e, w')
      ∧ same_store w w'
      ∧ w_http w' = List.tail tail.
Proof.
  intros Hpages Hbreaks Hhttp.
  destruct (fetch_posts_loop_chain sym auth_token pages Hpages
              Cryptopanic.posts_url [] w _ ltac:(discriminate) Hhttp)
    as (evs & w1 & Hloop & Hlast & _ & Hh1 & _ & [Hf1 Hb1]).
  assert (Hfetch : ∃ w',
    Cryptopanic.fetch_posts sym auth_token start end_ w = (Raise e, w')
    ∧ same_store w w' ∧ w_http w' = List.tail tail).
  { unfold Cryptopanic.fetch_posts. rewrite Hloop, fetch_posts_loop_eq.
    assert (Htruthy : truthy (JStr (last_url Cryptopanic.posts_url pages)) = true).
    { simpl. by destruct (String.eqb_spec (last_url Cryptopanic.posts_url pages) ""). }
    rewrite Htruthy. unfold Cryptopanic.page.
    destruct tail as [|[r|e'] rest]; simpl in Hbreaks.
    - subst e. rewrite (bind_raise _ _ _ _ _ (client_get_timeout _ w1 Hh1)).
      eexists. split; [reflexivity|]. by repeat split.
    - destruct Hbreaks as [Hstatus Hbody].
      rewrite (bind_ok _ _ _ _ _ (client_get_respond _ w1 r rest Hh1)).
      rewrite Hstatus. change (negb (200 =? 200)%Z) with false. cbv iota.
      rewrite Hbody. unfold bind at 1, lift at 1.
      eexists. split; [reflexivity|]. by repeat split.
    - subst e'. rewrite (bind_raise _ _ _ _ _ (client_get_fail _ w1 e rest Hh1)).
      eexists. split; [reflexivity|]. by repeat split. }
  destruct Hfetch as (w' & Hfetch & Hstore & Hh').
  split; [by rewrite Hfetch|].
  exists w'. split; [|done].
  unfold Cryptopanic.main_async. cbn [for_each].
  unfold Cryptopanic.accumulate at 1.
  by rewrite (bind_raise _ _ _ _ _
                (bind_raise _ _ _ _ _ (bind_raise _ _ _ _ _ Hfetch))).
Qed.

End Pagination.

Lemma news_pages_continue : Forall continues NewsPages.chain.
Proof.
  repeat constructor; try discriminate.
  - by eexists.
  - by eexists.
  - by eexists.
Qed.

Lemma fetch_posts_follows_next_links_witness :
  let w := Fixtures.test_world
             [Respond NewsPages.first_page; Respond NewsPages.last_page]
             (λ _, true) DbUp in
  ∃ evs w',
    @Cryptopanic.fetch_posts Fixtures.test_runtime "btc" "key"
      "2024-01-01" "2024-01-02" w = (Ok evs, w')
    ∧ Forall2 (record_of "btc") (NewsPages.first_items ++ NewsPages.last_items) evs
    ∧ w_http w' = []
    ∧ w_trace w'
        = w_trace w
          ++ map EvGet
               ([page_request "btc" "key" Cryptopanic.posts_url]
                ++ [page_request "btc" "key" NewsPages.second_url])
    ∧ same_store w w'.
Proof.
  intros w.
  apply (@fetch_posts_follows_next_links Fixtures.test_runtime "btc" "key"
           "2024-01-01" "2024-01-02" NewsPages.chain NewsPages.last_page
           NewsPages.last_items JNull [] w).
  - apply news_pages_continue.
  - split; [reflexivity|]. by eexists.
  - repeat constructor. by eexists.
  - reflexivity.
  - reflexivity.
Defined.

Lemma fetch_posts_refused_page_keeps_earlier_pages_witness :
  let refusal := {| status_code := 429; text := "slow down";
                    json_body := Raise JSONDecodeError |} in
  let w := Fixtures.test_world
             [Respond NewsPages.first_page; Respond refusal;
              Respond NewsPages.last_page]
             (λ _, true) DbUp in
  ∃ evs w',
    @Cryptopanic.fetch_posts Fixtures.test_runtime "btc" "key"
      "2024-01-01" "2024-01-02" w = (Ok evs, w')
    ∧ Forall2 (record_of "btc") NewsPages.first_items evs
    ∧ w_http w' = [Respond NewsPages.last_page]
    ∧ w_trace w'
        = w_trace w
          ++ map EvGet [page_request "btc" "key" Cryptopanic.posts_url]
          ++ [EvGet (page_request "btc" "key" NewsPages.second_url);
              EvLogError [("event", LStr "cryptopanic_http_error");
                          ("status", LInt 429);
                          ("body", LStr (take_str 200 "slow down"))]].
Proof.
  intros refusal w.
  apply (@fetch_posts_refused_page_keeps_earlier_pages Fixtures.test_runtime
           "btc" "key" "2024-01-01" "2024-01-02" NewsPages.chain refusal
           [Respond NewsPages.last_page] w).
  - apply news_pages_continue.
  - discriminate.
  - reflexivity.
Defined.

Lemma fetch_posts_failure_loses_earlier_pages_witness :
  let reset := TransportError "ConnectionResetError" in
  let w := Fixtures.test_world [Respond NewsPages.first_page; Fail reset]
             (λ _, true) DbUp in
  fst (@Cryptopanic.fetch_posts Fixtures.test_runtime "btc" "key"
         "2024-01-01" "2024-01-02" w) = Raise reset
  ∧ ∃ w',
      @Cryptopanic.main_async Fixtures.test_runtime "key" ["btc"; "eth"]
        "2024-01-01" "2024-01-02" "run7" "exports" w = (Raise reset, w')
      ∧ same_store w w'
      ∧ w_http w' = [].
Proof.
  intros reset w.
  apply (@fetch_posts_failure_loses_earlier_pages Fixtures.test_runtime
           "key" "btc" "2024-01-01" "2024-01-02" "run7" "exports" ["eth"]
           NewsPages.chain [Fail reset] reset w).
  - apply news_pages_continue.
  - reflexivity.
  - reflexivity.
Defined.

(* ===================================================================== *)
(** * Rate limits in the three adapters                                    *)
(* ===================================================================== *)

Section RateLimits.
Context `{Runtime}.

(** C2.  The retry on a rate limit is in the price adapter only.  For a day
    before [date.max] and a first answer with status 429, [fetch_day] does
    what the claim says: it waits one second, sends the same request once
    more and nothing further, returns a list and never raises; a 200 to the
    retry gives the fetch that meets this answer first, any other status
    gives the empty list with the status and the first 200 characters of
    the body logged.  The news adapter and the social-sentiment adapter
    have no such branch.  On the same first answer [fetch_posts] and
    [fetch_daily] send one request, do not wait, log the status and return
    the empty list, leaving unread the answer a retry would have met; and a
    429 on a later page ends the pagination of [fetch_posts] in the same
    way, with the records of the pages read before it. *)
Theorem rate_limit_retried_by_price_adapter_only
    (api_key symbol : string) (day : Py.date) (w : world)
    (r1 : response) (rest : list outcome) :
  day < date_max →
  w_http w = Respond r1 :: rest →
  status_code r1 = 429 →
  let req := Coinapi.request_of api_key symbol day (day + 1) in
  let w2 := with_http (with_trace w (w_trace w ++ [EvGet req; EvSleep 1])) rest in
  let refused := λ event,
    EvLogError [("event", LStr event); ("status", LInt (status_code r1));
                ("body", LStr (take_str 200 (text r1)))] in
  (retries_once (Coinapi.fetch_day api_key symbol day)
   ∧ (∃ rows, fst (Coinapi.fetch_day api_key symbol day w) = Ok rows)
   ∧ (∀ r2 rest', rest = Respond r2 :: rest' → status_code r2 = 200 →
        Coinapi.fetch_day api_key symbol day w
          = Coinapi.fetch_day api_key symbol day w2)
   ∧ (∀ r2 rest', rest = Respond r2 :: rest' → status_code r2 ≠ 200 →
        Coinapi.fetch_day api_key symbol day w
          = (Ok [],
             with_http
               (with_trace w
                  (w_trace w ++
                   [EvGet req; EvSleep 1; EvGet req;
                    EvLogError [("event", LStr "coinapi_http_error");
                                ("symbol", LStr symbol); ("day", LDate day);
                                ("status", LInt (status_code r2));
                                ("body", LStr (take_str 200 (text r2)))]]))
               rest')))
  ∧ (∀ token auth_token start end_,
       Cryptopanic.fetch_posts token auth_token start end_ w
         = (Ok [],
            with_http
              (with_trace w
                 (w_trace w ++
                  [EvGet (page_request token auth_token Cryptopanic.posts_url);
                   refused "cryptopanic_http_error"]))
              rest)
       ∧ ¬ retries_once (Cryptopanic.fetch_posts token auth_token start end_))
  ∧ (∀ token auth_token start end_ pages w0,
       Forall continues pages →
       w_http w0 = answers_of pages ++ Respond r1 :: rest →
       ∃ evs w',
         Cryptopanic.fetch_posts token auth_token start end_ w0 = (Ok evs, w')
         ∧ Forall2 (record_of token) (items_of pages) evs
         ∧ w_http w' = rest
         ∧ w_trace w'
             = w_trace w0
               ++ map EvGet (requests_of token auth_token Cryptopanic.posts_url pages)
               ++ [EvGet (page_request token auth_token
                            (last_url Cryptopanic.posts_url pages));
                   refused "cryptopanic_http_error"])
  ∧ (∀ key sym start end_,
       Lunarcrush.fetch_daily key sym start end_ w
         = (Ok [],
            with_http
              (with_trace w
                 (w_trace w ++
                  [EvGet (daily_request key sym start end_);
                   refused "lunarcrush_http_error"]))
              rest)
       ∧ ¬ retries_once (Lunarcrush.fetch_daily key sym start end_)).
Proof.
  intros Hday Hhttp Hstatus req w2 refused.
  assert (Hbad : status_code r1 ≠ 200) by lia.
  split; [exact (fetch_day_on_rate_limit api_key symbol day w r1 rest
                  Hday Hhttp Hstatus)|].
  assert (Hno : ∀ (A : Type) (fetch : M (list A)) rq ev,
    fetch w = (Ok [], with_http (with_trace w (w_trace w ++ [EvGet rq; ev])) rest) →
    is_sleep ev = false → ¬ retries_once fetch).
  { intros A fetch rq ev Hrun Hev Hretry.
    destruct (Hretry w r1 rest Hhttp Hstatus) as (rq' & tail & Htr & _).
    rewrite Hrun in Htr. cbn [snd w_trace with_http with_trace app] in Htr.
    apply app_inv_head in Htr. injection Htr as _ Hsleep _.
    by rewrite Hsleep in Hev. }
  split.
  { intros token auth_token start end_.
    assert (Hrun : Cryptopanic.fetch_posts token auth_token start end_ w
      = (Ok [],
         with_http
           (with_trace w
              (w_trace w ++
               [EvGet (page_request token auth_token Cryptopanic.posts_url);
                refused "cryptopanic_http_error"]))
           rest)).
    { by apply fetch_posts_refused. }
    split; [exact Hrun|]. by eapply Hno. }
  split.
  { intros token auth_token start end_ pages w0 Hpages Hhttp0.
    destruct (fetch_posts_loop_chain token auth_token pages Hpages
                Cryptopanic.posts_url [] w0 _ ltac:(discriminate) Hhttp0)
      as (evs & w1 & Hloop & Hlast & Hrecs & Hh1 & Ht1 & _).
    eexists evs, _.
    split.
    { unfold Cryptopanic.fetch_posts. rewrite Hloop, fetch_posts_loop_eq.
      assert (Htruthy :
        truthy (JStr (last_url Cryptopanic.posts_url pages)) = true).
      { simpl. by destruct (String.eqb_spec (last_url Cryptopanic.posts_url pages) ""). }
      rewrite Htruthy. unfold Cryptopanic.page.
      rewrite (bind_ok _ _ _ _ _ (client_get_respond _ w1 r1 rest Hh1)).
      apply Z.eqb_neq in Hbad. rewrite Hbad. cbn [negb].
      unfold bind, logger_error, emit, ret. reflexivity. }
    split; [done|]. split; [done|].
    cbn [w_trace with_trace with_http]. rewrite Ht1.
    by rewrite <- !app_assoc. }
  intros key sym start end_.
  assert (Hrun : Lunarcrush.fetch_daily key sym start end_ w
    = (Ok [],
       with_http
         (with_trace w
            (w_trace w ++
             [EvGet (daily_request key sym start end_);
              refused "lunarcrush_http_error"]))
         rest)).
  { unfold Lunarcrush.fetch_daily. fold (daily_request key sym start end_).
    rewrite (bind_ok _ _ _ _ _ (client_get_respond _ w r1 rest Hhttp)).
    apply Z.eqb_neq in Hbad. rewrite Hbad. cbn [negb].
    unfold bind, logger_error, emit, ret. cbn [w_trace with_trace with_http].
    by rewrite <- app_assoc. }
  split; [exact Hrun|]. by eapply Hno.
Qed.

End RateLimits.

Lemma rate_limit_retried_by_price_adapter_only_witness :
  let r1 := {| status_code := 429; text := "slow down";
               json_body := Raise JSONDecodeError |} in
  let price := Fixtures.test_world
                 [Respond r1; Fixtures.ok_response (JArr [Fixtures.bar 1 2 3 4 5])]
                 (λ _, true) DbUp in
  let news := Fixtures.test_world [Respond r1; Respond NewsPages.last_page]
                (λ _, true) DbUp in
  let social := Fixtures.test_world [Respond r1; Respond SocialAnswers.series]
                  (λ _, true) DbUp in
  (∃ x w',
     @Coinapi.fetch_day Fixtures.test_runtime "key" "BTC" Fixtures.jan01 price
       = (Ok [x], w')
     ∧ w_http w' = []
     ∧ retries_once (@Coinapi.fetch_day Fixtures.test_runtime "key" "BTC" Fixtures.jan01))
  ∧ (∃ w',
       @Cryptopanic.fetch_posts Fixtures.test_runtime "btc" "key"
         "2024-01-01" "2024-01-02" news = (Ok [], w')
       ∧ w_http w' = [Respond NewsPages.last_page]
       ∧ ¬ retries_once (@Cryptopanic.fetch_posts Fixtures.test_runtime "btc" "key"
                           "2024-01-01" "2024-01-02"))
  ∧ (∃ w',
       @Lunarcrush.fetch_daily Fixtures.test_runtime "key" "btc"
         "2024-01-01T00:00:00Z" "2024-01-02T00:00:00Z" social = (Ok [], w')
       ∧ w_http w' = [Respond SocialAnswers.series]
       ∧ ¬ retries_once (@Lunarcrush.fetch_daily Fixtures.test_runtime "key" "btc"
                           "2024-01-01T00:00:00Z" "2024-01-02T00:00:00Z")).
Proof.
  intros r1 price news social.
  assert (Hday : Fixtures.jan01 < date_max) by reflexivity.
  split; [|split].
  - destruct (@rate_limit_retried_by_price_adapter_only Fixtures.test_runtime
                "key" "BTC" Fixtures.jan01 price r1 _ Hday eq_refl eq_refl)
      as ((Hretry & _) & _).
    eexists _, _. split; [vm_compute; reflexivity|]. by split.
  - destruct (@rate_limit_retried_by_price_adapter_only Fixtures.test_runtime
                "key" "BTC" Fixtures.jan01 news r1 _ Hday eq_refl eq_refl)
      as (_ & Hnews & _).
    destruct (Hnews "btc" "key" "2024-01-01" "2024-01-02") as [Hrun Hno].
    eexists. split; [exact Hrun|]. by split.
  - destruct (@rate_limit_retried_by_price_adapter_only Fixtures.test_runtime
                "key" "BTC" Fixtures.jan01 social r1 _ Hday eq_refl eq_refl)
      as (_ & _ & _ & Hsocial).
    destruct (Hsocial "key" "btc" "2024-01-01T00:00:00Z" "2024-01-02T00:00:00Z")
      as [Hrun Hno].
    eexists. split; [exact Hrun|]. by split.
Defined.

(* ===================================================================== *)
(** * When the news run reads its dates                                    *)
(* ===================================================================== *)

Section LateDates.
Context `{Runtime}.

(** X13.  The news run parses [start] and [end] inside the loop over the tokens,
    after the fetch of each token (lines 107 to 110).  A date that
    [strptime] refuses therefore shows only when the posts of the first
    token have been fetched: the run ends in the exception of the parse,
    in the world the fetch left, with nothing exported or stored.  With no
    token the dates are never read, and the run completes whatever the two
    strings are. *)
Theorem news_run_reads_dates_after_first_fetch
    (auth_token sym start end_ run_id exports_dir : string) (more : list string)
    (w w1 : world) (items : list BFMarketNewsEvents) (e : exn) :
  strptime_ymd start = Raise e
  ∨ (∃ d, strptime_ymd start = Ok d) ∧ strptime_ymd end_ = Raise e →
  Cryptopanic.fetch_posts sym auth_token start end_ w = (Ok items, w1) →
  Cryptopanic.main_async auth_token (sym :: more) start end_ run_id exports_dir w
    = (Raise e, w1)
  ∧ same_store w w1
  ∧ Cryptopanic.main_async auth_token [] start end_ run_id exports_dir w
    = (Ok tt,
       with_trace w
         (w_trace w ++
          [EvLogInfo [("event", LStr "cryptopanic_backfill_complete");
                      ("count", LNat 0); ("run_id", LStr run_id)]])).
Proof.
  intros Hbad Hfetch.
  assert (Hacc : Cryptopanic.accumulate auth_token start end_ sym [] w = (Raise e, w1)).
  { unfold Cryptopanic.accumulate. rewrite (bind_ok _ _ _ _ _ Hfetch).
    destruct Hbad as [Hstart|[[d Hstart] Hend]]; rewrite Hstart; [done|].
    rewrite bind_lift_ok. by rewrite Hend. }
  split.
  { unfold Cryptopanic.main_async. cbn [for_each].
    by rewrite (bind_raise _ _ _ _ _ (bind_raise _ _ _ _ _ Hacc)). }
  split; [|reflexivity].
  pose proof (fetch_step_fetch_posts_loop sym auth_token (JStr Cryptopanic.posts_url)
                [] w) as Hstep.
  unfold Cryptopanic.fetch_posts in Hfetch. rewrite Hfetch in Hstep.
  by destruct Hstep as [Hstore _].
Qed.

End LateDates.

Lemma news_run_reads_dates_after_first_fetch_witness :
  let w := Fixtures.test_world [Respond NewsPages.last_page] (λ _, true) DbUp in
  let out := @Cryptopanic.fetch_posts Fixtures.test_runtime "btc" "key"
               "01/01/2024" "2024-01-02" w in
  (∃ items, fst out = Ok items ∧ length items = 1%nat)
  ∧ @Cryptopanic.main_async Fixtures.test_runtime "key" ["btc"; "eth"]
      "01/01/2024" "2024-01-02" "run7" "exports" w = (Raise ValueError, snd out)
  ∧ w_http (snd out) = []
  ∧ same_store w (snd out).
Proof.
  intros w out.
  destruct out as [[items|e] w1] eqn:Hout; [|by vm_compute in Hout].
  destruct (@news_run_reads_dates_after_first_fetch Fixtures.test_runtime
              "key" "btc" "01/01/2024" "2024-01-02" "run7" "exports" ["eth"]
              w w1 items ValueError (or_introl eq_refl) Hout)
    as (Hrun & Hstore & _).
  split; [exists items; split; [done|]; by vm_compute in Hout; injection Hout as <- _|].
  split; [exact Hrun|]. split; [|exact Hstore].
  by vm_compute in Hout; injection Hout as _ <-.
Defined.

(* ===================================================================== *)
(** * The inline persistence of the news and social-sentiment runs         *)
(* ===================================================================== *)

(** The two export writes and the transaction, as the news run (lines 117
    to 133) and the social-sentiment run (lines 90 to 106) chain them. *)
Lemma export_then_store_run df csv pq table w r w' :
  (to_csv df csv ;;; to_parquet df pq ;;; insert_transaction table df) w = (r, w') →
  ∃ evs,
    w_trace w' = w_trace w ++ evs
    ∧ Forall (λ e, (is_export e || is_store e) = true) evs
    ∧ (w_fs_ok w csv = false →
         r = Raise (OSError csv) ∧ w' = w)
    ∧ (w_fs_ok w csv = true → w_fs_ok w pq = false →
         r = Raise (OSError pq)
         ∧ evs = [EvWriteCsv csv df]
         ∧ w_files w' = <[csv := df]> (w_files w)
         ∧ w_tables w' = w_tables w)
    ∧ (w_fs_ok w csv = true → w_fs_ok w pq = true →
         w_files w' = <[pq := df]> (<[csv := df]> (w_files w))
         ∧ match r with
           | Ok _ =>
               w_tables w' = <[table := default [] (w_tables w !! table) ++ df]> (w_tables w)
           | Raise e => e = DBAPIError ∧ w_tables w' = w_tables w
           end).
Proof.
  unfold bind at 1, to_csv, write_file at 1.
  destruct (w_fs_ok w csv) eqn:Hcsv.
  2: { intros [= <- <-]. exists []. rewrite app_nil_r.
       split; [done|]. split; [done|]. by repeat split. }
  unfold bind at 1, to_parquet, write_file at 1. simpl.
  destruct (w_fs_ok w pq) eqn:Hpq.
  2: { intros [= <- <-]. exists [EvWriteCsv csv df]. simpl.
       split; [done|]. split; [by repeat constructor|]. by repeat split. }
  intros Hrun.
  apply insert_transaction_run in Hrun as (evs & Htr & Hst & _ & Hfiles & _ & Hres).
  simpl in Htr, Hfiles, Hres.
  exists ([EvWriteCsv csv df; EvWriteParquet pq df] ++ evs).
  split; [by rewrite Htr, <- !app_assoc|].
  split.
  { apply Forall_app. split; [by repeat constructor|].
    eapply Forall_impl; [exact Hst|]. intros e ->. apply orb_true_r. }
  split; [done|]. split; [done|]. intros _ _. by split.
Qed.

(** X14.  Export failures of the news and of the social-sentiment run.  With a
    batch that is not empty: when the file system refuses the CSV file the
    persistence raises the error of that write and leaves the world exactly
    as it was; when it takes the CSV file and refuses the parquet file the
    persistence raises the error of the second write and leaves the CSV
    file behind.  In both cases no statement reaches the database and no
    table changes. *)
Theorem inline_persist_export_failure_stores_nothing
    (run_id exports_dir : string) (w : world)
    (news : list BFMarketNewsEvents) (points : list BFMarketSentiment) :
  news ≠ [] → points ≠ [] →
  (let csv := Cryptopanic.csv_path exports_dir run_id in
   let pq := Cryptopanic.parquet_path exports_dir run_id in
   let df := map (set_run_id run_id) (map NewsRow news) in
   let out := Cryptopanic.persist news run_id exports_dir w in
   (w_fs_ok w csv = false → out = (Raise (OSError csv), w))
   ∧ (w_fs_ok w csv = true → w_fs_ok w pq = false →
        fst out = Raise (OSError pq)
        ∧ w_trace (snd out) = w_trace w ++ [EvWriteCsv csv df]
        ∧ w_files (snd out) = <[csv := df]> (w_files w)
        ∧ w_tables (snd out) = w_tables w))
  ∧ (let csv := Lunarcrush.csv_path exports_dir run_id in
     let pq := Lunarcrush.parquet_path exports_dir run_id in
     let df := map (set_run_id run_id) (map SentimentRow points) in
     let out := Lunarcrush.persist points run_id exports_dir w in
     (w_fs_ok w csv = false → out = (Raise (OSError csv), w))
     ∧ (w_fs_ok w csv = true → w_fs_ok w pq = false →
          fst out = Raise (OSError pq)
          ∧ w_trace (snd out) = w_trace w ++ [EvWriteCsv csv df]
          ∧ w_files (snd out) = <[csv := df]> (w_files w)
          ∧ w_tables (snd out) = w_tables w)).
Proof.
  intros Hnews Hpoints.
  split; cbv zeta.
  - destruct news as [|x news]; [done|].
    destruct (Cryptopanic.persist (x :: news) run_id exports_dir w)
      as [r w'] eqn:Hrun.
    unfold Cryptopanic.persist in Hrun.
    apply export_then_store_run in Hrun as (evs & Htr & _ & Hcsv & Hpq & _).
    split.
    + intros Hno. by destruct (Hcsv Hno) as [-> ->].
    + intros Hyes Hno. destruct (Hpq Hyes Hno) as (-> & -> & Hfiles & Htables).
      by repeat split.
  - destruct points as [|x points]; [done|].
    destruct (Lunarcrush.persist (x :: points) run_id exports_dir w)
      as [r w'] eqn:Hrun.
    unfold Lunarcrush.persist in Hrun.
    apply export_then_store_run in Hrun as (evs & Htr & _ & Hcsv & Hpq & _).
    split.
    + intros Hno. by destruct (Hcsv Hno) as [-> ->].
    + intros Hyes Hno. destruct (Hpq Hyes Hno) as (-> & -> & Hfiles & Htables).
      by repeat split.
Qed.

Lemma inline_persist_export_failure_stores_nothing_witness :
  let news := [ {| MarketNewsEvents.token_symbol := "BTC";
                   MarketNewsEvents.date := Fixtures.jan01;
                   MarketNewsEvents.title := JStr "Bitcoin up";
                   MarketNewsEvents.description := JStr "";
                   MarketNewsEvents.source := JStr "cryptopanic";
                   MarketNewsEvents.sentiment_score := 0;
                   MarketNewsEvents.url := JStr "";
                   MarketNewsEvents.timestamp_fetched := Fixtures.test_clock 0;
                   MarketNewsEvents.backfill_run_id := "" |} ] in
  let points := [ {| MarketSentiment.token_symbol := "BTC";
                     MarketSentiment.date := Fixtures.jan01;
                     MarketSentiment.sentiment_score := 0;
                     MarketSentiment.positive_mentions := 7;
                     MarketSentiment.negative_mentions := 5;
                     MarketSentiment.neutral_mentions := 0;
                     MarketSentiment.source_api := "lunarcrush";
                     MarketSentiment.timestamp_fetched := Fixtures.test_clock 0;
                     MarketSentiment.backfill_run_id := "" |} ] in
  let csv_only := λ path,
    String.eqb path "exports/cryptopanic_news_run7.csv"
    || String.eqb path "exports/lunarcrush_sentiment_run7.csv" in
  let w := Fixtures.test_world [] csv_only DbUp in
  let w0 := Fixtures.test_world [] (λ _, false) DbUp in
  Cryptopanic.persist news "run7" "exports" w0
    = (Raise (OSError "exports/cryptopanic_news_run7.csv"), w0)
  ∧ fst (Cryptopanic.persist news "run7" "exports" w)
    = Raise (OSError "exports/cryptopanic_news_run7.parquet")
  ∧ w_tables (snd (Cryptopanic.persist news "run7" "exports" w)) = w_tables w
  ∧ fst (Lunarcrush.persist points "run7" "exports" w)
    = Raise (OSError "exports/lunarcrush_sentiment_run7.parquet")
  ∧ w_tables (snd (Lunarcrush.persist points "run7" "exports" w)) = w_tables w.
Proof.
  intros news points csv_only w w0.
  destruct (inline_persist_export_failure_stores_nothing "run7" "exports" w0
              news points ltac:(discriminate) ltac:(discriminate))
    as [[Hnews0 _] _].
  destruct (inline_persist_export_failure_stores_nothing "run7" "exports" w
              news points ltac:(discriminate) ltac:(discriminate))
    as [[_ Hnews] [_ Hpoints]].
  destruct (Hnews eq_refl eq_refl) as (Hn1 & _ & _ & Hn2).
  destruct (Hpoints eq_refl eq_refl) as (Hp1 & _ & _ & Hp2).
  split; [exact (Hnews0 eq_refl)|]. by repeat split.
Defined.

(* ===================================================================== *)
(** * The social-sentiment adapter                                         *)
(* ===================================================================== *)

Lemma sent_app tr1 tr2 : sent (tr1 ++ tr2) = sent tr1 ++ sent tr2.
Proof. apply List.filter_app. Qed.

Lemma sent_offline tr :
  Forall (λ e, is_get e = false ∧ is_sleep e = false) tr → sent tr = [].
Proof.
  induction 1 as [|e tr [Hg Hs] _ IH]; [done|].
  unfold sent in *. simpl. by rewrite Hg, Hs.
Qed.

Lemma sent_persisted tr :
  Forall (λ e, (is_export e || is_store e) = true) tr → sent tr = [].
Proof.
  intros Htr. apply sent_offline.
  eapply Forall_impl; [exact Htr|]. intros e He. by destruct e.
Qed.

Section Social.
Context `{Runtime}.

Lemma sentiment_point_canonical symbol p :
  post (Lunarcrush.sentiment_point symbol p) (canonical_point symbol).
Proof.
  unfold Lunarcrush.sentiment_point. post_steps.
  repeat split. simpl. lia.
Qed.

(** X15.  Whatever the provider sends, every record [fetch_daily] returns names
    the token in upper case and the provider as its source, is in flight,
    and has a count of neutral mentions that is not negative. *)
Theorem fetch_daily_records_are_canonical
    (api_key symbol start end_ : string) (w : world)
    (rows : list BFMarketSentiment) (w' : world) :
  Lunarcrush.fetch_daily api_key symbol start end_ w = (Ok rows, w') →
  Forall (canonical_point symbol) rows.
Proof.
  revert w rows w'.
  change (post (Lunarcrush.fetch_daily api_key symbol start end_)
            (Forall (canonical_point symbol))).
  unfold Lunarcrush.fetch_daily.
  apply post_bind; intros r.
  destruct (negb _).
  { apply post_bind; intros _. by apply post_ret. }
  apply post_bind; intros payload.
  apply post_bind; intros d.
  apply post_bind; intros data.
  apply post_for_each; [|constructor].
  intros series rows Hrows.
  apply post_bind; intros ts0.
  apply post_bind; intros ts.
  apply post_for_each; [|done].
  intros p rows' Hrows'.
  eapply post_bind_strong; [apply sentiment_point_canonical|].
  intros item Hitem. apply post_ret.
  apply Forall_app. split; [done | by constructor].
Qed.

(** X16.  The answers that give no record.  A status that is not 200, a 429
    included, is logged with the start of the body and gives the empty
    list, with no wait and no second request.  A 200 whose body is an
    object with no "data", or with "data" null or empty, gives the empty
    list and logs nothing. *)
Theorem fetch_daily_without_data_returns_nothing
    (api_key symbol start end_ : string) (w : world)
    (r : response) (rest : list outcome) :
  w_http w = Respond r :: rest →
  let req := daily_request api_key symbol start end_ in
  (status_code r ≠ 200 →
     Lunarcrush.fetch_daily api_key symbol start end_ w
       = (Ok [],
          with_http
            (with_trace w
               (w_trace w ++
                [EvGet req;
                 EvLogError [("event", LStr "lunarcrush_http_error");
                             ("status", LInt (status_code r));
                             ("body", LStr (take_str 200 (text r)))]]))
            rest))
  ∧ (∀ payload,
       status_code r = 200 →
       json_body r = Ok (JObj payload) →
       truthy (field payload "data") = false →
       Lunarcrush.fetch_daily api_key symbol start end_ w
         = (Ok [], with_http (with_trace w (w_trace w ++ [EvGet req])) rest)).
Proof.
  intros Hhttp req.
  split.
  - intros Hstatus. unfold Lunarcrush.fetch_daily. fold (daily_request api_key symbol start end_).
    fold req.
    rewrite (bind_ok _ _ _ _ _ (client_get_respond req w r rest Hhttp)).
    apply Z.eqb_neq in Hstatus. rewrite Hstatus. cbn [negb].
    unfold bind, logger_error, emit, ret. cbn [w_trace with_trace with_http].
    by rewrite <- app_assoc.
  - intros payload Hstatus Hbody Hdata.
    unfold Lunarcrush.fetch_daily. fold (daily_request api_key symbol start end_).
    fold req.
    rewrite (bind_ok _ _ _ _ _ (client_get_respond req w r rest Hhttp)).
    rewrite Hstatus. change (negb (200 =? 200)%Z) with false. cbv iota.
    rewrite Hbody, bind_lift_ok.
    change (get (JObj payload) "data" JNull) with (@Ok json (field payload "data")).
    rewrite bind_lift_ok. unfold py_or. rewrite Hdata. cbn [iter].
    rewrite bind_lift_ok. reflexivity.
Qed.

(** [fetch_daily] sends its one request and then works offline. *)
Lemma fetch_daily_run api_key symbol start end_ w :
  ∃ tail,
    w_trace (snd (Lunarcrush.fetch_daily api_key symbol start end_ w))
      = w_trace w ++ EvGet (daily_request api_key symbol start end_) :: tail
    ∧ Forall (λ e, is_get e = false ∧ is_sleep e = false) tail.
Proof.
  unfold Lunarcrush.fetch_daily. fold (daily_request api_key symbol start end_).
  unfold bind at 1, client_get.
  destruct (w_http w) as [|[r|e] rest]; [by exists [] | | by exists []].
  match goal with |- context [snd (?k ?w1)] =>
    assert (Hk : respects offline_step k);
    [| destruct (Hk w1) as (_ & tail & Htr & Htail) ]
  end.
  { frame_with offline_step_refl offline_step_trans
      ltac:(first [ apply offline_step_log | apply offline_step_utcnow ]). }
  exists tail. split; [|done].
  rewrite Htr. simpl. by rewrite <- app_assoc.
Qed.

(** The loop of the social-sentiment run over the tokens. *)
Lemma social_loop_sent api_key start end_ (token_list : list string) :
  ∀ acc w r w',
    for_each token_list
      (λ sym all_rows,
         rows <- Lunarcrush.fetch_daily api_key sym start end_ ;;
         ret (all_rows ++ rows))
      acc w = (r, w') →
    ∃ tr,
      w_trace w' = w_trace w ++ tr
      ∧ sent tr `prefix_of` map (λ sym, EvGet (daily_request api_key sym start end_))
                              token_list
      ∧ (∀ all_rows, r = Ok all_rows →
           sent tr = map (λ sym, EvGet (daily_request api_key sym start end_))
                       token_list).
Proof.
  induction token_list as [|sym token_list IH]; intros acc w r w'.
  - simpl. unfold ret. intros [= <- <-]. exists []. rewrite app_nil_r. by repeat split.
  - destruct (fetch_daily_run api_key sym start end_ w) as (tail & Htr & Htail).
    destruct (Lunarcrush.fetch_daily api_key sym start end_ w) as [[rows|e] w1] eqn:Hfetch;
      cbn [snd] in Htr.
    + erewrite for_each_cons_ok; [|by rewrite (bind_ok _ _ _ _ _ Hfetch)].
      intros Hrest. apply IH in Hrest as (tr & Htr' & Hpre & Hall).
      exists (EvGet (daily_request api_key sym start end_) :: tail ++ tr).
      split; [rewrite Htr', Htr; by rewrite <- app_assoc|].
      assert (Hsent : sent (EvGet (daily_request api_key sym start end_) :: tail ++ tr)
                      = EvGet (daily_request api_key sym start end_) :: sent tr).
      { change (EvGet ?r :: tail ++ tr) with ([EvGet r] ++ tail ++ tr).
        rewrite !sent_app, (sent_offline tail Htail). reflexivity. }
      rewrite Hsent. simpl.
      split; [by apply prefix_cons|].
      intros all_rows Hok. f_equal. by eapply Hall.
    + cbn [for_each].
      rewrite (bind_raise _ _ _ _ _ (bind_raise _ _ _ _ _ Hfetch)).
      intros [= <- <-].
      exists (EvGet (daily_request api_key sym start end_) :: tail).
      split; [done|].
      assert (Hsent : sent (EvGet (daily_request api_key sym start end_) :: tail)
                      = [EvGet (daily_request api_key sym start end_)]).
      { change (EvGet ?r :: tail) with ([EvGet r] ++ tail).
        rewrite sent_app, (sent_offline tail Htail). reflexivity. }
      rewrite Hsent. simpl.
      split; [apply prefix_cons, prefix_nil | discriminate].
Qed.

(** X17.  The requests of a social-sentiment run.  Whatever the provider, the
    file system and the database do, the run sends at most one request per
    token, in the order of the token list, each with the two dates of the
    run at midnight UTC, and never waits; a run that ends normally has sent
    exactly one request for every token. *)
Theorem social_run_one_request_per_token
    (api_key : string) (token_list : list string)
    (start end_ run_id exports_dir : string) (w : world) :
  let out := Lunarcrush.main_async api_key token_list start end_ run_id exports_dir w in
  let req := λ sym, EvGet (daily_request api_key sym (start +:+ "T00:00:00Z")
                             (end_ +:+ "T00:00:00Z")) in
  ∃ tr,
    w_trace (snd out) = w_trace w ++ tr
    ∧ sent tr `prefix_of` map req token_list
    ∧ (fst out = Ok tt → sent tr = map req token_list).
Proof.
  intros out req. subst out.
  destruct (Lunarcrush.main_async api_key token_list start end_ run_id exports_dir w)
    as [res w'] eqn:Hrun.
  cbn [fst snd]. unfold Lunarcrush.main_async in Hrun.
  destruct (for_each token_list
              (λ sym all_rows,
                 rows <- Lunarcrush.fetch_daily api_key sym (start +:+ "T00:00:00Z")
                           (end_ +:+ "T00:00:00Z") ;;
                 ret (all_rows ++ rows))
              [] w) as [[all_rows|e] w1] eqn:Hloop.
  2: { rewrite (bind_raise _ _ _ _ _ Hloop) in Hrun. injection Hrun as <- <-.
       apply social_loop_sent in Hloop as (tr & Htr & Hpre & _).
       exists tr. split; [done|]. split; [done|]. discriminate. }
  rewrite (bind_ok _ _ _ _ _ Hloop) in Hrun.
  apply social_loop_sent in Hloop as (tr & Htr & _ & Hall).
  specialize (Hall all_rows eq_refl). fold req in Hall.
  assert (Hpersist : ∃ evs,
    w_trace (snd (Lunarcrush.persist all_rows run_id exports_dir w1))
      = w_trace w1 ++ evs
    ∧ Forall (λ e, (is_export e || is_store e) = true) evs).
  { clear Hrun. destruct all_rows as [|x all_rows].
    - exists []. simpl. by rewrite app_nil_r.
    - destruct (Lunarcrush.persist (x :: all_rows) run_id exports_dir w1)
        as [r w2] eqn:Hstore.
      unfold Lunarcrush.persist in Hstore.
      apply export_then_store_run in Hstore as (evs & Hevs & Hkinds & _).
      by exists evs. }
  destruct Hpersist as (evs & Hevs & Hkinds).
  destruct (Lunarcrush.persist all_rows run_id exports_dir w1) as [[[]|e] w2] eqn:Hp;
    cbn [snd] in Hevs.
  - rewrite (bind_ok _ _ _ _ _ Hp) in Hrun.
    unfold logger_info, emit in Hrun. injection Hrun as <- <-.
    cbn [w_trace with_trace].
    eexists (tr ++ evs ++ [_]).
    split; [by rewrite Hevs, Htr, <- !app_assoc|].
    rewrite !sent_app, (sent_persisted evs Hkinds), Hall. simpl.
    rewrite app_nil_r. by split.
  - rewrite (bind_raise _ _ _ _ _ Hp) in Hrun. injection Hrun as <- <-.
    exists (tr ++ evs).
    split; [by rewrite Hevs, Htr, <- !app_assoc|].
    rewrite sent_app, (sent_persisted evs Hkinds), Hall, app_nil_r.
    split; [done|discriminate].
Qed.

End Social.

Lemma fetch_daily_records_are_canonical_witness :
  let w := Fixtures.test_world [Respond SocialAnswers.series] (λ _, true) DbUp in
  let out := @Lunarcrush.fetch_daily Fixtures.test_runtime "key" "btc"
               "2024-01-01T00:00:00Z" "2024-01-02T00:00:00Z" w in
  ∃ rows,
    fst out = Ok rows
    ∧ map MarketSentiment.neutral_mentions rows = [8; 0]
    ∧ Forall (canonical_point "btc") rows.
Proof.
  intros w out.
  destruct out as [[rows|e] w'] eqn:Hout; [|by vm_compute in Hout].
  exists rows. split; [reflexivity|].
  split; [by vm_compute in Hout; injection Hout as <- _|].
  exact (@fetch_daily_records_are_canonical Fixtures.test_runtime "key" "btc"
           "2024-01-01T00:00:00Z" "2024-01-02T00:00:00Z" w rows w' Hout).
Defined.

Lemma fetch_daily_without_data_returns_nothing_witness :
  let refusal := {| status_code := 429; text := "slow down";
                    json_body := Raise JSONDecodeError |} in
  let w1 := Fixtures.test_world [Respond refusal; Respond SocialAnswers.series]
              (λ _, true) DbUp in
  let w2 := Fixtures.test_world [Respond SocialAnswers.no_data] (λ _, true) DbUp in
  let req := daily_request "key" "btc" "2024-01-01T00:00:00Z" "2024-01-02T00:00:00Z" in
  @Lunarcrush.fetch_daily Fixtures.test_runtime "key" "btc"
    "2024-01-01T00:00:00Z" "2024-01-02T00:00:00Z" w1
    = (Ok [],
       with_http
         (with_trace w1
            (w_trace w1 ++
             [EvGet req;
              EvLogError [("event", LStr "lunarcrush_http_error");
                          ("status", LInt 429);
                          ("body", LStr (take_str 200 "slow down"))]]))
         [Respond SocialAnswers.series])
  ∧ @Lunarcrush.fetch_daily Fixtures.test_runtime "key" "btc"
      "2024-01-01T00:00:00Z" "2024-01-02T00:00:00Z" w2
    = (Ok [], with_http (with_trace w2 (w_trace w2 ++ [EvGet req])) []).
Proof.
  intros refusal w1 w2 req.
  split.
  - destruct (@fetch_daily_without_data_returns_nothing Fixtures.test_runtime
                "key" "btc" "2024-01-01T00:00:00Z" "2024-01-02T00:00:00Z"
                w1 refusal [Respond SocialAnswers.series] eq_refl) as [Hrefused _].
    apply Hrefused. discriminate.
  - destruct (@fetch_daily_without_data_returns_nothing Fixtures.test_runtime
                "key" "btc" "2024-01-01T00:00:00Z" "2024-01-02T00:00:00Z"
                w2 SocialAnswers.no_data [] eq_refl) as [_ Hnone].
    by apply (Hnone [("config", JObj []); ("data", JNull)]).
Defined.

(* ===================================================================== *)
(** * Exports before the store, in the news and social-sentiment runs      *)
(* ===================================================================== *)

Lemma export_then_store_refused x df csv pq table w :
  w_fs_ok w csv = true → w_fs_ok w pq = true →
  exports_then_is_refused
    (to_csv (x :: df) csv ;;; to_parquet (x :: df) pq ;;;
     insert_transaction table (x :: df))
    csv pq (x :: df) w.
Proof.
  intros Hcsv Hpq.
  unfold exports_then_is_refused.
  unfold bind at 1, to_csv, write_file at 1. rewrite Hcsv.
  unfold bind at 1, to_parquet, write_file at 1.
  cbn [w_fs_ok with_trace with_files]. rewrite Hpq.
  rewrite insert_transaction_refused.
  cbn [w_db w_trace w_files w_tables with_trace with_files].
  destruct (w_db w).
  2: { eexists _, []. split; [reflexivity|].
       cbn [w_trace w_files w_tables with_trace with_files].
       rewrite <- !app_assoc. by repeat split. }
  all: eexists _, [EvBegin; EvInsert table x; EvRollback].
  all: split; [reflexivity|].
  all: cbn [w_trace w_files w_tables with_trace with_files].
  all: rewrite <- !app_assoc.
  all: split; [done|]; split; [by repeat constructor|]; by split.
Qed.

(** X18.  The persistence of the news run and of the social-sentiment run,
    with a batch that is not empty, records the parquet writer can encode
    (text fields that are strings, counts that fit 64 bits) and a file
    system that takes both writes: every row of the frame carries [run_id];
    the CSV file and the parquet file, named by [run_id], are written
    before the transaction begins and hold the frame at the end; the INSERT
    statement writes its values as [%(name)s], which [sqlalchemy.text] does
    not bind, so the transaction is refused, the step ends in the
    database's exception and no table has changed. *)
Theorem inline_persist_exports_then_is_refused
    (run_id exports_dir : string) (w : world)
    (news : list BFMarketNewsEvents) (points : list BFMarketSentiment) :
  news ≠ [] → points ≠ [] →
  forallb text_record news = true → forallb counted_record points = true →
  (let csv := Cryptopanic.csv_path exports_dir run_id in
   let pq := Cryptopanic.parquet_path exports_dir run_id in
   let df := map (set_run_id run_id) (map NewsRow news) in
   w_fs_ok w csv = true → w_fs_ok w pq = true →
   Forall (λ x, row_run_id x = run_id) df
   ∧ length df = length news
   ∧ exports_then_is_refused (Cryptopanic.persist news run_id exports_dir)
       csv pq df w)
  ∧ (let csv := Lunarcrush.csv_path exports_dir run_id in
     let pq := Lunarcrush.parquet_path exports_dir run_id in
     let df := map (set_run_id run_id) (map SentimentRow points) in
     w_fs_ok w csv = true → w_fs_ok w pq = true →
     Forall (λ x, row_run_id x = run_id) df
     ∧ length df = length points
     ∧ exports_then_is_refused (Lunarcrush.persist points run_id exports_dir)
         csv pq df w).
Proof.
  intros Hnews Hpoints _ _.
  split; cbv zeta; intros Hcsv Hpq.
  - split; [apply stamped_frame|]. split; [by rewrite !length_map|].
    destruct news as [|x news]; [done|].
    by apply export_then_store_refused.
  - split; [apply stamped_frame|]. split; [by rewrite !length_map|].
    destruct points as [|x points]; [done|].
    by apply export_then_store_refused.
Qed.

Lemma inline_persist_exports_then_is_refused_witness :
  let news := [ {| MarketNewsEvents.token_symbol := "BTC";
                   MarketNewsEvents.date := Fixtures.jan01;
                   MarketNewsEvents.title := JStr "Bitcoin up";
                   MarketNewsEvents.description := JStr "";
                   MarketNewsEvents.source := JStr "cryptopanic";
                   MarketNewsEvents.sentiment_score := 0;
                   MarketNewsEvents.url := JStr "";
                   MarketNewsEvents.timestamp_fetched := Fixtures.test_clock 0;
                   MarketNewsEvents.backfill_run_id := "" |} ] in
  let points := [ {| MarketSentiment.token_symbol := "BTC";
                     MarketSentiment.date := Fixtures.jan01;
                     MarketSentiment.sentiment_score := 0;
                     MarketSentiment.positive_mentions := 7;
                     MarketSentiment.negative_mentions := 5;
                     MarketSentiment.neutral_mentions := 0;
                     MarketSentiment.source_api := "lunarcrush";
                     MarketSentiment.timestamp_fetched := Fixtures.test_clock 0;
                     MarketSentiment.backfill_run_id := "" |} ] in
  let w := Fixtures.test_world [] (λ _, true) DbUp in
  exports_then_is_refused (Cryptopanic.persist news "run7" "exports")
    "exports/cryptopanic_news_run7.csv" "exports/cryptopanic_news_run7.parquet"
    (map (set_run_id "run7") (map NewsRow news)) w
  ∧ exports_then_is_refused (Lunarcrush.persist points "run7" "exports")
      "exports/lunarcrush_sentiment_run7.csv"
      "exports/lunarcrush_sentiment_run7.parquet"
      (map (set_run_id "run7") (map SentimentRow points)) w
  ∧ fst (Cryptopanic.persist news "run7" "exports" w) = Raise DBAPIError.
Proof.
  intros news points w.
  destruct (inline_persist_exports_then_is_refused "run7" "exports" w news points
              ltac:(discriminate) ltac:(discriminate) eq_refl eq_refl)
    as [Hnews Hpoints].
  destruct (Hnews eq_refl eq_refl) as (_ & _ & Hn).
  destruct (Hpoints eq_refl eq_refl) as (_ & _ & Hp).
  split; [exact Hn|]. split; [exact Hp|]. reflexivity.
Defined.

(* ===================================================================== *)
(** * What can end a price run                                             *)
(* ===================================================================== *)

Section PriceRunEndings.
Context `{Runtime}.

(** X19.  The provider cannot end a price run.  For an end date before the
    last date a [date] can hold, whatever the provider answers (errors of
    the transport, timeouts, refusals, bodies that are not JSON or have the
    wrong shape, numbers no [float] holds): the fetches of the whole run
    return and leave the files and the tables alone; an exception that
    leaves the run is the exception [upsert_and_export] raised on the
    accumulated batch, in the world the fetches left; and a run whose
    fetches gave no record ends normally. *)
Theorem provider_cannot_end_price_run
    (api_key : string) (token_list : list string) (start_d end_d : Py.date)
    (run_id exports_dir : string) (w : world) :
  end_d < date_max →
  ∃ all_rows w1,
    Coinapi.collect api_key token_list start_d end_d w = (Ok all_rows, w1)
    ∧ fetch_step w w1
    ∧ (∀ e w',
         Coinapi.main_async api_key token_list start_d end_d run_id exports_dir w
           = (Raise e, w') →
         Coinapi.upsert_and_export all_rows run_id exports_dir w1 = (Raise e, w'))
    ∧ (all_rows = [] →
       fst (Coinapi.main_async api_key token_list start_d end_d
              run_id exports_dir w) = Ok tt).
Proof.
  intros Hmax.
  destruct (collect_visits api_key token_list start_d end_d Hmax w)
    as (all_rows & w1 & Hcollect & _).
  pose proof (fetch_step_collect api_key token_list start_d end_d w) as Hstep.
  rewrite Hcollect in Hstep. cbn [snd] in Hstep.
  exists all_rows, w1. split; [done|]. split; [done|].
  unfold Coinapi.main_async. rewrite (bind_ok _ _ _ _ _ Hcollect).
  split.
  - intros e w'.
    destruct (Coinapi.upsert_and_export all_rows run_id exports_dir w1)
      as [[[]|e0] w2] eqn:Hpersist.
    + rewrite (bind_ok _ _ _ _ _ Hpersist). discriminate.
    + by rewrite (bind_raise _ _ _ _ _ Hpersist).
  - by intros ->.
Qed.

End PriceRunEndings.

Lemma provider_cannot_end_price_run_witness :
  let garbage := Respond {| status_code := 200; text := "<html>";
                            json_body := Raise JSONDecodeError |} in
  let too_big :=
    Fixtures.ok_response (JArr [JObj [("price_open", JInt (10 ^ 400))]]) in
  let w := Fixtures.test_world
             [Fail (TransportError "ConnectionResetError");
              Fixtures.status_response 503 "down"; garbage; too_big]
             (λ _, true) DbUp in
  ∃ w1,
    @Coinapi.collect Fixtures.test_runtime "key" ["BTC"; "ETH"; "SOL"]
      Fixtures.jan01 Fixtures.jan02 w = (Ok [], w1)
    ∧ fetch_step w w1
    ∧ fst (@Coinapi.main_async Fixtures.test_runtime "key" ["BTC"; "ETH"; "SOL"]
             Fixtures.jan01 Fixtures.jan02 "run7" "exports" w) = Ok tt.
Proof.
  intros garbage too_big w.
  destruct (@provider_cannot_end_price_run Fixtures.test_runtime "key"
              ["BTC"; "ETH"; "SOL"] Fixtures.jan01 Fixtures.jan02 "run7" "exports" w
              ltac:(reflexivity)) as (all_rows & w1 & Hcollect & Hstep & _ & Hok).
  assert (Hnone : all_rows = []).
  { vm_compute in Hcollect. by injection Hcollect as <- _. }
  subst all_rows. exists w1. by split; [|split; [|apply Hok]].
Defined.
